(** * A shallow embedding of the download orchestration core

    Sources: [downloader.py] (orchestrator [download_video], the pytube and
    yt-dlp adapters, [_determine_template], [_human_readable_size]),
    [gui.py] (class [WorkerControl], [DownloadWorker.run], the progress bar
    of the window) and [backend/app.py] (the endpoint [download_endpoint]).

    Python values are embedded as follows.
    - [str] is [string], a character standing for the code point of the
      same number: the strings of the model are the Python strings over the
      code points below 256. [None]-able arguments are [option].
    - [pathlib] paths are a record of an anchor flag and the list of parts
      (POSIX flavour).
    - [dict]s with a fixed key set are records with optional fields, the
      open ones ([status], [download_info], the file system) are [gmap]s.
    - Exceptions, shared mutable state and the calls into the two extraction
      libraries are threaded through a state-and-error monad [M] over a
      [world].
    - A percentage is an exact rational ([Q], reduced), the rounding of
      Python floats is not represented. *)

From Stdlib Require Import Ascii String QArith Qround Lqa Sorted.
From stdpp Require Import gmap strings list fin_maps pretty.

Local Open Scope string_scope.
Local Open Scope list_scope.

(* ===================================================================== *)
(** ** Strings *)
(* ===================================================================== *)

Module Str.

(** [s.rfind(c)] for a one-character needle; [None] is Python's [-1]. *)
Fixpoint rfind (c : ascii) (s : string) : option nat :=
  match s with
  | EmptyString => None
  | String a s' =>
      match rfind c s' with
      | Some i => Some (S i)
      | None => if Ascii.eqb a c then Some 0 else None
      end
  end.

(** [s[:i]] and [s[i:]]. *)
Fixpoint take (i : nat) (s : string) : string :=
  match i, s with
  | S i', String a s' => String a (take i' s')
  | _, _ => EmptyString
  end.

Fixpoint drop (i : nat) (s : string) : string :=
  match i, s with
  | S i', String _ s' => drop i' s'
  | _, _ => s
  end.

(** [c in s]. *)
Fixpoint contains (c : ascii) (s : string) : bool :=
  match s with
  | EmptyString => false
  | String a s' => Ascii.eqb a c || contains c s'
  end.

(** [s.startswith(p)]. *)
Fixpoint startswith (p s : string) : bool :=
  match p, s with
  | EmptyString, _ => true
  | String a p', String b s' => Ascii.eqb a b && startswith p' s'
  | String _ _, EmptyString => false
  end.

(** [s.lstrip(chars)] for a one-character set. *)
Fixpoint lstrip_char (c : ascii) (s : string) : string :=
  match s with
  | String a s' => if Ascii.eqb a c then lstrip_char c s' else s
  | EmptyString => EmptyString
  end.

(** [str.isspace] on the code points below 256: TAB, LF, VT, FF, CR, FS,
    GS, RS, US, the space, NEL (U+0085) and the no-break space (U+00A0).
    These are the characters that [str.strip] removes. *)
Definition isspace (a : ascii) : bool :=
  let n := nat_of_ascii a in
  ((9 <=? n)%nat && (n <=? 13)%nat) || ((28 <=? n)%nat && (n <=? 32)%nat)
  || (n =? 133)%nat || (n =? 160)%nat.

Fixpoint lstrip (s : string) : string :=
  match s with
  | String a s' => if isspace a then lstrip s' else s
  | EmptyString => EmptyString
  end.

Fixpoint rstrip (s : string) : string :=
  match s with
  | EmptyString => EmptyString
  | String a s' =>
      match rstrip s' with
      | EmptyString => if isspace a then EmptyString else String a EmptyString
      | t => String a t
      end
  end.

(** [s.strip()]. *)
Definition strip (s : string) : string := rstrip (lstrip s).

(** [s.replace(old, new)] for a non-empty [old]: leftmost occurrences,
    not overlapping. [fuel] bounds the number of characters looked at. *)
Fixpoint replace_fuel (fuel : nat) (old new s : string) : string :=
  match fuel with
  | O => s
  | S fuel' =>
      match s with
      | EmptyString => EmptyString
      | String a s' =>
          if startswith old s
          then new +:+ replace_fuel fuel' old new (drop (String.length old) s)
          else String a (replace_fuel fuel' old new s')
      end
  end.

Definition replace (old new s : string) : string :=
  replace_fuel (String.length s) old new s.

(** [sep.join(parts)]. *)
Fixpoint join (sep : string) (parts : list string) : string :=
  match parts with
  | [] => EmptyString
  | [p] => p
  | p :: ps => p +:+ sep +:+ join sep ps
  end.

(** [s.split(c)] for a one-character separator. *)
Fixpoint split (c : ascii) (s : string) : list string :=
  match s with
  | EmptyString => [EmptyString]
  | String a s' =>
      if Ascii.eqb a c then EmptyString :: split c s'
      else match split c s' with
           | p :: ps => String a p :: ps
           | [] => [String a EmptyString]
           end
  end.

(** Python truthiness of a [str]. *)
Definition nonempty (s : string) : bool :=
  match s with EmptyString => false | _ => true end.

End Str.

(** Truthiness of an optional string ([None] and [""] are falsy). *)
Definition truthy (o : option string) : bool :=
  match o with Some s => Str.nonempty s | None => false end.

(* ===================================================================== *)
(** ** pathlib *)
(* ===================================================================== *)

(** A pure path: whether it starts at the root, and its parts. *)
Record Path := mkPath { anchored : bool; parts : list string }.

#[global] Instance Path_eq_dec : EqDecision Path.
Proof. solve_decision. Defined.

Module PurePath.

(** [Path(s)]: split at the separator, drop empty and [.] parts. *)
Definition keep_part (p : string) : bool :=
  Str.nonempty p && negb (String.eqb p ".").

Definition of_string (s : string) : Path :=
  {| anchored := Str.startswith "/" s;
     parts := filter (fun p => Is_true (keep_part p)) (Str.split "/" s) |}.

(** [str(p)]. *)
Definition to_string (p : Path) : string :=
  match anchored p, parts p with
  | false, [] => "."
  | false, ps => Str.join "/" ps
  | true, ps => "/" +:+ Str.join "/" ps
  end.

(** [p.name]: the last part, or the empty string. *)
Definition name (p : Path) : string := List.last (parts p) "".

(** The suffix of a file name: [i = name.rfind('.')], and
    [name[i:]] when [0 < i < len(name) - 1]. *)
Definition suffix_of_name (n : string) : string :=
  match Str.rfind "." n with
  | Some i =>
      if (0 <? i)%nat && (i <? String.length n - 1)%nat
      then Str.drop i n else ""
  | None => ""
  end.

Definition suffix (p : Path) : string := suffix_of_name (name p).

(** [p.with_suffix(suf)] for a well-formed [suf] (a dot followed by
    something); [None] stands for the [ValueError] on an empty name. *)
Definition with_suffix (p : Path) (suf : string) : option Path :=
  let n := name p in
  if negb (Str.nonempty n) then None
  else
    let old := suffix_of_name n in
    let n' :=
      if Str.nonempty old
      then Str.take (String.length n - String.length old) n +:+ suf
      else n +:+ suf in
    Some {| anchored := anchored p;
            parts := List.removelast (parts p) ++ [n'] |}.

(** [p / child] for a single-part child. *)
Definition child (p : Path) (c : string) : Path :=
  {| anchored := anchored p; parts := parts p ++ [c] |}.

End PurePath.

(* ===================================================================== *)
(** ** [_determine_template] *)
(* ===================================================================== *)

(** The result [None] stands for the [ValueError] that [with_suffix]
    raises on a path with an empty name; by [determine_template_total]
    below it does not occur. *)
Definition _determine_template (filename : option string) (audio_only : bool)
  : option (string * option string) :=
  let ext := if audio_only then Some "mp3" else None in
  if truthy filename then
    let name := PurePath.of_string (default "" filename) in
    if Str.nonempty (PurePath.suffix name) then
      if audio_only then
        match PurePath.with_suffix name ".mp3" with
        | Some p => Some (PurePath.to_string p, Some "mp3")
        | None => None
        end
      else Some (PurePath.to_string name,
                 Some (Str.lstrip_char "." (PurePath.suffix name)))
    else Some (PurePath.name name +:+ ".%(ext)s", ext)
  else Some ("%(title)s.%(ext)s", ext).

(* ===================================================================== *)
(** ** Exceptions *)
(* ===================================================================== *)

(** The classes of the exceptions that occur; all of them derive from
    [Exception]. [DownloadError] and [DownloadCancelled] are the two classes
    that [downloader.py] declares. *)
Inductive exn_class :=
| DownloadError
| DownloadCancelled
| ValueError
| RuntimeError
| TypeError
| ZeroDivisionError
| OSError
| OtherException (cls : string).

(** An exception instance: its class and [str(exc)]. *)
Record exn := mkExn { exn_cls : exn_class; exn_str : string }.

#[global] Instance exn_class_eq_dec : EqDecision exn_class.
Proof. solve_decision. Defined.

#[global] Instance exn_eq_dec : EqDecision exn.
Proof. solve_decision. Defined.

(** [isinstance(exc, DownloadCancelled)]: what [except DownloadCancelled]
    catches. *)
Definition is_cancelled (e : exn) : bool :=
  match exn_cls e with DownloadCancelled => true | _ => false end.

(* ===================================================================== *)
(** ** [WorkerControl] (gui.py) *)
(* ===================================================================== *)

(** The two [threading.Event]s of a control object; an event is its flag. *)
Record WorkerControl := mkControl {
  _resume_event : bool;
  _cancel_event : bool
}.

#[global] Instance WorkerControl_eq_dec : EqDecision WorkerControl.
Proof. solve_decision. Defined.

Module Control.

(** [__init__]: the resume event is set, the cancel event is not. *)
Definition init : WorkerControl :=
  {| _resume_event := true; _cancel_event := false |}.

Definition pause (c : WorkerControl) : WorkerControl :=
  {| _resume_event := false; _cancel_event := _cancel_event c |}.

Definition resume (c : WorkerControl) : WorkerControl :=
  {| _resume_event := true; _cancel_event := _cancel_event c |}.

(** [cancel]: first the cancel event is set, then the resume event. *)
Definition cancel (c : WorkerControl) : WorkerControl :=
  let c1 := {| _resume_event := _resume_event c; _cancel_event := true |} in
  {| _resume_event := true; _cancel_event := _cancel_event c1 |}.

Definition is_paused (c : WorkerControl) : bool := negb (_resume_event c).

(** The spec's [cancelled] flag. *)
Definition cancelled (c : WorkerControl) : bool := _cancel_event c.

(** The methods the controlling thread calls. *)
Inductive op := Pause | Resume | Cancel.

Definition apply (o : op) : WorkerControl -> WorkerControl :=
  match o with Pause => pause | Resume => resume | Cancel => cancel end.

Definition run (ops : list op) (c : WorkerControl) : WorkerControl :=
  fold_left (fun c o => apply o c) ops c.

(** The atomic steps of the controlling thread, as the worker thread can
    see them interleaved with its own reads of the two events. *)
Inductive step := CancelSet | ResumeSet | ResumeClear.

Definition do_step (s : step) (c : WorkerControl) : WorkerControl :=
  match s with
  | CancelSet => {| _resume_event := _resume_event c; _cancel_event := true |}
  | ResumeSet => {| _resume_event := true; _cancel_event := _cancel_event c |}
  | ResumeClear => {| _resume_event := false; _cancel_event := _cancel_event c |}
  end.

Definition do_steps (ss : list step) (c : WorkerControl) : WorkerControl :=
  fold_left (fun c s => do_step s c) ss c.

Definition steps_of (o : op) : list step :=
  match o with
  | Pause => [ResumeClear]
  | Resume => [ResumeSet]
  | Cancel => [CancelSet; ResumeSet]
  end.

#[global] Instance step_eq_dec : EqDecision step.
Proof. solve_decision. Defined.

End Control.

(* ===================================================================== *)
(** ** The world *)
(* ===================================================================== *)

(** File system: absolute part lists to nodes. *)
Inductive node := File (content : string) | Dir.

(** The console: [sys.stdout], [sys.stderr] and the two originals
    [sys.__stdout__], [sys.__stderr__]. *)
Inductive std_stream := Stdout | Stderr | DunderStdout | DunderStderr.

(** A console message, by the values that are formatted into it (the
    rendering of numbers as text is not represented). *)
Inductive console_msg :=
| MsgDownloading (bytes_downloaded total_size : Z)
| MsgComplete (destination : string)
| MsgPytubeFailed (reason : string).

(** A pytube stream, by the attributes this program reads. *)
Record Stream := mkStream {
  itag : nat;
  is_progressive : bool;
  only_audio : bool;
  subtype : string;
  resolution : option string;
  abr : option string;
  filesize : Z;
  filesize_approx : Z;
  default_filename : string
}.

#[global] Instance Stream_eq_dec : EqDecision Stream.
Proof. solve_decision. Defined.

(** A value of a yt-dlp status dictionary. *)
Inductive pyval := PyNone | PyStr (s : string) | PyInt (z : Z).

#[global] Instance pyval_eq_dec : EqDecision pyval.
Proof. solve_decision. Defined.

(** The options dictionary handed to [YoutubeDL]; a key that may be absent
    is an [option]. The hook list always holds the one hook [_hook] and is
    not a field. *)
Record ydl_opts := mkOpts {
  outtmpl : string;
  format : string;
  noprogress : bool;
  quiet : bool;
  overwrites : bool;
  ffmpeg_location : option string;
  merge_output_format : option string;
  postprocessors : option (list (string * string * string));
  postprocessor_args : option (list string);
  paths_home : option string;
  paths_temp : option string;
  cookiefile : option string;
  http_headers : option (gmap string string)
}.

(** A call into one of the two extraction libraries. For yt-dlp, [jar] is
    the content of the cookie file that the options name, as the library
    finds it when it is called. *)
Inductive ext_call :=
| CallYouTube (url : string)
| CallStreamDownload (s : Stream) (output_path filename : string)
| CallYdlDownload (opts : ydl_opts) (url : string) (jar : option string).

(** A progress event as the sink receives it. *)
Definition progress_event : Type := option Q * string.

Record world := mkWorld {
  w_fs : gmap (list string) node;
  w_console_ok : std_stream -> bool;
  w_console : list (std_stream * console_msg);
  w_sink : list progress_event;
  w_calls : list ext_call;
  w_ctl : WorkerControl;
  w_sched : list (list Control.step);
  w_clock : nat;
  w_tmp : nat
}.

Definition set_fs (f : gmap (list string) node) (w : world) : world :=
  mkWorld f (w_console_ok w) (w_console w) (w_sink w) (w_calls w) (w_ctl w)
          (w_sched w) (w_clock w) (w_tmp w).
Definition set_console (c : list (std_stream * console_msg)) (w : world) : world :=
  mkWorld (w_fs w) (w_console_ok w) c (w_sink w) (w_calls w) (w_ctl w)
          (w_sched w) (w_clock w) (w_tmp w).
Definition set_sink (s : list progress_event) (w : world) : world :=
  mkWorld (w_fs w) (w_console_ok w) (w_console w) s (w_calls w) (w_ctl w)
          (w_sched w) (w_clock w) (w_tmp w).
Definition set_calls (c : list ext_call) (w : world) : world :=
  mkWorld (w_fs w) (w_console_ok w) (w_console w) (w_sink w) c (w_ctl w)
          (w_sched w) (w_clock w) (w_tmp w).
Definition set_ctl (c : WorkerControl) (s : list (list Control.step)) (w : world)
  : world :=
  mkWorld (w_fs w) (w_console_ok w) (w_console w) (w_sink w) (w_calls w) c
          s (w_clock w) (w_tmp w).
Definition set_clock (n : nat) (w : world) : world :=
  mkWorld (w_fs w) (w_console_ok w) (w_console w) (w_sink w) (w_calls w) (w_ctl w)
          (w_sched w) n (w_tmp w).
Definition set_tmp (n : nat) (w : world) : world :=
  mkWorld (w_fs w) (w_console_ok w) (w_console w) (w_sink w) (w_calls w) (w_ctl w)
          (w_sched w) (w_clock w) n.

(* ===================================================================== *)
(** ** The monad *)
(* ===================================================================== *)

(** How a call ends: it returns, it raises, or it never returns ([Hang],
    the worker blocked for ever in a pause that nobody ends). *)
Inductive outcome (A : Type) :=
| Ret (a : A)
| Raise (e : exn)
| Hang.
Arguments Ret {A} a.
Arguments Raise {A} e.
Arguments Hang {A}.

Definition M (A : Type) : Type := world -> outcome A * world.

Definition ret {A} (a : A) : M A := fun w => (Ret a, w).
Definition raise {A} (e : exn) : M A := fun w => (Raise e, w).
Definition hang {A} : M A := fun w => (Hang, w).

Definition bind {A B} (m : M A) (k : A -> M B) : M B :=
  fun w =>
    match m w with
    | (Ret a, w') => k a w'
    | (Raise e, w') => (Raise e, w')
    | (Hang, w') => (Hang, w')
    end.

(** [try: m  except Exception as exc: h exc]. *)
Definition try_except {A} (m : M A) (h : exn -> M A) : M A :=
  fun w =>
    match m w with
    | (Raise e, w') => h e w'
    | r => r
    end.

(** [try: m  except C as exc: h exc] for the classes [C] that [catches]
    accepts. *)
Definition try_except_if {A} (catches : exn -> bool) (m : M A) (h : exn -> M A)
  : M A :=
  try_except m (fun e => if catches e then h e else raise e).

Definition is_os_error (e : exn) : bool :=
  match exn_cls e with OSError => true | _ => false end.

(** [try: m  finally: c], for a [c] that does not raise. *)
Definition finally {A} (m : M A) (c : world -> world) : M A :=
  fun w =>
    match m w with
    | (Ret a, w') => (Ret a, c w')
    | (Raise e, w') => (Raise e, c w')
    | (Hang, w') => (Hang, w')
    end.

Definition get {A} (f : world -> A) : M A := fun w => (Ret (f w), w).
Definition modify (f : world -> world) : M unit := fun w => (Ret tt, f w).

Declare Scope py_scope.
Delimit Scope py_scope with py.
Notation "'let*' x ':=' c1 'in' c2" := (bind c1 (fun x => c2))
  (at level 10, x name, c1 at level 100, c2 at level 200) : py_scope.
Notation "c1 '>>' c2" := (bind c1 (fun _ => c2))
  (at level 62, right associativity) : py_scope.
Local Open Scope py_scope.

(** [if c: m] for a statement [m]. *)
Definition when (c : bool) (m : M unit) : M unit := if c then m else ret tt.

(** A [for] loop over a list, the loop state passed along. *)
Fixpoint for_each {A S} (l : list A) (body : A -> S -> M S) (s : S) : M S :=
  match l with
  | [] => ret s
  | x :: l' => let* s' := body x s in for_each l' body s'
  end.

(** A [while] loop; at most [fuel] iterations are run, then [Hang]. *)
Fixpoint while (fuel : nat) (cond : M bool) (body : M unit) : M unit :=
  match fuel with
  | O => hang
  | S fuel' =>
      let* b := cond in
      if b then body >> while fuel' cond body else ret tt
  end.

Definition mk_exn (c : exn_class) (msg : string) : exn := mkExn c msg.

(* ===================================================================== *)
(** ** Console, sink and the worker side of [WorkerControl] *)
(* ===================================================================== *)

(** [_safe_write(stream, message)], called with [sys.stdout] or
    [sys.stderr]. A stream that is not usable is [None], as under a
    windowless interpreter; an exception of [write] is swallowed by the
    source and writes are taken to succeed here. *)
Definition _safe_write (stream : std_stream) (message : console_msg) : M unit :=
  fun w =>
    let ok := w_console_ok w in
    let is_sys_stderr :=
      match stream with
      | Stderr => true
      | Stdout => negb (ok Stdout) && negb (ok Stderr)
      | _ => false
      end in
    let target :=
      if ok stream then Some stream
      else if is_sys_stderr then Some DunderStderr else Some DunderStdout in
    match target with
    | Some t =>
        if ok t then (Ret tt, set_console (w_console w ++ [(t, message)]) w)
        else (Ret tt, w)
    | None => (Ret tt, w)
    end.

(** The progress callback type, and the sink that records what it is
    called with. *)
Definition ProgressCallback : Type := option Q -> string -> M unit.

Definition sink : ProgressCallback :=
  fun percent message =>
    modify (fun w => set_sink (w_sink w ++ [(percent, message)]) w).

(** A read of the control object by the worker: the steps that the
    controlling thread has taken since the previous read take effect
    first. *)
Definition observe : M WorkerControl :=
  fun w =>
    match w_sched w with
    | [] => (Ret (w_ctl w), w)
    | ss :: rest =>
        let c := Control.do_steps ss (w_ctl w) in (Ret c, set_ctl c rest w)
    end.

(** [time.sleep(self._sleep_interval)]: one polling interval passes. *)
Definition sleep : M unit := modify (fun w => set_clock (S (w_clock w)) w).

Definition WorkerControl_raise_if_cancelled : M unit :=
  let* c := observe in
  if _cancel_event c then raise (mk_exn DownloadCancelled "") else ret tt.

(** [wait_if_paused]. Every iteration takes at least one entry off a
    non-empty schedule, so after [length (w_sched w)] iterations the
    controlling thread takes no further step and one more iteration that
    neither leaves the loop nor raises repeats for ever
    (see [wait_hang_is_blocked]). *)
Definition WorkerControl_wait_if_paused : M unit :=
  fun w =>
    while (S (length (w_sched w)))
          (let* c := observe in ret (negb (_resume_event c)))
          (WorkerControl_raise_if_cancelled >> sleep) w.

(** The protocol [DownloadControl]: any object with these two methods. *)
Record DownloadControl := mkDownloadControl {
  wait_if_paused : M unit;
  raise_if_cancelled : M unit
}.

Definition worker_control : DownloadControl :=
  {| wait_if_paused := WorkerControl_wait_if_paused;
     raise_if_cancelled := WorkerControl_raise_if_cancelled |}.

(* ===================================================================== *)
(** ** File system *)
(* ===================================================================== *)

Module Fs.

(** Removes [..] parts against the parts before them. *)
Fixpoint collapse (acc ps : list string) : list string :=
  match ps with
  | [] => acc
  | p :: ps' =>
      if String.eqb p ".." then collapse (List.removelast acc) ps'
      else collapse (acc ++ [p]) ps'
  end.

(** [p.resolve()] against the working directory [cwd]; there are no
    symbolic links. *)
Definition resolve (cwd : list string) (p : Path) : Path :=
  {| anchored := true;
     parts := collapse [] (if anchored p then parts p else cwd ++ parts p) |}.

Definition exists_ (fs : gmap (list string) node) (k : list string) : bool :=
  match fs !! k with Some _ => true | None => false end.

(** [mkdir(parents=True, exist_ok=True)]; [None] is the [OSError] raised
    when a regular file is in the way. *)
Fixpoint mkdirs (done todo : list string) (fs : gmap (list string) node)
  : option (gmap (list string) node) :=
  match todo with
  | [] => Some fs
  | x :: todo' =>
      let d := done ++ [x] in
      match fs !! d with
      | Some (File _) => None
      | _ => mkdirs d todo' (<[d := Dir]> fs)
      end
  end.

(** [shutil.rmtree(d)]: [d] and everything below it. *)
Definition rmtree (d : list string) (fs : gmap (list string) node)
  : gmap (list string) node :=
  filter (fun kv => ¬ d `prefix_of` kv.1) fs.

(** Moves [src] and everything below it to [dst]. *)
Definition move (src dst : list string) (fs : gmap (list string) node)
  : gmap (list string) node :=
  list_to_map
    (map (fun kv : list string * node =>
            if bool_decide (src `prefix_of` kv.1)
            then (dst ++ drop (length src) kv.1, kv.2) else kv)
         (map_to_list fs)).

End Fs.

Definition os_error {A} (msg : string) : M A := raise (mk_exn OSError msg).

Definition fs_mkdir_p (k : list string) : M unit :=
  fun w =>
    match Fs.mkdirs [] k (w_fs w) with
    | Some fs' => (Ret tt, set_fs fs' w)
    | None => (Raise (mk_exn OSError "File exists"), w)
    end.

Definition fs_exists (k : list string) : M bool :=
  get (fun w => Fs.exists_ (w_fs w) k).

Definition fs_write_text (k : list string) (content : string) : M unit :=
  fun w =>
    match w_fs w !! List.removelast k, w_fs w !! k with
    | Some Dir, Some Dir => (Raise (mk_exn OSError "Is a directory"), w)
    | Some Dir, _ => (Ret tt, set_fs (<[k := File content]> (w_fs w)) w)
    | _, _ => (Raise (mk_exn OSError "No such file or directory"), w)
    end.

Definition fs_unlink (k : list string) : M unit :=
  fun w =>
    match w_fs w !! k with
    | Some (File _) => (Ret tt, set_fs (delete k (w_fs w)) w)
    | Some Dir => (Raise (mk_exn OSError "Is a directory"), w)
    | None => (Raise (mk_exn OSError "No such file or directory"), w)
    end.

Definition fs_rename (src dst : list string) : M unit :=
  fun w =>
    match w_fs w !! src, w_fs w !! dst with
    | None, _ => (Raise (mk_exn OSError "No such file or directory"), w)
    | Some (File _), Some Dir => (Raise (mk_exn OSError "Is a directory"), w)
    | Some Dir, Some (File _) => (Raise (mk_exn OSError "Not a directory"), w)
    | Some _, _ => (Ret tt, set_fs (Fs.move src dst (w_fs w)) w)
    end.

(* ===================================================================== *)
(** ** The two extraction libraries and the host *)
(* ===================================================================== *)

(** One run of [stream.download]: the [bytes_remaining] reported after each
    chunk, how the call ends once all chunks are through, and what it has
    written by then. *)
Record pytube_run := mkPytubeRun {
  pr_chunks : list Z;
  pr_result : exn + string;
  pr_fs : gmap (list string) node -> gmap (list string) node
}.

(** One native progress event of yt-dlp: what the library has written
    before it fires the hook, and the status dictionary of the event. *)
Record ydl_event := mkYdlEvent {
  ev_fs : gmap (list string) node -> gmap (list string) node;
  ev_status : gmap string pyval
}.

(** One run of [ydl.download]: its events, then how it ends ([None]: it
    returns) and what it has written after the last event. *)
Record ydl_run := mkYdlRun {
  yr_events : list ydl_event;
  yr_result : option exn;
  yr_fs : gmap (list string) node -> gmap (list string) node
}.

(** Everything this program asks of its surroundings. An exception raised
    by a progress callback or hook ends the library call and comes out of it
    unchanged. A run of a library is a finite list of events: a library
    call that blocks for ever, on the network say, is not represented. *)
Record Externals := mkExternals {
  cwd : list string;
  gettempdir : string;
  module_dir : Path;
  which_ffmpeg : option string;
  YouTube_streams : string -> exn + list Stream;
  Stream_download : Stream -> string -> string -> pytube_run;
  YoutubeDL_download : ydl_opts -> string -> option string -> ydl_run
}.

(* ===================================================================== *)
(** ** pytube's [StreamQuery] *)
(* ===================================================================== *)

Module StreamQuery.

(** The decimal digits: what [\d] matches and [int] reads. *)
Definition is_digit (a : ascii) : bool :=
  let n := nat_of_ascii a in ((48 <=? n)%nat && (n <=? 57)%nat).

(** The other characters below 256 on which [str.isdigit] holds: the
    superscripts two, three and one. [int] does not read them. *)
Definition is_superscript_digit (a : ascii) : bool :=
  let n := nat_of_ascii a in
  (n =? 178)%nat || (n =? 179)%nat || (n =? 185)%nat.

Fixpoint has_superscript_digit (s : string) : bool :=
  match s with
  | EmptyString => false
  | String a s' => is_superscript_digit a || has_superscript_digit s'
  end.

Fixpoint digits_acc (s : string) (acc : option N) : option N :=
  match s with
  | EmptyString => acc
  | String a s' =>
      if is_digit a
      then digits_acc s' (Some (default 0%N acc * 10 + N.of_nat (nat_of_ascii a - 48))%N)
      else digits_acc s' acc
  end.

(** [int("".join(filter(str.isdigit, s)))]; [None] is the [ValueError]
    on a string without digits or with a superscript digit. *)
Definition digits_value (s : string) : option N :=
  if has_superscript_digit s then None else digits_acc s None.

(** Stable insertion sort, as [sorted] is stable. *)
Fixpoint insert_by {A} (le : A -> A -> bool) (x : A) (l : list A) : list A :=
  match l with
  | [] => [x]
  | y :: l' => if le x y then x :: l else y :: insert_by le x l'
  end.

Fixpoint sorted_by {A} (le : A -> A -> bool) (l : list A) : list A :=
  match l with
  | [] => []
  | x :: l' => insert_by le x (sorted_by le l')
  end.

(** [order_by(attr)]: streams without the attribute are dropped; the
    others are sorted by the number their digits spell, or as strings
    when one of them has no digit. *)
Definition num_key (attr : Stream -> option string) (s : Stream) : option N :=
  match attr s with Some v => digits_value v | None => None end.

Definition order_by (attr : Stream -> option string) (l : list Stream)
  : list Stream :=
  let has_attribute := List.filter (fun s => bool_decide (is_Some (attr s))) l in
  if forallb (fun s => bool_decide (is_Some (num_key attr s))) has_attribute
  then sorted_by (fun a b => (default 0 (num_key attr a) <=? default 0 (num_key attr b))%N)
                 has_attribute
  else sorted_by (fun a b => String.leb (default "" (attr a)) (default "" (attr b)))
                 has_attribute.

Definition desc (l : list Stream) : list Stream := rev l.

Definition first (l : list Stream) : option Stream := head l.

End StreamQuery.

(* ===================================================================== *)
(** ** Helpers of the adapters *)
(* ===================================================================== *)

(** [downloaded / total * 100]. *)
Definition percent_of (downloaded total : Z) : Q :=
  Qred (inject_Z downloaded / inject_Z total * 100).

(** [_parse_resolution]: the leading digits of the stripped string. *)
Fixpoint leading_digits (s : string) (acc : option N) : option N :=
  match s with
  | String a s' =>
      if StreamQuery.is_digit a
      then leading_digits s' (Some (default 0%N acc * 10 + N.of_nat (nat_of_ascii a - 48))%N)
      else acc
  | EmptyString => acc
  end.

Definition _parse_resolution (resolution : string) : option N :=
  leading_digits (Str.strip resolution) None.

Definition py_truthy (v : pyval) : bool :=
  match v with
  | PyNone => false
  | PyStr s => Str.nonempty s
  | PyInt z => negb (z =? 0)%Z
  end.

(** [a or b]. *)
Definition py_or (a b : pyval) : pyval := if py_truthy a then a else b.

(** [d.get(k)]. *)
Definition dict_get (d : gmap string pyval) (k : string) : pyval :=
  default PyNone (d !! k).

Definition py_str (v : pyval) : string :=
  match v with PyNone => "None" | PyStr s => s | PyInt z => pretty z end.

Definition opts_with_outtmpl (v : string) (o : ydl_opts) : ydl_opts :=
  mkOpts v (format o) (noprogress o) (quiet o) (overwrites o) (ffmpeg_location o)
         (merge_output_format o) (postprocessors o) (postprocessor_args o)
         (paths_home o) (paths_temp o) (cookiefile o) (http_headers o).
Definition opts_with_ffmpeg (v : string) (o : ydl_opts) : ydl_opts :=
  mkOpts (outtmpl o) (format o) (noprogress o) (quiet o) (overwrites o) (Some v)
         (merge_output_format o) (postprocessors o) (postprocessor_args o)
         (paths_home o) (paths_temp o) (cookiefile o) (http_headers o).
Definition opts_with_merge (v : string) (o : ydl_opts) : ydl_opts :=
  mkOpts (outtmpl o) (format o) (noprogress o) (quiet o) (overwrites o)
         (ffmpeg_location o) (Some v) (postprocessors o) (postprocessor_args o)
         (paths_home o) (paths_temp o) (cookiefile o) (http_headers o).
Definition opts_with_postprocessors (v : list (string * string * string))
  (o : ydl_opts) : ydl_opts :=
  mkOpts (outtmpl o) (format o) (noprogress o) (quiet o) (overwrites o)
         (ffmpeg_location o) (merge_output_format o) (Some v) (postprocessor_args o)
         (paths_home o) (paths_temp o) (cookiefile o) (http_headers o).
Definition opts_with_pp_args (v : list string) (o : ydl_opts) : ydl_opts :=
  mkOpts (outtmpl o) (format o) (noprogress o) (quiet o) (overwrites o)
         (ffmpeg_location o) (merge_output_format o) (postprocessors o) (Some v)
         (paths_home o) (paths_temp o) (cookiefile o) (http_headers o).
Definition opts_with_paths (home temp : string) (o : ydl_opts) : ydl_opts :=
  mkOpts (outtmpl o) (format o) (noprogress o) (quiet o) (overwrites o)
         (ffmpeg_location o) (merge_output_format o) (postprocessors o)
         (postprocessor_args o) (Some home) (Some temp) (cookiefile o)
         (http_headers o).
Definition opts_with_cookiefile (v : string) (o : ydl_opts) : ydl_opts :=
  mkOpts (outtmpl o) (format o) (noprogress o) (quiet o) (overwrites o)
         (ffmpeg_location o) (merge_output_format o) (postprocessors o)
         (postprocessor_args o) (paths_home o) (paths_temp o) (Some v)
         (http_headers o).
(** [headers = o.setdefault("http_headers", {}); headers[k] = v]. *)
Definition opts_set_header (k v : string) (o : ydl_opts) : ydl_opts :=
  mkOpts (outtmpl o) (format o) (noprogress o) (quiet o) (overwrites o)
         (ffmpeg_location o) (merge_output_format o) (postprocessors o)
         (postprocessor_args o) (paths_home o) (paths_temp o) (cookiefile o)
         (Some (<[k := v]> (default ∅ (http_headers o)))).

(* ===================================================================== *)
(** ** The adapters and the orchestrator (downloader.py) *)
(* ===================================================================== *)

Definition log_call (c : ext_call) : M unit :=
  modify (fun w => set_calls (w_calls w ++ [c]) w).

(** [if control: m control]. *)
Definition with_control (control : option DownloadControl)
  (m : DownloadControl -> M unit) : M unit :=
  match control with Some c => m c | None => ret tt end.

(** The attribute [stream.resolution], under a name that the parameter
    [resolution] of the adapters does not hide. *)
Definition stream_resolution (s : Stream) : option string := resolution s.

(** The stream selection of [_download_with_pytube] (the [if audio_only]
    statement), on the streams that [yt.streams] lists. *)
Definition pytube_select (streams : list Stream) (audio_only : bool)
  (resolution : option string) : exn + Stream :=
  if audio_only then
    match StreamQuery.first
            (StreamQuery.desc
               (StreamQuery.order_by abr (List.filter only_audio streams))) with
    | None => inl (mk_exn ValueError "No audio streams available for this video.")
    | Some stream => inr stream
    end
  else
    let filtered_streams :=
      List.filter (fun s => is_progressive s && String.eqb (subtype s) "mp4")
                  streams in
    let stream :=
      if truthy resolution then
        match StreamQuery.first
                (List.filter
                   (fun s => bool_decide (stream_resolution s = resolution))
                   filtered_streams) with
        | None =>
            inl (mk_exn ValueError
                   ("Resolution " +:+ default "" resolution
                    +:+ " not available. Use --resolution to pick another."))
        | Some s => inr (Some s)
        end
      else
        inr (StreamQuery.first
               (StreamQuery.desc
                  (StreamQuery.order_by stream_resolution filtered_streams))) in
    match stream with
    | inl e => inl e
    | inr (Some s) => inr s
    | inr None =>
        inl (mk_exn ValueError "No progressive MP4 streams available for this video.")
    end.

Section Adapters.

Context (E : Externals).

(** The file-system key of a path. *)
Definition key (p : Path) : list string := parts (Fs.resolve (cwd E) p).

(** [_progress_callback]: the console handler of the command line. *)
Definition _progress_callback (stream : Stream) (bytes_remaining : Z) : M unit :=
  let total_size := filesize stream in
  let bytes_downloaded := (total_size - bytes_remaining)%Z in
  if (total_size =? 0)%Z then raise (mk_exn ZeroDivisionError "division by zero")
  else _safe_write Stdout (MsgDownloading bytes_downloaded total_size).

Definition _make_pytube_progress_handler
  (progress_callback : option ProgressCallback)
  (control : option DownloadControl) : Stream -> Z -> M unit :=
  match progress_callback with
  | None => _progress_callback
  | Some cb =>
      fun stream bytes_remaining =>
        with_control control
          (fun c => raise_if_cancelled c >> wait_if_paused c) >>
        let total_size :=
          if negb (filesize stream =? 0)%Z then filesize stream
          else filesize_approx stream in
        let downloaded :=
          if negb (total_size =? 0)%Z then (total_size - bytes_remaining)%Z
          else 0%Z in
        let percent :=
          if negb (total_size =? 0)%Z then Some (percent_of downloaded total_size)
          else None in
        cb percent ""
  end.

(** [YouTube(url, ...)] followed by [yt.streams]. *)
Definition pytube_streams (url : string) : M (list Stream) :=
  log_call (CallYouTube url) >>
  match YouTube_streams E url with
  | inl e => raise e
  | inr l => ret l
  end.

(** [stream.download(output_path=..., filename=...)]. *)
Definition stream_download (stream : Stream) (output_path filename : string)
  (on_progress : Stream -> Z -> M unit) : M string :=
  let run := Stream_download E stream output_path filename in
  log_call (CallStreamDownload stream output_path filename) >>
  for_each (pr_chunks run) (fun r _ => on_progress stream r) tt >>
  modify (fun w => set_fs (pr_fs run (w_fs w)) w) >>
  match pr_result run with
  | inl e => raise e
  | inr destination => ret destination
  end.

Definition _download_with_pytube (url : string) (output_dir : Path)
  (filename : option string) (audio_only : bool) (resolution : option string)
  (progress_callback : option ProgressCallback)
  (control : option DownloadControl) : M Path :=
  fs_mkdir_p (key output_dir) >>
  with_control control raise_if_cancelled >>
  let on_progress := _make_pytube_progress_handler progress_callback control in
  let* streams := pytube_streams url in
  let* stream :=
    match pytube_select streams audio_only resolution with
    | inl e => raise e
    | inr s => ret s
    end in
  with_control control (fun c => raise_if_cancelled c >> wait_if_paused c) >>
  let filename :=
    if truthy filename then default "" filename else default_filename stream in
  let* destination :=
    stream_download stream (PurePath.to_string output_dir) filename on_progress in
  match progress_callback with
  | Some cb => cb (Some 100%Q) ""
  | None => _safe_write Stdout (MsgComplete destination)
  end >>
  ret (PurePath.of_string destination).

(** The progress hook of [_download_with_ytdlp]; the dictionary
    [download_info] that it closes over is passed through. *)
Definition _hook (progress_callback : option ProgressCallback)
  (control : option DownloadControl) (status : gmap string pyval)
  (download_info : gmap string Path) : M (gmap string Path) :=
  with_control control (fun c => raise_if_cancelled c >> wait_if_paused c) >>
  let status_type := dict_get status "status" in
  let on_finished :=
    if bool_decide (status_type = PyStr "finished") then
      let* info :=
        if py_truthy (dict_get status "filename") then
          match dict_get status "filename" with
          | PyStr f =>
              ret (<["filepath" := Fs.resolve (cwd E) (PurePath.of_string f)]>
                     download_info)
          | _ => raise (mk_exn TypeError "expected str, bytes or os.PathLike object")
          end
        else ret download_info in
      match progress_callback with
      | Some cb => cb (Some 100%Q) ""
      | None =>
          _safe_write Stdout
            (MsgComplete (py_str (default (PyStr "") (status !! "filename"))))
      end >>
      ret info
    else ret download_info in
  let on_postprocessing :=
    match bool_decide (status_type = PyStr "postprocessing"), progress_callback with
    | true, Some cb => cb None "" >> ret download_info
    | _, _ => on_finished
    end in
  match bool_decide (status_type = PyStr "downloading"), progress_callback with
  | true, Some cb =>
      let downloaded := py_or (dict_get status "downloaded_bytes") (PyInt 0) in
      let total :=
        py_or (py_or (dict_get status "total_bytes")
                     (dict_get status "total_bytes_estimate")) (PyInt 0) in
      let* percent :=
        if py_truthy total then
          match downloaded, total with
          | PyInt d, PyInt t => ret (Some (percent_of d t))
          | _, _ => raise (mk_exn TypeError "unsupported operand type(s) for /")
          end
        else ret None in
      cb percent "" >> ret download_info
  | _, _ => on_postprocessing
  end.

(** The cookie jar that yt-dlp loads: the content of the file that the
    options name, if they name one and it is there. *)
Definition cookie_jar (opts : ydl_opts) (fs : gmap (list string) node)
  : option string :=
  match cookiefile opts with
  | Some f =>
      match fs !! key (PurePath.of_string f) with
      | Some (File c) => Some c
      | _ => None
      end
  | None => None
  end.

(** [ydl.download([url])] with the hook [hook] registered. *)
Definition ydl_download (opts : ydl_opts) (url : string)
  (hook : gmap string pyval -> gmap string Path -> M (gmap string Path))
  (download_info : gmap string Path) : M (gmap string Path) :=
  let* jar := get (fun w => cookie_jar opts (w_fs w)) in
  let run := YoutubeDL_download E opts url jar in
  log_call (CallYdlDownload opts url jar) >>
  let* info :=
    for_each (yr_events run)
      (fun ev info =>
         modify (fun w => set_fs (ev_fs ev (w_fs w)) w) >>
         hook (ev_status ev) info)
      download_info in
  modify (fun w => set_fs (yr_fs run (w_fs w)) w) >>
  match yr_result run with
  | Some e => raise e
  | None => ret info
  end.

(** [tempfile.mkdtemp(prefix=...)]: the counter [w_tmp] stands for the
    choice of a name that is not in use. *)
Definition mkdtemp (prefix : string) : M string :=
  fun w =>
    let name := gettempdir E +:+ "/" +:+ prefix +:+ pretty (w_tmp w) in
    (Ret name,
     set_tmp (S (w_tmp w))
       (set_fs (<[key (PurePath.of_string name) := Dir]> (w_fs w)) w)).

(** [with tempfile.TemporaryDirectory(prefix=...) as temp_dir: body]. *)
Definition with_TemporaryDirectory {A} (prefix : string) (body : string -> M A)
  : M A :=
  let* temp_dir := mkdtemp prefix in
  finally (body temp_dir)
    (fun w => set_fs (Fs.rmtree (key (PurePath.of_string temp_dir)) (w_fs w)) w).

Definition _download_with_ytdlp (url : string) (output_dir : Path)
  (filename : option string) (audio_only : bool) (resolution : option string)
  (progress_callback : option ProgressCallback)
  (control : option DownloadControl) (cookies : option string) : M Path :=
  fs_mkdir_p (key output_dir) >>
  let* tpl :=
    match _determine_template filename audio_only with
    | Some t => ret t
    | None => raise (mk_exn ValueError "path has an empty name")
    end in
  let template_name := tpl.1 in
  let final_extension := tpl.2 in
  let format_selector :=
    if audio_only then "bestaudio/best"
    else
      let height :=
        if truthy resolution then _parse_resolution (default "" resolution)
        else None in
      let height_filter :=
        match height with
        | Some h => if (h =? 0)%N then "" else "[height<=" +:+ pretty h +:+ "]"
        | None => ""
        end in
      let progressive_fallback :=
        "best" +:+ height_filter +:+ "[ext=mp4][acodec!=none]" in
      "bestvideo" +:+ height_filter +:+ "[ext=mp4]+bestaudio[ext=m4a]/"
      +:+ "bestvideo" +:+ height_filter +:+ "+bestaudio/"
      +:+ progressive_fallback +:+ "/"
      +:+ "best" in
  let merge_output_format := if audio_only then None else Some "mp4" in
  let download_info : gmap string Path := ∅ in
  let ydl_opts :=
    mkOpts template_name format_selector false false true
           None None None None None None None None in
  let ffmpeg_path := PurePath.child (module_dir E) "ffmpeg.exe" in
  let* ffmpeg_exists := fs_exists (key ffmpeg_path) in
  let ydl_opts :=
    if ffmpeg_exists
    then opts_with_ffmpeg (PurePath.to_string ffmpeg_path) ydl_opts
    else if truthy (which_ffmpeg E)
         then opts_with_ffmpeg (default "" (which_ffmpeg E)) ydl_opts
         else ydl_opts in
  let ydl_opts :=
    match merge_output_format with
    | Some m => opts_with_merge m ydl_opts
    | None => ydl_opts
    end in
  let ydl_opts :=
    if audio_only then
      let o :=
        opts_with_postprocessors [("FFmpegExtractAudio", "mp3", "192")] ydl_opts in
      if truthy final_extension
      then opts_with_outtmpl
             (Str.replace "%(ext)s" (default "" final_extension) template_name)
             (opts_with_pp_args ["-vn"] o)
      else o
    else ydl_opts in
  let* download_info :=
    with_TemporaryDirectory "yt-dlp-frag-"
      (fun temp_dir =>
         let ydl_opts :=
           opts_with_paths (PurePath.to_string output_dir) temp_dir ydl_opts in
         let* ydl_opts :=
           if truthy cookies then
             let cookies := Str.strip (default "" cookies) in
             if Str.contains "010" cookies || Str.contains "009" cookies then
               let cookiefile :=
                 PurePath.child (PurePath.of_string temp_dir) "cookies.txt" in
               fs_write_text (key cookiefile) cookies >>
               ret (opts_with_cookiefile (PurePath.to_string cookiefile) ydl_opts)
             else ret (opts_set_header "Cookie" cookies ydl_opts)
           else ret ydl_opts in
         with_control control raise_if_cancelled >>
         try_except_if is_cancelled
           (ydl_download ydl_opts url (_hook progress_callback control)
                         download_info)
           (fun e => raise e)) in
  match download_info !! "filepath" with
  | None =>
      raise (mk_exn RuntimeError
               "yt-dlp completed without reporting a destination file.")
  | Some final_path =>
      let dot_ext := "." +:+ default "" final_extension in
      if audio_only && truthy final_extension
         && negb (String.eqb (PurePath.suffix final_path) dot_ext)
      then
        let* target :=
          match PurePath.with_suffix final_path dot_ext with
          | Some t => ret t
          | None => raise (mk_exn ValueError "path has an empty name")
          end in
        let* present := fs_exists (key final_path) in
        if present then
          try_except_if is_os_error
            (let* target_present := fs_exists (key target) in
             when target_present (fs_unlink (key target)) >>
             fs_rename (key final_path) (key target) >>
             ret target)
            (fun _ => ret final_path)
        else ret final_path
      else ret final_path
  end.

End Adapters.

(** The type of [_download_with_pytube]; [_download_with_ytdlp] takes the
    cookies in addition. *)
Definition adapter : Type :=
  string -> Path -> option string -> bool -> option string ->
  option ProgressCallback -> option DownloadControl -> M Path.

Definition adapter_with_cookies : Type :=
  string -> Path -> option string -> bool -> option string ->
  option ProgressCallback -> option DownloadControl -> option string -> M Path.

Section Orchestrator.

(** [download_video], over the two adapters that it calls. *)
Context (pytube : adapter) (ytdlp : adapter_with_cookies).

Definition download_video_with (url : string) (output_dir : Path)
  (filename : option string) (audio_only : bool) (resolution : option string)
  (progress_callback : option ProgressCallback)
  (control : option DownloadControl) (cookies : option string) : M Path :=
  let prefer_ytdlp := audio_only || truthy cookies in
  let try_pytube :=
    try_except
      (pytube url output_dir filename audio_only resolution
              progress_callback control)
      (fun exc =>
         if is_cancelled exc then raise exc
         else
           _safe_write Stderr (MsgPytubeFailed (exn_str exc)) >>
           try_except
             (ytdlp url output_dir filename audio_only resolution
                    progress_callback control cookies)
             (fun fallback_exc =>
                if is_cancelled fallback_exc then raise fallback_exc
                else raise (mk_exn DownloadError (exn_str fallback_exc)))) in
  if prefer_ytdlp then
    try_except
      (ytdlp url output_dir filename audio_only resolution
             progress_callback control cookies)
      (fun exc =>
         if is_cancelled exc then raise exc
         else if audio_only || truthy cookies
              then raise (mk_exn DownloadError (exn_str exc))
              else try_pytube)
  else try_pytube.

End Orchestrator.

(** [download_video] of [downloader.py]. *)
Definition download_video (E : Externals) : adapter_with_cookies :=
  download_video_with (_download_with_pytube E) (_download_with_ytdlp E).

(* ===================================================================== *)
(** ** The yt-dlp adapter, in three parts *)
(* ===================================================================== *)

Section YtdlpParts.

Context (E : Externals).

(** The options as they stand before the temporary directory is made. *)
Definition ytdlp_base_opts (filename : option string) (audio_only : bool)
  (resolution : option string) (ffmpeg_exists : bool)
  (tpl : string * option string) : ydl_opts :=
  let template_name := tpl.1 in
  let final_extension := tpl.2 in
  let format_selector :=
    if audio_only then "bestaudio/best"
    else
      let height :=
        if truthy resolution then _parse_resolution (default "" resolution)
        else None in
      let height_filter :=
        match height with
        | Some h => if (h =? 0)%N then "" else "[height<=" +:+ pretty h +:+ "]"
        | None => ""
        end in
      let progressive_fallback :=
        "best" +:+ height_filter +:+ "[ext=mp4][acodec!=none]" in
      "bestvideo" +:+ height_filter +:+ "[ext=mp4]+bestaudio[ext=m4a]/"
      +:+ "bestvideo" +:+ height_filter +:+ "+bestaudio/"
      +:+ progressive_fallback +:+ "/"
      +:+ "best" in
  let merge_output_format := if audio_only then None else Some "mp4" in
  let ydl_opts :=
    mkOpts template_name format_selector false false true
           None None None None None None None None in
  let ffmpeg_path := PurePath.child (module_dir E) "ffmpeg.exe" in
  let ydl_opts :=
    if ffmpeg_exists
    then opts_with_ffmpeg (PurePath.to_string ffmpeg_path) ydl_opts
    else if truthy (which_ffmpeg E)
         then opts_with_ffmpeg (default "" (which_ffmpeg E)) ydl_opts
         else ydl_opts in
  let ydl_opts :=
    match merge_output_format with
    | Some m => opts_with_merge m ydl_opts
    | None => ydl_opts
    end in
  if audio_only then
    let o :=
      opts_with_postprocessors [("FFmpegExtractAudio", "mp3", "192")] ydl_opts in
    if truthy final_extension
    then opts_with_outtmpl
           (Str.replace "%(ext)s" (default "" final_extension) template_name)
           (opts_with_pp_args ["-vn"] o)
    else o
  else ydl_opts.

(** The cookie file of an invocation whose temporary directory is
    [temp_dir]. *)
Definition cookiefile_path (temp_dir : string) : Path :=
  PurePath.child (PurePath.of_string temp_dir) "cookies.txt".

(** The options once the paths and the cookies are in. *)
Definition ytdlp_cookie_opts (output_dir : Path) (cookies : option string)
  (base : ydl_opts) (temp_dir : string) : M ydl_opts :=
  let ydl_opts := opts_with_paths (PurePath.to_string output_dir) temp_dir base in
  if truthy cookies then
    let cookies := Str.strip (default "" cookies) in
    if Str.contains "010" cookies || Str.contains "009" cookies then
      fs_write_text (key E (cookiefile_path temp_dir)) cookies >>
      ret (opts_with_cookiefile (PurePath.to_string (cookiefile_path temp_dir))
                                ydl_opts)
    else ret (opts_set_header "Cookie" cookies ydl_opts)
  else ret ydl_opts.

(** The body of the [with tempfile.TemporaryDirectory] statement. *)
Definition ytdlp_session (url : string) (output_dir : Path)
  (progress_callback : option ProgressCallback)
  (control : option DownloadControl) (cookies : option string)
  (base : ydl_opts) (temp_dir : string) : M (gmap string Path) :=
  let* ydl_opts := ytdlp_cookie_opts output_dir cookies base temp_dir in
  with_control control raise_if_cancelled >>
  try_except_if is_cancelled
    (ydl_download E ydl_opts url (_hook E progress_callback control) ∅)
    (fun e => raise e).

(** What follows the [with] statement. *)
Definition ytdlp_finish (audio_only : bool) (final_extension : option string)
  (download_info : gmap string Path) : M Path :=
  match download_info !! "filepath" with
  | None =>
      raise (mk_exn RuntimeError
               "yt-dlp completed without reporting a destination file.")
  | Some final_path =>
      let dot_ext := "." +:+ default "" final_extension in
      if audio_only && truthy final_extension
         && negb (String.eqb (PurePath.suffix final_path) dot_ext)
      then
        let* target :=
          match PurePath.with_suffix final_path dot_ext with
          | Some t => ret t
          | None => raise (mk_exn ValueError "path has an empty name")
          end in
        let* present := fs_exists (key E final_path) in
        if present then
          try_except_if is_os_error
            (let* target_present := fs_exists (key E target) in
             when target_present (fs_unlink (key E target)) >>
             fs_rename (key E final_path) (key E target) >>
             ret target)
            (fun _ => ret final_path)
        else ret final_path
      else ret final_path
  end.

End YtdlpParts.

(* ===================================================================== *)
(** ** Sizes on the console ([_human_readable_size] of downloader.py) *)
(* ===================================================================== *)

(** [_human_readable_size]: the number and the unit that are formatted
    into the text (the rendering with two decimals is not represented).
    The loop over the units, with the division that it carries along. *)
Fixpoint human_readable_loop (units : list string) (num_bytes : Q)
  : Q * string :=
  match units with
  | [] => (num_bytes, "TB")
  | unit :: units' =>
      if negb (Qle_bool 1024 num_bytes) || String.eqb unit "TB"
      then (num_bytes, unit)
      else human_readable_loop units' (num_bytes / 1024)%Q
  end.

Definition _human_readable_size (num_bytes : Z) : Q * string :=
  human_readable_loop ["B"; "KB"; "MB"; "GB"; "TB"] (inject_Z num_bytes).

(* ===================================================================== *)
(** ** The worker thread of the window (gui.py) *)
(* ===================================================================== *)

(** The signals with which a worker ends. The [progress] signal is the
    sink: [_progress] emits what it is called with. *)
Inductive signal :=
| Succeeded (destination : string)
| Failed (message : string)
| Cancelled.

(** [DownloadWorker.run]; [None] when it never returns. *)
Definition DownloadWorker_run (E : Externals) (url : string)
  (output_dir : Path) (filename : option string) (audio_only : bool)
  (resolution : option string) (control : option DownloadControl)
  : world -> option signal * world :=
  fun w =>
    match download_video E url output_dir filename audio_only resolution
            (Some sink) control None w with
    | (Ret destination, w') =>
        (Some (Succeeded (PurePath.to_string destination)), w')
    | (Raise exc, w') =>
        (Some (if is_cancelled exc then Cancelled else Failed (exn_str exc)), w')
    | (Hang, w') => (None, w')
    end.

(* ===================================================================== *)
(** ** The progress bar of the window (gui.py) *)
(* ===================================================================== *)

(** [round(x)] of Python 3: to the nearest integer, a tie to the even
    one. *)
Definition py_round (x : Q) : Z :=
  let f := Qfloor x in
  match ((x - inject_Z f) ?= (1 # 2))%Q with
  | Lt => f
  | Gt => (f + 1)%Z
  | Eq => if Z.even f then f else (f + 1)%Z
  end.

(** The two attributes that [_should_update_progress] keeps. *)
Record progress_tracking := mkTracking {
  _last_progress_value : option Z;
  _last_progress_time : Q
}.

Definition _reset_progress_tracking : progress_tracking :=
  {| _last_progress_value := None; _last_progress_time := 0 |}.

(** [_should_update_progress], with [now] the reading of
    [time.monotonic()]. *)
Definition _should_update_progress (value : Z) (now : Q)
  (t : progress_tracking) : bool * progress_tracking :=
  if match _last_progress_value t with
     | None => true
     | Some last_value =>
         (100 <=? value)%Z || (1 <=? value - last_value)%Z
         || Qle_bool (2 # 10) (now - _last_progress_time t)%Q
     end
  then (true, {| _last_progress_value := Some value;
                 _last_progress_time := now |})
  else (false, t).

(** The texts that the window shows, by the values formatted into them. *)
Inductive bar_format := FormatProcessing | FormatPercent (clamped : Z).
Inductive status_message :=
| StatusProcessing
| StatusDownloading (percent_value : Q).

(** The calls on the progress bar and the status bar. *)
Inductive ui_call :=
| SetRange (minimum maximum : Z)
| SetValue (value : Z)
| SetFormat (text : bar_format)
| ShowMessage (text : status_message).

(** [_on_progress] for the percentages that the worker emits: [None] or a
    number. *)
Definition _on_progress (percent : option Q) (now : Q) (t : progress_tracking)
  : progress_tracking * list ui_call :=
  match percent with
  | None =>
      (_reset_progress_tracking,
       [SetRange 0 0; SetFormat FormatProcessing; ShowMessage StatusProcessing])
  | Some percent_value =>
      let clamped := Z.max 0 (Z.min 100 (py_round percent_value)) in
      match _should_update_progress clamped now t with
      | (true, t') =>
          (t', [SetRange 0 100; SetValue clamped;
                SetFormat (FormatPercent clamped);
                ShowMessage (StatusDownloading percent_value)])
      | (false, t') => (t', [])
      end
  end.

(* ===================================================================== *)
(** ** The HTTP endpoint (backend/app.py) *)
(* ===================================================================== *)

Module Backend.

(** A JSON value, as far as its truth value goes. *)
Inductive json :=
| JNull
| JBool (b : bool)
| JNumber (q : Q)
| JString (s : string)
| JArray (empty : bool).

Definition json_truthy (j : json) : bool :=
  match j with
  | JNull => false
  | JBool b => b
  | JNumber q => negb (Qeq_bool q 0)
  | JString s => Str.nonempty s
  | JArray empty => negb empty
  end.

(** A JSON object in the body of the request, by the keys that the
    endpoint reads; [None] and [JNull] stand for a key that is missing or
    [null]. The keys [url], [resolution], [filename] and [cookies] hold
    strings, as the parameters of [download_video] are annotated. *)
Record payload := mkPayload {
  p_url : option string;
  p_audio_only : json;
  p_resolution : option string;
  p_filename : option string;
  p_cookies : option string
}.

Definition empty_payload : payload := mkPayload None JNull None None None.

(** What [request.get_json(silent=True)] finds: nothing that parses as
    JSON, an object, or another JSON value. *)
Inductive body :=
| NoJson
| JsonObject (p : payload)
| JsonOther (v : json).

(** What the client gets: [abort(code, description)], the answer of Flask
    to an exception that nothing handles, or the file. *)
Inductive response :=
| Abort (code : nat) (description : string)
| InternalServerError
| SendFile (download_name : string) (content : string).

(** The temporary directory of a request that starts in [w]. *)
Definition request_dir (E : Externals) (w : world) : string :=
  gettempdir E +:+ "/" +:+ "yt-download-" +:+ pretty (w_tmp w).

(** [temp_dir.cleanup()]. *)
Definition cleanup (E : Externals) (temp_dir : string) : M unit :=
  modify (fun w =>
            set_fs (Fs.rmtree (key E (PurePath.of_string temp_dir)) (w_fs w)) w).

(** [download_endpoint], with the function that it registers by
    [after_this_request] run once the response is there. [send_file] opens
    the file before that function runs; a directory at the path makes it
    raise, which Flask answers with [500], and the registered function runs
    on that response too. *)
Definition download_endpoint (E : Externals) (b : body) : M response :=
  match b with
  | JsonOther v =>
      if json_truthy v then ret InternalServerError
      else ret (Abort 400 "Missing 'url' in request body")
  | NoJson => ret (Abort 400 "Missing 'url' in request body")
  | JsonObject payload =>
      let url := p_url payload in
      if negb (truthy url) then ret (Abort 400 "Missing 'url' in request body")
      else
        let audio_only := json_truthy (p_audio_only payload) in
        let resolution := p_resolution payload in
        let filename := p_filename payload in
        let cookies := p_cookies payload in
        let* temp_dir := mkdtemp E "yt-download-" in
        let output_dir := PurePath.of_string temp_dir in
        let* downloaded :=
          try_except
            (let* destination :=
               download_video E (default "" url) output_dir filename audio_only
                              resolution None None cookies in
             ret (inr destination))
            (fun exc =>
               cleanup E temp_dir >>
               if bool_decide (exn_cls exc = DownloadError)
               then ret (inl (Abort 400 (exn_str exc)))
               else ret (inl (Abort 500 "Failed to download video"))) in
        match downloaded with
        | inl aborted => ret aborted
        | inr file_path =>
            let* present := fs_exists (key E file_path) in
            if negb present then
              cleanup E temp_dir >>
              ret (Abort 500 "Download destination not found")
            else
              let* sent := get (fun w => w_fs w !! key E file_path) in
              try_except
                (let* still := fs_exists (key E file_path) in
                 when still (fs_unlink (key E file_path)))
                (fun _ => ret tt) >>
              cleanup E temp_dir >>
              match sent with
              | Some (File content) =>
                  ret (SendFile (PurePath.name file_path) content)
              | _ => ret InternalServerError
              end
        end
  end.

End Backend.

(* ===================================================================== *)
(** ** Notions that the properties are stated with *)
(* ===================================================================== *)

(** The condition and the body of the loop of [wait_if_paused]. *)
Definition wait_cond : M bool :=
  let* c := observe in ret (negb (_resume_event c)).

Definition wait_body : M unit := WorkerControl_raise_if_cancelled >> sleep.

(** The streams that the video branch selects from. *)
Definition progressive_mp4 (s : Stream) : Prop :=
  is_progressive s = true /\ subtype s = "mp4".

(** The number that [order_by] sorts a resolution by. *)
Definition resolution_rank (s : Stream) : N :=
  default 0%N (StreamQuery.num_key stream_resolution s).

(** The event [st] reports the file [p]: it is a [finished] event with a
    non-empty file name, and [p] is that name, resolved. *)
Definition reports_file (E : Externals) (st : gmap string pyval) (p : Path)
  : Prop :=
  dict_get st "status" = PyStr "finished"
  /\ exists f, dict_get st "filename" = PyStr f /\ Str.nonempty f = true
               /\ p = Fs.resolve (cwd E) (PurePath.of_string f).

(** An event that records no path. *)
Definition silent (st : gmap string pyval) : Prop :=
  ~ (dict_get st "status" = PyStr "finished"
     /\ py_truthy (dict_get st "filename") = true).

(** The sink events that the hook makes of one native event. *)
Definition hook_events (st : gmap string pyval) : list progress_event :=
  let status_type := dict_get st "status" in
  if bool_decide (status_type = PyStr "downloading") then
    let downloaded := py_or (dict_get st "downloaded_bytes") (PyInt 0) in
    let total :=
      py_or (py_or (dict_get st "total_bytes") (dict_get st "total_bytes_estimate"))
            (PyInt 0) in
    [(if py_truthy total then
        match downloaded, total with
        | PyInt d, PyInt t => Some (percent_of d t)
        | _, _ => None
        end
      else None, "")]
  else if bool_decide (status_type = PyStr "postprocessing") then [(None, "")]
  else if bool_decide (status_type = PyStr "finished") then [(Some 100%Q, "")]
  else [].

#[global] Instance Q_eq_dec : EqDecision Q.
Proof. solve_decision. Defined.

Definition is_final (ev : progress_event) : bool :=
  bool_decide (ev = (Some 100%Q, "")).

Fixpoint leading_finals (evs : list progress_event) : nat :=
  match evs with
  | ev :: evs' => if is_final ev then S (leading_finals evs') else 0
  | [] => 0
  end.

(** The number of [(100, "")] events that a sequence ends with. *)
Definition final_events_at_end (evs : list progress_event) : nat :=
  leading_finals (rev evs).

(** A part as [Path(...)] keeps it: no separator in it, not empty, not a
    single dot. *)
Definition clean (x : string) : Prop :=
  Str.contains "/" x = false /\ PurePath.keep_part x = true.

Definition newline : string := String "010" "".

(** What the options say about the cookies [stripped], with the cookie jar
    [jar] that yt-dlp finds. *)
Definition cookie_options (temp_dir stripped : string) (opts : ydl_opts)
  (jar : option string) : Prop :=
  if Str.contains "010" stripped || Str.contains "009" stripped
  then cookiefile opts = Some (PurePath.to_string (cookiefile_path temp_dir))
       /\ jar = Some stripped /\ http_headers opts = None
  else cookiefile opts = None /\ jar = None
       /\ http_headers opts = Some {[ "Cookie" := stripped ]}.

(** A computation leaves a part of the world as it is. *)
Definition preserves {X A} (proj : world -> X) (m : M A) : Prop :=
  forall w o w', m w = (o, w') -> proj w' = proj w.

(** A computation that touches neither the file system, nor the sink, nor
    the call log, nor the counter of temporary names. *)
Definition stays_local {A} (m : M A) : Prop :=
  preserves w_fs m /\ preserves w_sink m /\ preserves w_calls m
  /\ preserves w_tmp m.

(** A control object that only touches itself and the clock. *)
Definition control_local (control : option DownloadControl) : Prop :=
  forall c, control = Some c ->
            stays_local (raise_if_cancelled c) /\ stays_local (wait_if_paused c).

(** A callback that only touches the sink. *)
Definition callback_local (cb : option ProgressCallback) : Prop :=
  forall f percent message,
    cb = Some f ->
    preserves w_fs (f percent message) /\ preserves w_calls (f percent message)
    /\ preserves w_tmp (f percent message).

(** The options [opts] are the options [base] with the two [paths] entries
    set to [home] and [temp]; the cookie entries are left open. *)
Definition options_from (base : ydl_opts) (home temp : string) (opts : ydl_opts)
  : Prop :=
  outtmpl opts = outtmpl base /\ format opts = format base
  /\ noprogress opts = noprogress base /\ quiet opts = quiet base
  /\ overwrites opts = overwrites base
  /\ ffmpeg_location opts = ffmpeg_location base
  /\ merge_output_format opts = merge_output_format base
  /\ postprocessors opts = postprocessors base
  /\ postprocessor_args opts = postprocessor_args base
  /\ paths_home opts = Some home /\ paths_temp opts = Some temp.

(** The format selector of the video mode with the height filter [hf]. *)
Definition video_format (hf : string) : string :=
  "bestvideo" +:+ hf +:+ "[ext=mp4]+bestaudio[ext=m4a]/"
  +:+ "bestvideo" +:+ hf +:+ "+bestaudio/"
  +:+ ("best" +:+ hf +:+ "[ext=mp4][acodec!=none]") +:+ "/" +:+ "best".

(** A value that is an integer, or is missing and counts as [0]. *)
Definition int_or_zero (v : pyval) : option Z :=
  match v with PyNone => Some 0%Z | PyInt z => Some z | PyStr _ => None end.

(** The dictionary [download_info] after the hook has seen the event
    [st]. *)
Definition recorded (E : Externals) (st : gmap string pyval)
  (info : gmap string Path) : gmap string Path :=
  if bool_decide (dict_get st "status" = PyStr "finished")
     && py_truthy (dict_get st "filename")
  then match dict_get st "filename" with
       | PyStr f =>
           <["filepath" := Fs.resolve (cwd E) (PurePath.of_string f)]> info
       | _ => info
       end
  else info.

(** A computation that, when it raises [DownloadCancelled], has left the
    world in a state with [P]. *)
Definition cancels_in {A} (P : world -> Prop) (m : M A) : Prop :=
  forall w e w', m w = (Raise e, w') -> is_cancelled e = true -> P w'.

(** The exception [DownloadCancelled] is a class of this program: the two
    libraries do not raise it. *)
Definition library_never_cancels (E : Externals) : Prop :=
  (forall url e, YouTube_streams E url = inl e -> is_cancelled e = false)
  /\ (forall stream output_path filename e,
         pr_result (Stream_download E stream output_path filename) = inl e ->
         is_cancelled e = false)
  /\ (forall opts url jar e,
         yr_result (YoutubeDL_download E opts url jar) = Some e ->
         is_cancelled e = false).

(** The cancel event of the control object is set. *)
Definition cancel_requested (w : world) : Prop :=
  Control.cancelled (w_ctl w) = true.

(** The percentage that the handler of the pytube adapter reports when
    [bytes_remaining] bytes of [stream] are left. *)
Definition pytube_percent (stream : Stream) (bytes_remaining : Z) : option Q :=
  let total_size :=
    if negb (filesize stream =? 0)%Z then filesize stream
    else filesize_approx stream in
  if negb (total_size =? 0)%Z
  then Some (percent_of (total_size - bytes_remaining) total_size)
  else None.

(** The value that [_on_progress] shows for a percentage. *)
Definition clamped (percent_value : Q) : Z :=
  Z.max 0 (Z.min 100 (py_round percent_value)).

(** [_on_progress] for a sequence of signals, each with the time at which
    it is handled; the calls on the widgets are collected. *)
Fixpoint on_progress_all (events : list (option Q * Q)) (t : progress_tracking)
  : progress_tracking * list ui_call :=
  match events with
  | [] => (t, [])
  | (percent, now) :: events' =>
      let (t1, calls1) := _on_progress percent now t in
      let (t2, calls2) := on_progress_all events' t1 in
      (t2, calls1 ++ calls2)
  end.

(** The value that the progress bar was last set to. *)
Fixpoint last_set_value (calls : list ui_call) (shown : option Z) : option Z :=
  match calls with
  | [] => shown
  | SetValue v :: calls' => last_set_value calls' (Some v)
  | _ :: calls' => last_set_value calls' shown
  end.

(* ===================================================================== *)
(** ** Example surroundings *)
(* ===================================================================== *)

Module Demo.

Definition stream (tag : nat) (res : string) (size : Z) : Stream :=
  mkStream tag true false "mp4" (Some res) None size 0 "video.mp4".

Definition streams : list Stream :=
  [stream 18 "360p" 512; stream 22 "720p" 1024; stream 37 "1080p" 4096].

Definition out : Path := mkPath true ["out"].

(** Surroundings given by the streams that pytube lists, the run of
    [stream.download] and the run of [ydl.download]. *)
Definition env (st : exn + list Stream) (pt : pytube_run) (yd : ydl_run)
  : Externals :=
  mkExternals ["home"; "user"] "/tmp" (mkPath true ["app"]) None
              (fun _ => st) (fun _ _ _ => pt) (fun _ _ _ => yd).

Definition unavailable : exn :=
  mk_exn (OtherException "yt_dlp.utils.DownloadError") "Video unavailable".

Definition pytube_ok : pytube_run :=
  mkPytubeRun [512%Z; 0%Z] (inr "/out/video.mp4") (fun fs => fs).

Definition ydl_fails : ydl_run := mkYdlRun [] (Some unavailable) (fun fs => fs).

Definition finished (f : string) : ydl_event :=
  mkYdlEvent (fun fs => <[["out"; f] := File "media"]> fs)
             {[ "status" := PyStr "finished";
                "filename" := PyStr ("/out/" +:+ f) ]}.

Definition world0 : world :=
  mkWorld ∅ (fun _ => true) [] [] [] Control.init [] 0 0.

(** Both libraries fail. *)
Definition failing : Externals :=
  env (inl (mk_exn (OtherException "pytube.exceptions.VideoUnavailable")
                   "unavailable in pytube"))
      pytube_ok ydl_fails.

End Demo.

Module Demo2.

(** Both libraries succeed; yt-dlp downloads a video file and an audio
    file, as it does for a format of two streams to merge. *)
Definition ok : Externals :=
  Demo.env (inr Demo.streams) Demo.pytube_ok
           (mkYdlRun [Demo.finished "a.f137.mp4"; Demo.finished "a.f140.m4a"]
                     None (fun fs => fs)).

End Demo2.

(** A control object whose controlling thread calls [cancel] between the
    first and the second read of the worker. *)
Definition cancelled_later : world :=
  set_ctl Control.init [[]; Control.steps_of Control.Cancel] Demo.world0.

(** The same, with [cancel] called between the third and the fourth
    read. *)
Definition cancelled_in_handler : world :=
  set_ctl Control.init [[]; []; []; Control.steps_of Control.Cancel]
          Demo.world0.

(** A paused control object whose controlling thread cancels during the
    first sleep of the waiting worker. *)
Definition paused_world : world :=
  mkWorld ∅ (fun _ => true) [] [] [] (Control.pause Control.init)
          [[]; []; [Control.CancelSet; Control.ResumeSet]] 0 0.

Definition resumed_world : world :=
  mkWorld ∅ (fun _ => true) [] [] [] (Control.pause Control.init)
          [[]; Control.steps_of Control.Resume; []] 0 0.

(** A [downloading] event of yt-dlp that knows only an estimate of the
    size. *)
Definition estimated_status : gmap string pyval :=
  {[ "status" := PyStr "downloading";
     "downloaded_bytes" := PyInt 50;
     "total_bytes_estimate" := PyInt 200 ]}.

(** Surroundings in which pytube lists one stream of unknown size. *)
Definition unknown_size : Externals :=
  Demo.env (inr [Demo.stream 18 "360p" 0]) Demo.pytube_ok Demo.ydl_fails.

(** A control object on which [cancel] was called before the worker
    starts. *)
Definition cancelled_world : world :=
  mkWorld ∅ (fun _ => true) [] [] [] (Control.cancel Control.init) [] 0 0.

(** Surroundings in which yt-dlp leaves a fragment in the temporary
    directory before it reports the finished file. *)
Definition fragments : Externals :=
  Demo.env (inr Demo.streams) Demo.pytube_ok
           (mkYdlRun
              [mkYdlEvent
                 (fun fs => <[["tmp"; "yt-dlp-frag-0"; "a.mp4.part"] := File "x"]> fs)
                 {[ "status" := PyStr "downloading" ]};
               Demo.finished "a.mp4"]
              None (fun fs => fs)).


(** Two requests: for the video of [u], and for its audio track. *)
Definition video_request : Backend.payload :=
  Backend.mkPayload (Some "u") Backend.JNull None None None.

Definition audio_request : Backend.payload :=
  Backend.mkPayload (Some "u") (Backend.JBool true) None None None.

(* ===================================================================== *)
(** * Properties *)
(* ===================================================================== *)

Local Ltac unfold_m :=
  unfold bind, ret, raise, hang, get, modify, when, try_except_if, try_except,
    finally, with_control in *.

(** ** First checks *)

Example determine_template_clip :
  _determine_template (Some "clip.mkv") true = Some ("clip.mp3", Some "mp3").
Proof. reflexivity. Qed.

(** ** The control object *)

Lemma do_step_cancel_mono (s : Control.step) (c : WorkerControl) :
  _cancel_event c = true -> _cancel_event (Control.do_step s c) = true.
Proof. destruct s; simpl; auto. Qed.

Lemma do_steps_cancel_mono (ss : list Control.step) (c : WorkerControl) :
  _cancel_event c = true -> _cancel_event (Control.do_steps ss c) = true.
Proof.
  unfold Control.do_steps. revert c.
  induction ss as [|s ss IH]; intros c Hc; simpl; [exact Hc|].
  apply IH, do_step_cancel_mono, Hc.
Qed.

Lemma do_steps_cancel_set (ss : list Control.step) (c : WorkerControl) :
  In Control.CancelSet ss -> _cancel_event (Control.do_steps ss c) = true.
Proof.
  unfold Control.do_steps. revert c.
  induction ss as [|s ss IH]; intros c Hin; simpl in *; [contradiction|].
  destruct Hin as [-> | Hin].
  - apply (do_steps_cancel_mono ss). reflexivity.
  - apply IH, Hin.
Qed.

(** The steps of a method are the method. *)
Lemma steps_of_apply (o : Control.op) (c : WorkerControl) :
  Control.do_steps (Control.steps_of o) c = Control.apply o c.
Proof. destruct o, c; reflexivity. Qed.

Lemma apply_cancel_mono (o : Control.op) (c : WorkerControl) :
  Control.cancelled c = true -> Control.cancelled (Control.apply o c) = true.
Proof. destruct o; simpl; auto. Qed.

Lemma run_cancel_mono (ops : list Control.op) (c : WorkerControl) :
  Control.cancelled c = true -> Control.cancelled (Control.run ops c) = true.
Proof.
  unfold Control.run. revert c.
  induction ops as [|o ops IH]; intros c Hc; simpl; [exact Hc|].
  apply IH, apply_cancel_mono, Hc.
Qed.

(** A read of a cancelled control object sees it cancelled, whatever the
    controlling thread has done in between. *)
Lemma observe_cancelled (w : world) :
  _cancel_event (w_ctl w) = true ->
  exists c w', observe w = (Ret c, w') /\ _cancel_event c = true
               /\ w_ctl w' = c /\ w_clock w' = w_clock w
               /\ w_sched w' = List.tl (w_sched w).
Proof.
  intros Hc. unfold observe. destruct (w_sched w) as [|ss rest] eqn:Hs.
  - exists (w_ctl w), w. repeat split; auto.
  - eexists _, _. split; [reflexivity|]. simpl.
    split; [apply do_steps_cancel_mono, Hc|repeat split; auto].
Qed.

Lemma raise_if_cancelled_cancelled (w : world) :
  _cancel_event (w_ctl w) = true ->
  exists w', WorkerControl_raise_if_cancelled w
             = (Raise (mk_exn DownloadCancelled ""), w')
             /\ _cancel_event (w_ctl w') = true /\ w_clock w' = w_clock w.
Proof.
  intros Hc. destruct (observe_cancelled w Hc) as (c & w' & Ho & Hc' & Hw & Hk & _).
  exists w'. unfold WorkerControl_raise_if_cancelled. unfold_m.
  rewrite Ho, Hc'. subst c. auto.
Qed.

(** C4: the cancelled flag starts false, [cancel] sets it and clears the
    pause, no method and no step of the controlling thread resets it, the
    three methods are idempotent, and [raise_if_cancelled] raises
    [DownloadCancelled] in every state reached after a [cancel], paused or
    not. *)
Theorem cancelled_is_monotonic :
  Control.cancelled Control.init = false
  /\ Control.is_paused Control.init = false
  /\ (forall c, Control.cancelled (Control.cancel c) = true
                /\ Control.is_paused (Control.cancel c) = false)
  /\ (forall o c, Control.cancelled c = true ->
                  Control.cancelled (Control.apply o c) = true)
  /\ (forall s c, Control.cancelled c = true ->
                  Control.cancelled (Control.do_step s c) = true)
  /\ (forall o c, Control.apply o (Control.apply o c) = Control.apply o c)
  /\ (forall c before after w,
         w_ctl w = Control.run after (Control.cancel (Control.run before c)) ->
         exists w', WorkerControl_raise_if_cancelled w
                    = (Raise (mk_exn DownloadCancelled ""), w')
                    /\ Control.cancelled (w_ctl w') = true).
Proof.
  split; [reflexivity|]. split; [reflexivity|].
  split; [intros c; split; reflexivity|].
  split; [intros o c; apply apply_cancel_mono|].
  split; [intros s c; apply do_step_cancel_mono|].
  split; [intros o c; destruct o; reflexivity|].
  - intros c before after w Hw.
    destruct (raise_if_cancelled_cancelled w) as (w' & Hr & Hc & _).
    + rewrite Hw. apply (run_cancel_mono after). reflexivity.
    + exists w'. auto.
Qed.

(** ** [wait_if_paused] *)

(** Once the cancel event is set the loop is left at once. *)
Lemma wait_loop_cancelled (n : nat) (w : world) :
  _cancel_event (w_ctl w) = true ->
  exists r w', while (S n) wait_cond wait_body w = (r, w')
               /\ (r = Ret tt \/ r = Raise (mk_exn DownloadCancelled ""))
               /\ w_clock w' = w_clock w.
Proof.
  intros Hc.
  destruct (observe_cancelled w Hc) as (c & w1 & Ho & Hc1 & Hw1 & Hk1 & _).
  simpl. unfold wait_cond at 1. unfold_m. rewrite Ho.
  destruct (_resume_event c) eqn:Hr; simpl.
  - eexists _, _. split; [reflexivity|]. auto.
  - destruct (raise_if_cancelled_cancelled w1) as (w2 & Hr2 & _ & Hk2).
    { rewrite Hw1. exact Hc1. }
    unfold wait_body at 1. unfold_m. rewrite Hr2.
    eexists _, _. split; [reflexivity|]. split; [auto|congruence].
Qed.

Lemma wait_loop_unblocks (n : nat) :
  forall (w : world) (pre : list (list Control.step)) ss post,
    w_sched w = pre ++ ss :: post ->
    In Control.CancelSet ss ->
    length pre < n ->
    exists r w', while n wait_cond wait_body w = (r, w')
                 /\ (r = Ret tt \/ r = Raise (mk_exn DownloadCancelled ""))
                 /\ 2 * (w_clock w' - w_clock w) <= length pre.
Proof.
  induction n as [n IH] using lt_wf_ind.
  intros w pre ss post Hs Hin Hn.
  destruct n as [|n]; [lia|].
  destruct pre as [|b0 pre].
  - (* the cancel step is seen by this read of the resume event *)
    simpl in Hs. simpl. unfold wait_cond at 1, observe at 1. unfold_m.
    rewrite Hs. simpl.
    set (c := Control.do_steps ss (w_ctl w)).
    assert (Hc : _cancel_event c = true) by (apply do_steps_cancel_set, Hin).
    destruct (_resume_event c) eqn:Hr; simpl.
    + eexists _, _. split; [reflexivity|]. split; [auto|simpl; lia].
    + destruct (raise_if_cancelled_cancelled (set_ctl c post w))
        as (w2 & Hr2 & _ & Hk2); [exact Hc|].
      unfold wait_body at 1. unfold_m. rewrite Hr2.
      eexists _, _. split; [reflexivity|]. split; [auto|].
      rewrite Hk2. simpl. lia.
  - simpl in Hs. simpl. unfold wait_cond at 1, observe at 1. unfold_m.
    rewrite Hs. simpl.
    set (c := Control.do_steps b0 (w_ctl w)).
    destruct (_resume_event c) eqn:Hr; simpl.
    + eexists _, _. split; [reflexivity|]. split; [auto|simpl; lia].
    + unfold wait_body at 1, WorkerControl_raise_if_cancelled at 1,
        observe at 1, sleep at 1. unfold_m. simpl.
      destruct pre as [|b1 pre]; simpl.
      * (* the cancel step is seen by the check of the cancel event *)
        rewrite (do_steps_cancel_set ss c Hin).
        eexists _, _. split; [reflexivity|]. split; [auto|simpl; lia].
      * destruct (_cancel_event (Control.do_steps b1 c)) eqn:Hc.
        { eexists _, _. split; [reflexivity|]. split; [auto|simpl; lia]. }
        simpl in Hn.
        match goal with
        | |- context [while n wait_cond wait_body ?w1] =>
            destruct (IH n (Nat.lt_succ_diag_r n) w1 pre ss post)
              as (r & w' & Hw & Hres & Hk); [reflexivity|exact Hin|lia|]
        end.
        exists r, w'. split; [exact Hw|]. split; [exact Hres|].
        simpl in Hk. simpl. lia.
Qed.

(** A [Hang] of [wait_if_paused] is a real one: the controlling thread
    takes no further step and the object is paused and not cancelled. *)
Lemma wait_hang_is_blocked (w w' : world) :
  WorkerControl_wait_if_paused w = (Hang, w') ->
  w_sched w' = [] /\ _resume_event (w_ctl w') = false
  /\ _cancel_event (w_ctl w') = false.
Proof.
  unfold WorkerControl_wait_if_paused.
  fold wait_cond. fold wait_body.
  assert (Hgen : forall n w0,
             length (w_sched w0) <= n ->
             while (S n) wait_cond wait_body w0 = (Hang, w') ->
             w_sched w' = [] /\ _resume_event (w_ctl w') = false
             /\ _cancel_event (w_ctl w') = false).
  { induction n as [|n IH]; intros w0 Hlen.
    - destruct (w_sched w0) as [|b0 rest] eqn:Hs; [|simpl in Hlen; lia].
      simpl. unfold wait_cond, wait_body, WorkerControl_raise_if_cancelled,
        observe, sleep. unfold_m. rewrite Hs. simpl.
      destruct (_resume_event (w_ctl w0)) eqn:Hr; simpl; [discriminate|].
      rewrite Hs.
      destruct (_cancel_event (w_ctl w0)) eqn:Hc; simpl; [discriminate|].
      intros [= <-]. simpl. auto.
    - change (while (S (S n)) wait_cond wait_body w0)
        with (bind wait_cond
                (fun b => if b then bind wait_body
                                      (fun _ => while (S n) wait_cond wait_body)
                          else ret tt) w0).
      unfold wait_cond at 1, wait_body at 1, WorkerControl_raise_if_cancelled,
        observe, sleep. unfold_m.
      destruct (w_sched w0) as [|b0 rest] eqn:Hs; simpl.
      + destruct (_resume_event (w_ctl w0)); simpl; [discriminate|].
        rewrite Hs.
        destruct (_cancel_event (w_ctl w0)); simpl; [discriminate|].
        apply IH. simpl. rewrite Hs. simpl. lia.
      + destruct (_resume_event (Control.do_steps b0 (w_ctl w0)));
          simpl; [discriminate|].
        simpl in Hlen.
        destruct rest as [|b1 rest]; simpl.
        * destruct (_cancel_event (Control.do_steps b0 (w_ctl w0)));
            simpl; [discriminate|].
          apply IH. simpl. lia.
        * destruct (_cancel_event
                      (Control.do_steps b1 (Control.do_steps b0 (w_ctl w0))));
            simpl; [discriminate|].
          apply IH. simpl. simpl in Hlen. lia. }
  apply Hgen. lia.
Qed.

(** C5: when the controlling thread sets the cancel event while the worker
    is in [wait_if_paused], the call ends, by returning or by raising
    [DownloadCancelled], whether or not the resume event is ever set again.
    The schedule lists the steps of the controlling thread before each read
    of an event by the loop, two reads per iteration; with the cancel step
    before read number [length pre], the loop has slept at most
    [length pre / 2] times when it ends: it does not sleep again after the
    interval in which the cancel arrived. A control object that is already
    cancelled ends the call without any sleep. *)
Theorem wait_if_paused_unblocks_on_cancel :
  (forall (w : world) pre ss post,
      w_sched w = pre ++ ss :: post ->
      In Control.CancelSet ss ->
      exists r w', WorkerControl_wait_if_paused w = (r, w')
                   /\ (r = Ret tt \/ r = Raise (mk_exn DownloadCancelled ""))
                   /\ 2 * (w_clock w' - w_clock w) <= length pre)
  /\ (forall (w : world),
         Control.cancelled (w_ctl w) = true ->
         exists r w', WorkerControl_wait_if_paused w = (r, w')
                      /\ (r = Ret tt \/ r = Raise (mk_exn DownloadCancelled ""))
                      /\ w_clock w' = w_clock w).
Proof.
  split.
  - intros w pre ss post Hs Hin.
    unfold WorkerControl_wait_if_paused. fold wait_cond. fold wait_body.
    apply (wait_loop_unblocks _ w pre ss post Hs Hin).
    rewrite Hs, length_app. simpl. lia.
  - intros w Hc. unfold WorkerControl_wait_if_paused.
    fold wait_cond. fold wait_body. apply wait_loop_cancelled, Hc.
Qed.

Lemma cancelled_is_monotonic_witness :
  exists w', WorkerControl_raise_if_cancelled
               (set_ctl (Control.run [Control.Pause] (Control.cancel Control.init))
                        [] paused_world)
             = (Raise (mk_exn DownloadCancelled ""), w')
             /\ Control.cancelled (w_ctl w') = true.
Proof.
  exact (proj2 (proj2 (proj2 (proj2 (proj2 (proj2 cancelled_is_monotonic)))))
           Control.init [] [Control.Pause]
           (set_ctl (Control.run [Control.Pause] (Control.cancel Control.init))
                    [] paused_world) eq_refl).
Defined.

Lemma wait_if_paused_unblocks_witness :
  exists r w', WorkerControl_wait_if_paused paused_world = (r, w')
               /\ (r = Ret tt \/ r = Raise (mk_exn DownloadCancelled ""))
               /\ 2 * (w_clock w' - w_clock paused_world) <= 2.
Proof.
  exact (proj1 wait_if_paused_unblocks_on_cancel paused_world [[]; []]
           [Control.CancelSet; Control.ResumeSet] [] eq_refl (or_introl eq_refl)).
Defined.

(** ** File names *)

Lemma append_nil (t : string) : "" +:+ t = t.
Proof. reflexivity. Qed.

Lemma append_cons (a : ascii) (s t : string) :
  String a s +:+ t = String a (s +:+ t).
Proof. reflexivity. Qed.

Lemma length_append (s t : string) :
  String.length (s +:+ t) = String.length s + String.length t.
Proof.
  induction s as [|a s IH]; rewrite ?append_nil, ?append_cons; simpl;
    [reflexivity|].
  rewrite IH. reflexivity.
Qed.

Lemma rfind_append (c : ascii) (s t : string) :
  Str.rfind c (s +:+ t)
  = match Str.rfind c t with
    | Some j => Some (String.length s + j)
    | None => Str.rfind c s
    end.
Proof.
  induction s as [|a s IH]; rewrite ?append_nil, ?append_cons; simpl.
  - destruct (Str.rfind c t); reflexivity.
  - rewrite IH. destruct (Str.rfind c t); reflexivity.
Qed.

Lemma drop_append_length (s t : string) : Str.drop (String.length s) (s +:+ t) = t.
Proof.
  induction s as [|a s IH]; rewrite ?append_nil, ?append_cons; simpl;
    [destruct t; reflexivity|exact IH].
Qed.

Lemma length_take (i : nat) (s : string) :
  i <= String.length s -> String.length (Str.take i s) = i.
Proof.
  revert s. induction i as [|i IH]; intros s Hi; simpl.
  - destruct s; reflexivity.
  - destruct s as [|a s]; simpl in *; [lia|]. rewrite IH; [reflexivity|lia].
Qed.

Lemma length_drop (i : nat) (s : string) :
  String.length (Str.drop i s) = String.length s - i.
Proof.
  revert s. induction i as [|i IH]; intros s; simpl.
  - destruct s; simpl; lia.
  - destruct s as [|a s]; simpl; [reflexivity|apply IH].
Qed.

Lemma nonempty_length (s : string) :
  Str.nonempty s = true <-> 0 < String.length s.
Proof. destruct s; simpl; split; intros; try lia; try discriminate; auto. Qed.

(** A name with a suffix: where the suffix starts. *)
Lemma suffix_of_name_inv (n : string) :
  Str.nonempty (PurePath.suffix_of_name n) = true ->
  exists i, Str.rfind "." n = Some i /\ 0 < i /\ i < String.length n - 1
            /\ PurePath.suffix_of_name n = Str.drop i n.
Proof.
  unfold PurePath.suffix_of_name.
  destruct (Str.rfind "." n) as [i|]; [|discriminate].
  destruct (0 <? i)%nat eqn:H0; simpl; [|discriminate].
  destruct (i <? String.length n - 1)%nat eqn:H1; simpl; [|discriminate].
  intros _. exists i. apply Nat.ltb_lt in H0, H1. auto.
Qed.

(** Replacing the suffix of a name that has one yields a name with the new
    suffix. *)
Lemma suffix_of_renamed (n : string) :
  Str.nonempty (PurePath.suffix_of_name n) = true ->
  PurePath.suffix_of_name
    (Str.take (String.length n - String.length (PurePath.suffix_of_name n)) n
     +:+ ".mp3") = ".mp3".
Proof.
  intros Hs. destruct (suffix_of_name_inv n Hs) as (i & Hi & H0 & H1 & ->).
  rewrite length_drop.
  replace (String.length n - (String.length n - i)) with i by lia.
  set (stem := Str.take i n).
  assert (Hlen : String.length stem = i) by (apply length_take; lia).
  unfold PurePath.suffix_of_name.
  rewrite rfind_append. simpl Str.rfind. rewrite length_append, Hlen.
  simpl String.length.
  replace (0 <? i + 0)%nat with true by (symmetry; apply Nat.ltb_lt; lia).
  replace (i + 0 <? i + 4 - 1)%nat with true by (symmetry; apply Nat.ltb_lt; lia).
  simpl. rewrite Nat.add_0_r, <- Hlen. apply drop_append_length.
Qed.

(** C8: for a custom file name with an extension, audio mode yields the
    name with its extension replaced by [.mp3] and the final extension
    [mp3] (so [clip.mkv] becomes [clip.mp3]); a custom file name without an
    extension gets the extension placeholder of the adapter appended; without
    a custom file name the template is the one of the remote title. *)
Theorem determine_template_extension :
  (forall filename : string,
      Str.nonempty filename = true ->
      Str.nonempty (PurePath.suffix (PurePath.of_string filename)) = true ->
      exists p, PurePath.with_suffix (PurePath.of_string filename) ".mp3" = Some p
                /\ _determine_template (Some filename) true
                   = Some (PurePath.to_string p, Some "mp3")
                /\ PurePath.suffix p = ".mp3")
  /\ _determine_template (Some "clip.mkv") true = Some ("clip.mp3", Some "mp3")
  /\ (forall (filename : string) (audio_only : bool),
         Str.nonempty filename = true ->
         PurePath.suffix (PurePath.of_string filename) = "" ->
         _determine_template (Some filename) audio_only
         = Some (PurePath.name (PurePath.of_string filename) +:+ ".%(ext)s",
                 if audio_only then Some "mp3" else None))
  /\ (forall (filename : option string) (audio_only : bool),
         truthy filename = false ->
         _determine_template filename audio_only
         = Some ("%(title)s.%(ext)s", if audio_only then Some "mp3" else None)).
Proof.
  split; [|split; [reflexivity|split]].
  - intros filename Hne Hsuf.
    unfold _determine_template. simpl truthy. rewrite Hne. simpl default.
    rewrite Hsuf.
    set (name := PurePath.of_string filename) in *.
    unfold PurePath.suffix in Hsuf.
    destruct (suffix_of_name_inv _ Hsuf) as (i & Hi & H0 & H1 & Heq).
    assert (Hn : Str.nonempty (PurePath.name name) = true).
    { apply nonempty_length. lia. }
    unfold PurePath.with_suffix. rewrite Hn, Hsuf. simpl negb. cbv iota.
    eexists. split; [reflexivity|]. split; [reflexivity|].
    unfold PurePath.suffix, PurePath.name at 1. simpl parts.
    rewrite last_last. apply suffix_of_renamed, Hsuf.
  - intros filename audio_only Hne Hsuf.
    unfold _determine_template. simpl truthy. rewrite Hne. simpl default.
    rewrite Hsuf. reflexivity.
  - intros filename audio_only Hf.
    unfold _determine_template. rewrite Hf. reflexivity.
Qed.

Lemma determine_template_extension_witness :
  exists p, PurePath.with_suffix (PurePath.of_string "dir/clip.tar.mkv") ".mp3"
            = Some p
            /\ _determine_template (Some "dir/clip.tar.mkv") true
               = Some (PurePath.to_string p, Some "mp3")
            /\ PurePath.suffix p = ".mp3".
Proof.
  exact (proj1 determine_template_extension "dir/clip.tar.mkv" eq_refl eq_refl).
Defined.

(** ** Stream selection of the pytube adapter *)

Section Membership.

Context {A : Type} (le : A -> A -> bool).

Lemma insert_by_In (x z : A) (l : list A) :
  In z (StreamQuery.insert_by le x l) <-> z = x \/ In z l.
Proof.
  induction l as [|y l IH]; simpl.
  - intuition.
  - destruct (le x y); simpl; [intuition|]. rewrite IH. intuition.
Qed.

Lemma sorted_by_In (z : A) (l : list A) :
  In z (StreamQuery.sorted_by le l) <-> In z l.
Proof.
  induction l as [|x l IH]; simpl; [reflexivity|].
  rewrite insert_by_In, IH. intuition.
Qed.

End Membership.

Section Sorting.

Context {A : Type} (k : A -> N).

Let le (a b : A) : bool := (k a <=? k b)%N.

(** The last element of a list whose last element is a greatest one
    stays a greatest one after an insertion. *)
Lemma insert_by_last (x d : A) (l : list A) :
  (forall y, In y l -> (k y <= k (List.last l d))%N) ->
  let m := List.last (StreamQuery.insert_by le x l) d in
  (k x <= k m)%N /\ forall y, In y l -> (k y <= k m)%N.
Proof.
  induction l as [|y l IH]; intros Hmax.
  - simpl. split; [lia|contradiction].
  - cbn [StreamQuery.insert_by].
    destruct (le x y) eqn:Hxy; unfold le in Hxy.
    + apply N.leb_le in Hxy.
      change (List.last (x :: y :: l) d) with (List.last (y :: l) d).
      split; [|exact Hmax].
      pose proof (Hmax y (or_introl eq_refl)). lia.
    + apply N.leb_gt in Hxy.
      destruct l as [|y' l].
      * simpl. split; [lia|]. intros z [<-|[]]. lia.
      * assert (Hl : forall z, In z (y' :: l) ->
                               (k z <= k (List.last (y' :: l) d))%N).
        { intros z Hz. apply (Hmax z). right. exact Hz. }
        destruct (IH Hl) as [Hx Hrest].
        assert (Hne : StreamQuery.insert_by le x (y' :: l) <> []).
        { simpl. destruct (le x y'); discriminate. }
        assert (Hlast : List.last (y :: StreamQuery.insert_by le x (y' :: l)) d
                        = List.last (StreamQuery.insert_by le x (y' :: l)) d).
        { destruct (StreamQuery.insert_by le x (y' :: l));
            [contradiction|reflexivity]. }
        rewrite Hlast. split; [exact Hx|].
        intros z [<-|Hz]; [|apply Hrest, Hz].
        pose proof (Hmax y (or_introl eq_refl)) as Hy.
        change (List.last (y :: y' :: l) d) with (List.last (y' :: l) d) in Hy.
        assert (Hin : In (List.last (y' :: l) d) (y' :: l)).
        { destruct (exists_last (l := y' :: l)) as (l0 & a & Heq);
            [discriminate|].
          rewrite Heq, last_last. apply in_app_iff. right. left. reflexivity. }
        pose proof (Hrest _ Hin). lia.
Qed.

Lemma sorted_by_last_max (d : A) (l : list A) :
  forall y, In y l -> (k y <= k (List.last (StreamQuery.sorted_by le l) d))%N.
Proof.
  induction l as [|x l IH]; [contradiction|].
  intros y Hy. cbn [StreamQuery.sorted_by].
  destruct (insert_by_last x d (StreamQuery.sorted_by le l)) as [Hx Hrest].
  { intros z Hz. apply IH, (sorted_by_In le), Hz. }
  destruct Hy as [<-|Hy]; [exact Hx|].
  apply Hrest, (sorted_by_In le), Hy.
Qed.

Lemma head_rev_last (d : A) (l : list A) (m : A) :
  head (rev l) = Some m -> m = List.last l d /\ In m l.
Proof.
  destruct l as [|x l] using rev_ind; [discriminate|].
  rewrite rev_app_distr. simpl. intros [= ->].
  rewrite last_last. split; [reflexivity|].
  apply in_app_iff. right. left. reflexivity.
Qed.

(** The first stream of a descending order is a greatest one. *)
Lemma first_desc_sorted_max (l : list A) (m : A) :
  head (rev (StreamQuery.sorted_by le l)) = Some m ->
  In m l /\ forall y, In y l -> (k y <= k m)%N.
Proof.
  intros Hm. destruct (head_rev_last m _ _ Hm) as [Heq Hin].
  split; [apply (sorted_by_In le), Hin|].
  intros y Hy. rewrite Heq. apply sorted_by_last_max, Hy.
Qed.

End Sorting.

Lemma progressive_mp4_filter (s : Stream) (streams : list Stream) :
  In s (List.filter (fun s => is_progressive s && String.eqb (subtype s) "mp4")
                    streams)
  <-> In s streams /\ progressive_mp4 s.
Proof.
  rewrite filter_In, andb_true_iff, String.eqb_eq. reflexivity.
Qed.

Lemma order_by_numeric (l : list Stream) :
  (forall s v, In s l -> stream_resolution s = Some v ->
               StreamQuery.digits_value v <> None) ->
  StreamQuery.order_by stream_resolution l
  = StreamQuery.sorted_by
      (fun a b => (resolution_rank a <=? resolution_rank b)%N)
      (List.filter (fun s => bool_decide (is_Some (stream_resolution s))) l).
Proof.
  intros Hnum. unfold StreamQuery.order_by.
  match goal with |- (if ?b then _ else _) = _ => assert (Hb : b = true) end.
  { apply forallb_forall. intros s Hs. apply filter_In in Hs as [Hs Hsome].
    apply bool_decide_eq_true. apply bool_decide_eq_true in Hsome.
    destruct Hsome as [v Hv]. unfold StreamQuery.num_key. rewrite Hv.
    destruct (StreamQuery.digits_value v) eqn:Hd; [eauto|].
    exfalso. exact (Hnum s v Hs Hv Hd). }
  rewrite Hb. reflexivity.
Qed.

(** [order_by] keeps the streams that have the attribute, and only
    those. *)
Lemma order_by_members (l : list Stream) :
  (forall s, In s (StreamQuery.order_by stream_resolution l) ->
             In s l /\ stream_resolution s <> None)
  /\ (forall s, In s l /\ stream_resolution s <> None ->
                In s (StreamQuery.order_by stream_resolution l)).
Proof.
  assert (Hfilter : forall s,
             In s (List.filter
                     (fun s => bool_decide (is_Some (stream_resolution s))) l)
             <-> In s l /\ stream_resolution s <> None).
  { intros s. rewrite filter_In, bool_decide_eq_true.
    split; intros [Hin Hs]; (split; [exact Hin|]).
    - destruct Hs as [v Hv]. congruence.
    - destruct (stream_resolution s); [eauto|congruence]. }
  unfold StreamQuery.order_by.
  split; intros s Hs; destruct (forallb _ _);
    first [apply sorted_by_In in Hs; apply Hfilter, Hs
          |apply sorted_by_In, Hfilter, Hs].
Qed.

(** C7: in video mode the pytube adapter selects among the progressive MP4
    streams only; with a resolution it selects a stream of exactly that
    resolution, and when there is none it fails with a message that
    contains the resolution asked for; without a resolution it selects a
    stream whose resolution is the highest among the progressive MP4
    streams (resolutions compared by the number their digits spell): a
    stream is selected as soon as one progressive MP4 stream has a
    resolution, and when none has one the adapter fails for want of a
    progressive MP4 stream. The adapter raises the error of the selection,
    and otherwise goes on to download the selected stream. *)
Theorem pytube_video_selection :
  (forall streams res s,
      pytube_select streams false res = inr s ->
      In s streams /\ progressive_mp4 s)
  /\ (forall streams r s,
         Str.nonempty r = true ->
         pytube_select streams false (Some r) = inr s ->
         stream_resolution s = Some r)
  /\ (forall streams r,
         Str.nonempty r = true ->
         (exists s, In s streams /\ progressive_mp4 s
                    /\ stream_resolution s = Some r) ->
         exists s, pytube_select streams false (Some r) = inr s)
  /\ (forall streams r,
         Str.nonempty r = true ->
         (forall s, In s streams -> progressive_mp4 s ->
                    stream_resolution s <> Some r) ->
         pytube_select streams false (Some r)
         = inl (mk_exn ValueError
                  ("Resolution " +:+ r
                   +:+ " not available. Use --resolution to pick another.")))
  /\ (forall streams res s,
         truthy res = false ->
         (forall s' v, In s' streams -> progressive_mp4 s' ->
                       stream_resolution s' = Some v ->
                       StreamQuery.digits_value v <> None) ->
         pytube_select streams false res = inr s ->
         forall s', In s' streams -> progressive_mp4 s' ->
                    stream_resolution s' <> None ->
                    (resolution_rank s' <= resolution_rank s)%N)
  /\ (forall streams res,
         truthy res = false ->
         (exists s0, In s0 streams /\ progressive_mp4 s0
                     /\ stream_resolution s0 <> None) ->
         exists s, pytube_select streams false res = inr s
                   /\ In s streams /\ progressive_mp4 s
                   /\ stream_resolution s <> None)
  /\ (forall streams res,
         truthy res = false ->
         (forall s, In s streams -> progressive_mp4 s ->
                    stream_resolution s = None) ->
         pytube_select streams false res
         = inl (mk_exn ValueError
                  "No progressive MP4 streams available for this video."))
  /\ (forall E url output_dir filename res cb w fs' streams,
         Fs.mkdirs [] (key E output_dir) (w_fs w) = Some fs' ->
         YouTube_streams E url = inr streams ->
         _download_with_pytube E url output_dir filename false res cb None w
         = match pytube_select streams false res with
           | inl e =>
               (Raise e, set_calls (w_calls w ++ [CallYouTube url]) (set_fs fs' w))
           | inr stream =>
               bind
                 (stream_download E stream (PurePath.to_string output_dir)
                    (if truthy filename then default "" filename
                     else default_filename stream)
                    (_make_pytube_progress_handler cb None))
                 (fun destination =>
                    bind
                      match cb with
                      | Some cb => cb (Some 100%Q) ""
                      | None => _safe_write Stdout (MsgComplete destination)
                      end
                      (fun _ => ret (PurePath.of_string destination)))
                 (set_calls (w_calls w ++ [CallYouTube url]) (set_fs fs' w))
           end).
Proof.
  split; [|split; [|split; [|split; [|split; [|split; [|split]]]]]].
  - intros streams res s. unfold pytube_select.
    destruct (truthy res).
    + destruct (StreamQuery.first _) as [s0|] eqn:Hf; [|discriminate].
      intros [= <-]. apply head_Some_elem_of, list_elem_of_In in Hf.
      apply filter_In in Hf as [Hf _]. apply progressive_mp4_filter, Hf.
    + destruct (StreamQuery.first _) as [s0|] eqn:Hf; [|discriminate].
      intros [= <-]. unfold StreamQuery.first, StreamQuery.desc in Hf.
      apply head_Some_elem_of, list_elem_of_In, in_rev in Hf.
      apply progressive_mp4_filter.
      unfold StreamQuery.order_by in Hf.
      destruct (forallb _ _); apply sorted_by_In in Hf;
        apply filter_In in Hf as [Hf _]; exact Hf.
  - intros streams r s Hr. unfold pytube_select. simpl truthy. rewrite Hr.
    destruct (StreamQuery.first _) as [s0|] eqn:Hf; [|discriminate].
    intros [= <-]. apply head_Some_elem_of, list_elem_of_In in Hf.
    apply filter_In in Hf as [_ Hf]. apply bool_decide_eq_true in Hf. exact Hf.
  - intros streams r Hr (s & Hin & Hp & Hres).
    unfold pytube_select. simpl truthy. rewrite Hr.
    destruct (StreamQuery.first _) as [s0|] eqn:Hf; [eauto|].
    exfalso. unfold StreamQuery.first in Hf.
    assert (Hs : In s (List.filter
                         (fun s => bool_decide (stream_resolution s = Some r))
                         (List.filter
                            (fun s => is_progressive s
                                      && String.eqb (subtype s) "mp4") streams))).
    { apply filter_In. split; [apply progressive_mp4_filter; auto|].
      apply bool_decide_eq_true, Hres. }
    destruct (List.filter _ (List.filter _ streams)); [contradiction|discriminate].
  - intros streams r Hr Hnone. unfold pytube_select. simpl truthy. rewrite Hr.
    destruct (StreamQuery.first _) as [s0|] eqn:Hf; [|reflexivity].
    exfalso. apply head_Some_elem_of, list_elem_of_In in Hf.
    apply filter_In in Hf as [Hf Hres]. apply progressive_mp4_filter in Hf as [Hin Hp].
    apply bool_decide_eq_true in Hres. exact (Hnone s0 Hin Hp Hres).
  - intros streams res s Hres Hnum. unfold pytube_select. rewrite Hres.
    destruct (StreamQuery.first _) as [s0|] eqn:Hf; [|discriminate].
    intros [= <-] s' Hin' Hp' Hsome.
    unfold StreamQuery.first, StreamQuery.desc in Hf.
    rewrite order_by_numeric in Hf.
    + apply (first_desc_sorted_max resolution_rank) in Hf as [_ Hmax].
      apply Hmax. apply filter_In. split; [apply progressive_mp4_filter; auto|].
      apply bool_decide_eq_true. destruct (stream_resolution s'); [eauto|congruence].
    + intros s1 v Hs1 Hv. apply progressive_mp4_filter in Hs1 as [Hs1 Hp1].
      exact (Hnum s1 v Hs1 Hp1 Hv).
  - intros streams res Hres (s0 & Hin0 & Hp0 & Hsome0).
    unfold pytube_select. rewrite Hres.
    destruct (order_by_members
                (List.filter
                   (fun s => is_progressive s && String.eqb (subtype s) "mp4")
                   streams)) as [Hfrom Hto].
    destruct (StreamQuery.first _) as [s|] eqn:Hf.
    + exists s. split; [reflexivity|].
      unfold StreamQuery.first, StreamQuery.desc in Hf.
      apply head_Some_elem_of, list_elem_of_In, in_rev, Hfrom in Hf
        as [Hf Hsome].
      apply progressive_mp4_filter in Hf as [Hin Hp]. auto.
    + exfalso. unfold StreamQuery.first, StreamQuery.desc in Hf.
      apply head_None in Hf.
      assert (Hs0 : In s0 (rev (StreamQuery.order_by stream_resolution
                                  (List.filter
                                     (fun s => is_progressive s
                                               && String.eqb (subtype s) "mp4")
                                     streams)))).
      { apply -> in_rev. apply Hto.
        split; [apply progressive_mp4_filter; auto|exact Hsome0]. }
      rewrite Hf in Hs0. destruct Hs0.
  - intros streams res Hres Hnone. unfold pytube_select. rewrite Hres.
    destruct (order_by_members
                (List.filter
                   (fun s => is_progressive s && String.eqb (subtype s) "mp4")
                   streams)) as [Hfrom _].
    destruct (StreamQuery.first _) as [s|] eqn:Hf; [exfalso|reflexivity].
    unfold StreamQuery.first, StreamQuery.desc in Hf.
    apply head_Some_elem_of, list_elem_of_In, in_rev, Hfrom in Hf
      as [Hf Hsome].
    apply progressive_mp4_filter in Hf as [Hin Hp].
    exact (Hsome (Hnone s Hin Hp)).
  - intros E url output_dir filename res cb w fs' streams Hmk Hst.
    unfold _download_with_pytube, fs_mkdir_p, pytube_streams, log_call.
    unfold_m. rewrite Hmk.
    cbn -[pytube_select stream_download _make_pytube_progress_handler].
    rewrite Hst.
    destruct (pytube_select streams false res) as [e|stream]; reflexivity.
Qed.

Lemma pytube_video_selection_witness :
  pytube_select Demo.streams false (Some "720p") = inr (Demo.stream 22 "720p" 1024)
  /\ pytube_select Demo.streams false (Some "4320p")
     = inl (mk_exn ValueError
              "Resolution 4320p not available. Use --resolution to pick another.")
  /\ exists s, pytube_select Demo.streams false None = inr s
               /\ In s Demo.streams /\ progressive_mp4 s
               /\ stream_resolution s <> None.
Proof.
  split; [|split].
  - reflexivity.
  - apply (proj1 (proj2 (proj2 (proj2 pytube_video_selection)))
             Demo.streams "4320p" eq_refl).
    intros s Hin _ Hres. simpl in Hin.
    destruct Hin as [<-|[<-|[<-|[]]]]; discriminate.
  - apply (proj1 (proj2 (proj2 (proj2 (proj2 (proj2 pytube_video_selection)))))
             Demo.streams None eq_refl).
    exists (Demo.stream 18 "360p" 512).
    split; [left; reflexivity|]. split; [split; reflexivity|discriminate].
Defined.

(** ** The yt-dlp adapter, in three parts *)

Section YtdlpPartsFacts.

Context (E : Externals).

Lemma download_with_ytdlp_parts (url : string) (output_dir : Path)
  (filename : option string) (audio_only : bool) (resolution : option string)
  (progress_callback : option ProgressCallback)
  (control : option DownloadControl) (cookies : option string) :
  _download_with_ytdlp E url output_dir filename audio_only resolution
                       progress_callback control cookies
  = (fs_mkdir_p (key E output_dir) >>
     let* tpl :=
       match _determine_template filename audio_only with
       | Some t => ret t
       | None => raise (mk_exn ValueError "path has an empty name")
       end in
     let* ffmpeg_exists :=
       fs_exists (key E (PurePath.child (module_dir E) "ffmpeg.exe")) in
     let* download_info :=
       with_TemporaryDirectory E "yt-dlp-frag-"
         (ytdlp_session E url output_dir progress_callback control cookies
            (ytdlp_base_opts E filename audio_only resolution ffmpeg_exists tpl)) in
     ytdlp_finish E audio_only tpl.2 download_info).
Proof. reflexivity. Qed.

End YtdlpPartsFacts.

(** ** Inversion of the monad operations *)

Lemma bind_ret_inv {A B} (m : M A) (k : A -> M B) (w w' : world) (b : B) :
  bind m k w = (Ret b, w') ->
  exists a w1, m w = (Ret a, w1) /\ k a w1 = (Ret b, w').
Proof.
  unfold bind. destruct (m w) as [[a|e|] w1]; try discriminate. eauto.
Qed.

Lemma bind_inv {A B} (m : M A) (k : A -> M B) (w w' : world) (o : outcome B) :
  bind m k w = (o, w') ->
  (exists a w1, m w = (Ret a, w1) /\ k a w1 = (o, w'))
  \/ (exists e, m w = (Raise e, w') /\ o = Raise e)
  \/ (m w = (Hang, w') /\ o = Hang).
Proof.
  unfold bind. destruct (m w) as [[a|e|] w1]; intros H.
  - left. eauto.
  - right. left. injection H as <- <-. eauto.
  - right. right. injection H as <- <-. eauto.
Qed.

Lemma reraise_id {A} (catches : exn -> bool) (m : M A) (w : world) :
  try_except_if catches m (fun e => raise e) w = m w.
Proof.
  unfold try_except_if, try_except, raise.
  destruct (m w) as [[a|e|] w1]; try reflexivity.
  destruct (catches e); reflexivity.
Qed.

Lemma finally_ret_inv {A} (m : M A) (c : world -> world) (w w' : world) (a : A) :
  finally m c w = (Ret a, w') -> exists w1, m w = (Ret a, w1) /\ w' = c w1.
Proof.
  unfold finally. destruct (m w) as [[a0|e|] w1]; try discriminate.
  intros [= -> <-]. eauto.
Qed.

(** ** What the hook records *)

Section HookFacts.

Context (E : Externals).

Lemma hook_info (cb : option ProgressCallback) (ctl : option DownloadControl)
  (st : gmap string pyval) (info info' : gmap string Path) (w w' : world) :
  _hook E cb ctl st info w = (Ret info', w') ->
  info' = info
  \/ exists p, reports_file E st p /\ info' = <["filepath" := p]> info.
Proof.
  unfold _hook. intros H.
  apply bind_ret_inv in H as (_ & w1 & _ & H).
  assert (Hfin :
    forall w1 w',
      (if bool_decide (dict_get st "status" = PyStr "finished") then
         bind
           (if py_truthy (dict_get st "filename") then
              match dict_get st "filename" with
              | PyStr f =>
                  ret (<["filepath" := Fs.resolve (cwd E) (PurePath.of_string f)]>
                         info)
              | _ => raise (mk_exn TypeError "expected str, bytes or os.PathLike object")
              end
            else ret info)
           (fun info0 =>
              bind
                match cb with
                | Some cb => cb (Some 100%Q) ""
                | None =>
                    _safe_write Stdout
                      (MsgComplete (py_str (default (PyStr "") (st !! "filename"))))
                end
                (fun _ => ret info0))
       else ret info) w1 = (Ret info', w') ->
      info' = info
      \/ exists p, reports_file E st p /\ info' = <["filepath" := p]> info).
  { clear. intros w1 w' H.
    destruct (bool_decide (dict_get st "status" = PyStr "finished")) eqn:Hst.
    - apply bool_decide_eq_true in Hst.
      apply bind_ret_inv in H as (info0 & w2 & H0 & H).
      apply bind_ret_inv in H as (_ & w3 & _ & H).
      injection H as <- <-.
      destruct (py_truthy (dict_get st "filename")) eqn:Ht.
      + destruct (dict_get st "filename") as [|f|z] eqn:Hf; try discriminate.
        injection H0 as <- <-. right. eexists. split; [|reflexivity].
        split; [exact Hst|]. exists f. auto.
      + injection H0 as <- <-. left. reflexivity.
    - injection H as <- <-. left. reflexivity. }
  destruct (bool_decide (dict_get st "status" = PyStr "downloading")), cb as [cb|].
  - apply bind_ret_inv in H as (pc & w2 & _ & H).
    apply bind_ret_inv in H as (_ & w3 & _ & H).
    injection H as <- <-. left. reflexivity.
  - cbv zeta in H. cbv iota in H.
    destruct (bool_decide (dict_get st "status" = PyStr "postprocessing"));
      eapply Hfin, H.
  - destruct (bool_decide (dict_get st "status" = PyStr "postprocessing")).
    + apply bind_ret_inv in H as (_ & w3 & _ & H).
      injection H as <- <-. left. reflexivity.
    + eapply Hfin, H.
  - destruct (bool_decide (dict_get st "status" = PyStr "postprocessing"));
      eapply Hfin, H.
Qed.

Lemma for_each_hook_info (cb : option ProgressCallback)
  (ctl : option DownloadControl) (events : list ydl_event) :
  forall (info info' : gmap string Path) (w w' : world),
    for_each events
      (fun ev info =>
         modify (fun w => set_fs (ev_fs ev (w_fs w)) w) >>
         _hook E cb ctl (ev_status ev) info) info w = (Ret info', w') ->
    forall p, info' !! "filepath" = Some p ->
              info !! "filepath" = Some p
              \/ exists ev, In ev events /\ reports_file E (ev_status ev) p.
Proof.
  induction events as [|ev events IH]; intros info info' w w' H p Hp.
  - injection H as <- <-. left. exact Hp.
  - cbn [for_each] in H.
    apply bind_ret_inv in H as (info1 & w1 & H1 & H).
    apply bind_ret_inv in H1 as (_ & w0 & _ & H1).
    destruct (IH _ _ _ _ H p Hp) as [Hin | (ev' & Hin & Hrep)].
    + destruct (hook_info _ _ _ _ _ _ _ H1) as [-> | (q & Hrep & ->)].
      * left. exact Hin.
      * rewrite lookup_insert_eq in Hin. injection Hin as ->.
        right. exists ev. split; [left; reflexivity|exact Hrep].
    + right. exists ev'. split; [right; exact Hin|exact Hrep].
Qed.

End HookFacts.

(** ** The path that the yt-dlp adapter returns *)

Lemma determine_template_total (filename : option string) (audio_only : bool) :
  exists t, _determine_template filename audio_only = Some t
            /\ (audio_only = true -> t.2 = Some "mp3").
Proof.
  unfold _determine_template.
  destruct (truthy filename); [|eexists; split; [reflexivity|intros ->; reflexivity]].
  destruct (Str.nonempty (PurePath.suffix _)) eqn:Hs;
    [|eexists; split; [reflexivity|intros ->; reflexivity]].
  destruct audio_only; [|eexists; split; [reflexivity|discriminate]].
  unfold PurePath.suffix in Hs.
  destruct (suffix_of_name_inv _ Hs) as (i & _ & H0 & H1 & _).
  unfold PurePath.with_suffix.
  replace (Str.nonempty (PurePath.name (PurePath.of_string (default "" filename))))
    with true by (symmetry; apply nonempty_length; lia).
  eexists. split; reflexivity.
Qed.

Lemma safe_write_ret (s : std_stream) (m : console_msg) (w : world) :
  exists w', _safe_write s m w = (Ret tt, w')
             /\ w_fs w' = w_fs w /\ w_sink w' = w_sink w
             /\ w_calls w' = w_calls w /\ w_tmp w' = w_tmp w.
Proof.
  unfold _safe_write.
  repeat match goal with
         | |- context [if ?b then _ else _] => destruct b
         end; eexists; repeat split; reflexivity.
Qed.

Section ReturnedPath.

Context (E : Externals).

Lemma hook_silent (st : gmap string pyval) (info : gmap string Path) (w : world) :
  silent st -> exists w', _hook E None None st info w = (Ret info, w').
Proof.
  intros Hs. unfold _hook. unfold_m.
  destruct (bool_decide (dict_get st "status" = PyStr "downloading"));
    destruct (bool_decide (dict_get st "status" = PyStr "postprocessing"));
    cbv zeta; cbv iota.
  all: destruct (bool_decide (dict_get st "status" = PyStr "finished")) eqn:Hf;
    [|eauto].
  all: apply bool_decide_eq_true in Hf.
  all: destruct (py_truthy (dict_get st "filename")) eqn:Ht;
    [exfalso; apply Hs; auto|].
  all: unfold ret; cbv beta iota.
  all: destruct (safe_write_ret Stdout
                   (MsgComplete (py_str (default (PyStr "") (st !! "filename")))) w)
      as (w' & -> & _); eauto.
Qed.

Lemma for_each_hook_silent (events : list ydl_event) :
  (forall ev, In ev events -> silent (ev_status ev)) ->
  forall (info : gmap string Path) (w : world),
  exists w',
    for_each events
      (fun ev info =>
         modify (fun w => set_fs (ev_fs ev (w_fs w)) w) >>
         _hook E None None (ev_status ev) info) info w = (Ret info, w').
Proof.
  induction events as [|ev events IH]; intros Hall info w.
  - eexists. reflexivity.
  - cbn [for_each]. unfold bind at 1. unfold bind at 1. unfold modify at 1.
    destruct (hook_silent (ev_status ev) info
                (set_fs (ev_fs ev (w_fs w)) w)) as (w1 & ->).
    { apply Hall. left. reflexivity. }
    apply IH. intros ev' Hin. apply Hall. right. exact Hin.
Qed.

Lemma ydl_download_info (opts : ydl_opts) (url : string)
  (cb : option ProgressCallback) (ctl : option DownloadControl)
  (info : gmap string Path) (w w' : world) (p : Path) :
  ydl_download E opts url (_hook E cb ctl) ∅ w = (Ret info, w') ->
  info !! "filepath" = Some p ->
  exists jar ev, In ev (yr_events (YoutubeDL_download E opts url jar))
                 /\ reports_file E (ev_status ev) p.
Proof.
  unfold ydl_download. intros H Hp.
  apply bind_ret_inv in H as (jar & w1 & _ & H).
  apply bind_ret_inv in H as (_ & w2 & _ & H).
  apply bind_ret_inv in H as (info1 & w3 & Hfor & H).
  apply bind_ret_inv in H as (_ & w4 & _ & H).
  destruct (yr_result _); [discriminate|]. injection H as <- <-.
  destruct (for_each_hook_info E cb ctl _ _ _ _ _ Hfor p Hp)
    as [Hin | (ev & Hin & Hrep)].
  - rewrite lookup_empty in Hin. discriminate.
  - eauto.
Qed.

Lemma ytdlp_finish_ret (audio_only : bool) (info : gmap string Path)
  (w w' : world) (p : Path) (ext : option string) :
  (audio_only = true -> ext = Some "mp3") ->
  ytdlp_finish E audio_only ext info w = (Ret p, w') ->
  exists q, info !! "filepath" = Some q
            /\ (p = q \/ (audio_only = true
                          /\ PurePath.with_suffix q ".mp3" = Some p)).
Proof.
  intros Hext. unfold ytdlp_finish.
  destruct (info !! "filepath") as [q|]; [|discriminate].
  intros H. exists q. split; [reflexivity|].
  destruct audio_only.
  - rewrite (Hext eq_refl) in H. cbv zeta in H.
    change ("." +:+ default "" (Some "mp3")) with ".mp3" in H.
    cbn [truthy Str.nonempty andb] in H.
    destruct (negb _) in H; [|injection H as <- <-; auto].
    apply bind_ret_inv in H as (target & w1 & Ht & H).
    destruct (PurePath.with_suffix q ".mp3") as [t|] eqn:Hw; [|discriminate].
    injection Ht as <- <-.
    apply bind_ret_inv in H as (present & w2 & _ & H).
    destruct present; [|injection H as <- <-; auto].
    unfold try_except_if, try_except in H.
    match type of H with
    | (let (_, _) := ?m ?w in _) = _ => destruct (m w) as [[t'|e|] w3] eqn:Hm
    end.
    + injection H as <- <-.
      apply bind_ret_inv in Hm as (tp & w4 & _ & Hm).
      apply bind_ret_inv in Hm as (_ & w5 & _ & Hm).
      apply bind_ret_inv in Hm as (_ & w6 & _ & Hm).
      injection Hm as <- <-. auto.
    + destruct (is_os_error e); [injection H as <- <-; auto|discriminate].
    + discriminate.
  - cbv zeta in H. cbn [andb] in H. injection H as <- <-. auto.
Qed.

(** C10: a path that the yt-dlp adapter returns was reported by a
    [finished] event of the download, as the resolved file name of that
    event or, in audio mode, as that name with the suffix [.mp3]; and when
    the download comes to its end without such an event, the adapter
    raises the error that says so (shown for a run without control object,
    callback and cookies, into an output directory that can be made). *)
Theorem ytdlp_returns_only_reported_path :
  (forall url output_dir filename audio_only resolution cb ctl cookies w p w',
      _download_with_ytdlp E url output_dir filename audio_only resolution
                           cb ctl cookies w = (Ret p, w') ->
      exists opts jar ev q,
        In ev (yr_events (YoutubeDL_download E opts url jar))
        /\ reports_file E (ev_status ev) q
        /\ (p = q \/ (audio_only = true
                      /\ PurePath.with_suffix q ".mp3" = Some p)))
  /\ (forall url output_dir filename audio_only resolution cookies w fs',
         Fs.mkdirs [] (key E output_dir) (w_fs w) = Some fs' ->
         truthy cookies = false ->
         (forall opts jar,
             yr_result (YoutubeDL_download E opts url jar) = None
             /\ forall ev, In ev (yr_events (YoutubeDL_download E opts url jar)) ->
                           silent (ev_status ev)) ->
         fst (_download_with_ytdlp E url output_dir filename audio_only
                resolution None None cookies w)
         = Raise (mk_exn RuntimeError
                    "yt-dlp completed without reporting a destination file.")).
Proof.
  split.
  - intros url output_dir filename audio_only resolution cb ctl cookies w p w' H.
    rewrite download_with_ytdlp_parts in H.
    apply bind_ret_inv in H as (_ & w1 & _ & H).
    apply bind_ret_inv in H as (tpl & w2 & Ht & H).
    apply bind_ret_inv in H as (ff & w3 & _ & H).
    apply bind_ret_inv in H as (info & w4 & Hs & H).
    destruct (determine_template_total filename audio_only) as (t & Heq & Hext).
    rewrite Heq in Ht. injection Ht as <- <-.
    destruct (ytdlp_finish_ret _ _ _ _ _ _ Hext H) as (q & Hq & Hp).
    unfold with_TemporaryDirectory in Hs.
    apply bind_ret_inv in Hs as (temp_dir & w5 & _ & Hs).
    apply finally_ret_inv in Hs as (w6 & Hs & _).
    unfold ytdlp_session in Hs.
    apply bind_ret_inv in Hs as (opts & w7 & _ & Hs).
    apply bind_ret_inv in Hs as (_ & w8 & _ & Hs).
    rewrite reraise_id in Hs.
    destruct (ydl_download_info _ _ _ _ _ _ _ _ Hs Hq) as (jar & ev & Hin & Hrep).
    exists opts, jar, ev, q. auto.
  - intros url output_dir filename audio_only resolution cookies w fs' Hmk Hc Hrun.
    rewrite download_with_ytdlp_parts.
    destruct (determine_template_total filename audio_only) as (t & Heq & _).
    rewrite Heq.
    cbv beta iota zeta delta
        [bind ret get modify raise fs_mkdir_p fs_exists with_TemporaryDirectory
         mkdtemp finally ytdlp_session ytdlp_cookie_opts with_control
         try_except_if try_except ydl_download log_call].
    rewrite Hmk. cbv beta iota zeta. rewrite Hc. cbv beta iota zeta.
    match goal with
    | |- context [YoutubeDL_download E ?o ?u ?j] =>
        destruct (Hrun o j) as [Hres Hsil]
    end.
    match goal with
    | |- context [for_each ?evs ?body ?i ?w0] =>
        destruct (for_each_hook_silent evs Hsil i w0) as (w1 & Hfor)
    end.
    cbv beta iota zeta delta [bind modify] in Hfor.
    rewrite Hfor. cbv beta iota zeta. rewrite Hres. reflexivity.
Qed.

End ReturnedPath.

Lemma ytdlp_returns_only_reported_path_witness :
  exists opts jar ev q,
    In ev (yr_events
             (YoutubeDL_download
                (Demo.env (inr Demo.streams) Demo.pytube_ok
                   (mkYdlRun [Demo.finished "a.webm"] None (fun fs => fs)))
                opts "u" jar))
    /\ reports_file
         (Demo.env (inr Demo.streams) Demo.pytube_ok
            (mkYdlRun [Demo.finished "a.webm"] None (fun fs => fs)))
         (ev_status ev) q
    /\ (mkPath true ["out"; "a.mp3"] = q
        \/ (true = true
            /\ PurePath.with_suffix q ".mp3" = Some (mkPath true ["out"; "a.mp3"]))).
Proof.
  apply (proj1 (ytdlp_returns_only_reported_path
                  (Demo.env (inr Demo.streams) Demo.pytube_ok
                     (mkYdlRun [Demo.finished "a.webm"] None (fun fs => fs))))
           "u" Demo.out None true None (Some sink) (Some worker_control) None
           Demo.world0 (mkPath true ["out"; "a.mp3"])
           (snd (_download_with_ytdlp
                   (Demo.env (inr Demo.streams) Demo.pytube_ok
                      (mkYdlRun [Demo.finished "a.webm"] None (fun fs => fs)))
                   "u" Demo.out None true None (Some sink) (Some worker_control)
                   None Demo.world0))).
  vm_compute. reflexivity.
Defined.

(** ** Parts of the world that a computation leaves alone *)

Section Preserves.

Context {X : Type} (proj : world -> X).

Lemma preserves_ret {A} (a : A) : preserves proj (ret a).
Proof. intros w o w' [= <- <-]. reflexivity. Qed.

Lemma preserves_raise {A} (e : exn) : preserves proj (@raise A e).
Proof. intros w o w' [= <- <-]. reflexivity. Qed.

Lemma preserves_hang {A} : preserves proj (@hang A).
Proof. intros w o w' [= <- <-]. reflexivity. Qed.

Lemma preserves_get {A} (f : world -> A) : preserves proj (get f).
Proof. intros w o w' [= <- <-]. reflexivity. Qed.

Lemma preserves_modify (f : world -> world) :
  (forall w, proj (f w) = proj w) -> preserves proj (modify f).
Proof. intros Hf w o w' [= <- <-]. apply Hf. Qed.

Lemma preserves_bind {A B} (m : M A) (k : A -> M B) :
  preserves proj m -> (forall a, preserves proj (k a)) ->
  preserves proj (bind m k).
Proof.
  intros Hm Hk w o w' H.
  destruct (bind_inv _ _ _ _ _ H) as [(a & w1 & H1 & H2) | [(e & H1 & _) | (H1 & _)]].
  - rewrite (Hk a _ _ _ H2). exact (Hm _ _ _ H1).
  - exact (Hm _ _ _ H1).
  - exact (Hm _ _ _ H1).
Qed.

Lemma preserves_try_except {A} (m : M A) (h : exn -> M A) :
  preserves proj m -> (forall e, preserves proj (h e)) ->
  preserves proj (try_except m h).
Proof.
  intros Hm Hh w o w'. unfold try_except.
  destruct (m w) as [[a|e|] w1] eqn:H1.
  - intros [= <- <-]. exact (Hm _ _ _ H1).
  - intros H2. rewrite (Hh e _ _ _ H2). exact (Hm _ _ _ H1).
  - intros [= <- <-]. exact (Hm _ _ _ H1).
Qed.

Lemma preserves_try_except_if {A} (c : exn -> bool) (m : M A) (h : exn -> M A) :
  preserves proj m -> (forall e, preserves proj (h e)) ->
  preserves proj (try_except_if c m h).
Proof.
  intros Hm Hh. apply preserves_try_except; [exact Hm|].
  intros e. destruct (c e); [apply Hh|apply preserves_raise].
Qed.

Lemma preserves_finally {A} (m : M A) (c : world -> world) :
  preserves proj m -> (forall w, proj (c w) = proj w) ->
  preserves proj (finally m c).
Proof.
  intros Hm Hc w o w'. unfold finally.
  destruct (m w) as [[a|e|] w1] eqn:H1; intros [= <- <-];
    rewrite ?Hc; exact (Hm _ _ _ H1).
Qed.

Lemma preserves_when (c : bool) (m : M unit) :
  preserves proj m -> preserves proj (when c m).
Proof. intros Hm. destruct c; [exact Hm|apply preserves_ret]. Qed.

Lemma preserves_for_each {A S} (l : list A) (body : A -> S -> M S) :
  (forall x s, In x l -> preserves proj (body x s)) ->
  forall s, preserves proj (for_each l body s).
Proof.
  induction l as [|x l IH]; intros Hb s; cbn [for_each].
  - apply preserves_ret.
  - apply preserves_bind; [apply Hb; left; reflexivity|].
    intros s'. apply IH. intros y t Hy. apply Hb. right. exact Hy.
Qed.

Lemma preserves_while (n : nat) (cond : M bool) (body : M unit) :
  preserves proj cond -> preserves proj body ->
  preserves proj (while n cond body).
Proof.
  intros Hc Hb. induction n as [|n IH]; cbn [while].
  - apply preserves_hang.
  - apply preserves_bind; [exact Hc|]. intros [|].
    + apply preserves_bind; [exact Hb|]. intros _. exact IH.
    + apply preserves_ret.
Qed.

End Preserves.

Local Ltac primitive :=
  let w := fresh "w" in
  let o := fresh "o" in
  let w' := fresh "w'" in
  intros w o w';
  repeat match goal with
         | |- context [match ?x with _ => _ end] => destruct x
         end;
  intros [= <- <-]; reflexivity.

Lemma safe_write_local (s : std_stream) (m : console_msg) :
  stays_local (_safe_write s m).
Proof. unfold stays_local, _safe_write. repeat split; primitive. Qed.

Lemma observe_local : stays_local observe.
Proof. unfold stays_local, observe. repeat split; primitive. Qed.

Lemma sleep_local : stays_local sleep.
Proof. unfold stays_local, sleep, modify. repeat split; primitive. Qed.

Lemma worker_methods_preserve {X} (proj : world -> X) :
  preserves proj observe -> preserves proj sleep ->
  preserves proj WorkerControl_raise_if_cancelled
  /\ preserves proj WorkerControl_wait_if_paused.
Proof.
  intros Ho Hs.
  assert (Hr : preserves proj WorkerControl_raise_if_cancelled).
  { unfold WorkerControl_raise_if_cancelled.
    apply preserves_bind; [exact Ho|]. intros c.
    destruct (_cancel_event c); [apply preserves_raise|apply preserves_ret]. }
  split; [exact Hr|].
  intros w o w' H. unfold WorkerControl_wait_if_paused in H.
  revert H. apply preserves_while.
  - apply preserves_bind; [exact Ho|]. intros c. apply preserves_ret.
  - apply preserves_bind; [exact Hr|]. intros _. exact Hs.
Qed.

Lemma worker_control_local : control_local (Some worker_control).
Proof.
  intros c [= <-]. simpl.
  destruct observe_local as (Ho1 & Ho2 & Ho3 & Ho4).
  destruct sleep_local as (Hs1 & Hs2 & Hs3 & Hs4).
  unfold stays_local.
  repeat split; apply worker_methods_preserve; assumption.
Qed.

Lemma none_control_local : control_local None.
Proof. intros c [=]. Qed.

Lemma sink_local : callback_local (Some sink).
Proof.
  intros f percent message [= <-]. unfold sink, modify.
  repeat split; primitive.
Qed.

Lemma none_callback_local : callback_local None.
Proof. intros f percent message [=]. Qed.

Lemma with_control_preserves {X} (proj : world -> X)
  (control : option DownloadControl) (m : DownloadControl -> M unit) :
  (forall c, control = Some c -> preserves proj (m c)) ->
  preserves proj (with_control control m).
Proof.
  intros Hm. unfold with_control. destruct control as [c|].
  - apply Hm. reflexivity.
  - apply preserves_ret.
Qed.

Lemma fs_ops_preserve {X} (proj : world -> X) :
  (forall f w, proj (set_fs f w) = proj w) ->
  (forall k, preserves proj (fs_mkdir_p k))
  /\ (forall k, preserves proj (fs_exists k))
  /\ (forall k c, preserves proj (fs_write_text k c))
  /\ (forall k, preserves proj (fs_unlink k))
  /\ (forall k k', preserves proj (fs_rename k k')).
Proof.
  intros Hp.
  unfold fs_mkdir_p, fs_exists, fs_write_text, fs_unlink, fs_rename, get.
  repeat split; intros;
    intros w o w';
    repeat match goal with
           | |- context [match ?x with _ => _ end] => destruct x
           end;
    intros [= <- <-]; rewrite ?Hp; reflexivity.
Qed.

(** ** The progress events of the yt-dlp adapter *)

Section HookEffects.

Context (E : Externals).

Lemma hook_preserves {X} (proj : world -> X) (cb : option ProgressCallback)
  (ctl : option DownloadControl) (st : gmap string pyval)
  (info : gmap string Path) :
  (forall c, ctl = Some c -> preserves proj (raise_if_cancelled c)
                             /\ preserves proj (wait_if_paused c)) ->
  (forall f percent message, cb = Some f -> preserves proj (f percent message)) ->
  (forall s m, preserves proj (_safe_write s m)) ->
  preserves proj (_hook E cb ctl st info).
Proof.
  intros Hctl Hcb Hsw. unfold _hook.
  apply preserves_bind.
  { apply with_control_preserves. intros c Hc. destruct (Hctl c Hc).
    apply preserves_bind; [assumption|]. intros _. assumption. }
  intros _. cbv zeta.
  assert (Hfin : preserves proj
    (if bool_decide (dict_get st "status" = PyStr "finished") then
       bind
         (if py_truthy (dict_get st "filename") then
            match dict_get st "filename" with
            | PyStr f =>
                ret (<["filepath" := Fs.resolve (cwd E) (PurePath.of_string f)]>
                       info)
            | _ => raise (mk_exn TypeError "expected str, bytes or os.PathLike object")
            end
          else ret info)
         (fun info0 =>
            bind
              match cb with
              | Some cb => cb (Some 100%Q) ""
              | None =>
                  _safe_write Stdout
                    (MsgComplete (py_str (default (PyStr "") (st !! "filename"))))
              end
              (fun _ => ret info0))
     else ret info)).
  { match goal with
    | |- preserves _ (if ?b then _ else _) => destruct b
    end; [|apply preserves_ret].
    apply preserves_bind.
    - match goal with
      | |- preserves _ (if ?b then _ else _) => destruct b
      end; [|apply preserves_ret].
      destruct (dict_get st "filename");
        first [apply preserves_ret | apply preserves_raise].
    - intros info0. apply preserves_bind; [|intros _; apply preserves_ret].
      destruct cb as [f|]; [apply (Hcb f); reflexivity|apply Hsw]. }
  destruct (bool_decide (dict_get st "status" = PyStr "downloading")),
    (bool_decide (dict_get st "status" = PyStr "postprocessing"));
    destruct cb as [f|] eqn:Hf; try exact Hfin.
  - apply preserves_bind.
    + match goal with
      | |- preserves _ (if ?b then _ else _) => destruct b
      end; [|apply preserves_ret].
      repeat match goal with
             | |- preserves _ (match ?v with _ => _ end) => destruct v
             end; first [apply preserves_ret | apply preserves_raise].
    + intros pc. apply preserves_bind; [|intros _; apply preserves_ret].
      apply (Hcb f). reflexivity.
  - apply preserves_bind.
    + match goal with
      | |- preserves _ (if ?b then _ else _) => destruct b
      end; [|apply preserves_ret].
      repeat match goal with
             | |- preserves _ (match ?v with _ => _ end) => destruct v
             end; first [apply preserves_ret | apply preserves_raise].
    + intros pc. apply preserves_bind; [|intros _; apply preserves_ret].
      apply (Hcb f). reflexivity.
  - apply preserves_bind; [|intros _; apply preserves_ret].
    apply (Hcb f). reflexivity.
Qed.

Lemma hook_sink (ctl : option DownloadControl) (st : gmap string pyval)
  (info info' : gmap string Path) (w w' : world) :
  control_local ctl ->
  _hook E (Some sink) ctl st info w = (Ret info', w') ->
  w_sink w' = w_sink w ++ hook_events st.
Proof.
  intros Hctl H. unfold _hook in H.
  apply bind_ret_inv in H as (u1 & w1 & H1 & H).
  assert (Hw1 : w_sink w1 = w_sink w).
  { revert H1. apply with_control_preserves. intros c Hc.
    destruct (Hctl c Hc) as [(_ & Hr & _) (_ & Hp & _)].
    apply preserves_bind; [exact Hr|]. intros _. exact Hp. }
  rewrite <- Hw1. clear H1 Hw1. unfold hook_events. cbv zeta in *.
  destruct (bool_decide (dict_get st "status" = PyStr "downloading")).
  - apply bind_ret_inv in H as (pc & w2 & H2 & H).
    apply bind_ret_inv in H as (u3 & w3 & H3 & H).
    injection H as <- <-. injection H3 as _ <-.
    match type of H2 with
    | (if ?b then _ else _) _ = _ => destruct b
    end.
    + repeat match type of H2 with
             | (match ?v with _ => _ end) _ = _ => destruct v
             end; try discriminate.
      injection H2 as <- <-. reflexivity.
    + injection H2 as <- <-. reflexivity.
  - destruct (bool_decide (dict_get st "status" = PyStr "postprocessing")).
    + apply bind_ret_inv in H as (u3 & w3 & H3 & H).
      injection H as <- <-. injection H3 as _ <-. reflexivity.
    + destruct (bool_decide (dict_get st "status" = PyStr "finished")).
      * apply bind_ret_inv in H as (info0 & w2 & H2 & H).
        apply bind_ret_inv in H as (u3 & w3 & H3 & H).
        injection H as <- <-. injection H3 as _ <-.
        match type of H2 with
        | (if ?b then _ else _) _ = _ => destruct b
        end.
        -- destruct (dict_get st "filename"); try discriminate.
           injection H2 as <- <-. reflexivity.
        -- injection H2 as <- <-. reflexivity.
      * injection H as <- <-. symmetry. apply app_nil_r.
Qed.

Lemma for_each_hook_sink (ctl : option DownloadControl) (events : list ydl_event) :
  control_local ctl ->
  forall (info info' : gmap string Path) (w w' : world),
    for_each events
      (fun ev info =>
         modify (fun w => set_fs (ev_fs ev (w_fs w)) w) >>
         _hook E (Some sink) ctl (ev_status ev) info) info w = (Ret info', w') ->
    w_sink w' = w_sink w ++ flat_map (fun ev => hook_events (ev_status ev)) events.
Proof.
  intros Hctl.
  induction events as [|ev events IH]; intros info info' w w' H.
  - injection H as <- <-. symmetry. apply app_nil_r.
  - cbn [for_each] in H.
    apply bind_ret_inv in H as (info1 & w1 & H1 & H).
    apply bind_ret_inv in H1 as (u0 & w0 & H0 & H1).
    injection H0 as _ <-.
    rewrite (IH _ _ _ _ H), (hook_sink _ _ _ _ _ _ Hctl H1).
    cbn [flat_map]. rewrite app_assoc. reflexivity.
Qed.

Lemma reports_file_final (st : gmap string pyval) (p : Path) :
  reports_file E st p -> hook_events st = [(Some 100%Q, "")].
Proof.
  intros [Hst _]. unfold hook_events. rewrite Hst. reflexivity.
Qed.

End HookEffects.

(** ** The last progress event *)

(** C6, as stated, fails: the pytube adapter reports the last chunk as
    [(100, "")] and then reports [(100, "")] once more, and the yt-dlp
    adapter reports [(100, "")] for every file that it finishes. *)
Lemma two_final_events_at_end :
  (fst (_download_with_pytube Demo2.ok "u" Demo.out None false None (Some sink)
          None Demo.world0) = Ret (mkPath true ["out"; "video.mp4"])
   /\ w_sink (snd (_download_with_pytube Demo2.ok "u" Demo.out None false None
                     (Some sink) None Demo.world0))
      = [(Some (175 # 2), ""); (Some 100%Q, ""); (Some 100%Q, "")]
   /\ final_events_at_end
        (w_sink (snd (_download_with_pytube Demo2.ok "u" Demo.out None false None
                        (Some sink) None Demo.world0))) = 2)
  /\ (fst (_download_with_ytdlp Demo2.ok "u" Demo.out None false None (Some sink)
             None None Demo.world0) = Ret (mkPath true ["out"; "a.f140.m4a"])
      /\ final_events_at_end
           (w_sink (snd (_download_with_ytdlp Demo2.ok "u" Demo.out None false
                           None (Some sink) None None Demo.world0))) = 2).
Proof. vm_compute. repeat split; reflexivity. Qed.

Section AdapterFrames.

Context (E : Externals) {X : Type} (proj : world -> X).
Hypothesis proj_set_fs : forall f w, proj (set_fs f w) = proj w.

Lemma mkdtemp_preserves (prefix : string) :
  (forall n w, proj (set_tmp n w) = proj w) ->
  preserves proj (mkdtemp E prefix).
Proof.
  intros Htmp w o w'. unfold mkdtemp. intros [= <- <-].
  rewrite Htmp, proj_set_fs. reflexivity.
Qed.

Lemma cookie_opts_preserves (output_dir : Path) (cookies : option string)
  (base : ydl_opts) (temp_dir : string) :
  preserves proj (ytdlp_cookie_opts E output_dir cookies base temp_dir).
Proof.
  destruct (fs_ops_preserve proj proj_set_fs) as (_ & _ & Hwr & _).
  unfold ytdlp_cookie_opts. cbv zeta.
  destruct (truthy cookies); [|apply preserves_ret].
  match goal with
  | |- preserves _ (if ?b then _ else _) => destruct b
  end; [|apply preserves_ret].
  apply preserves_bind; [apply Hwr|]. intros _. apply preserves_ret.
Qed.

Lemma finish_preserves (audio_only : bool) (ext : option string)
  (info : gmap string Path) :
  preserves proj (ytdlp_finish E audio_only ext info).
Proof.
  destruct (fs_ops_preserve proj proj_set_fs) as (_ & Hex & _ & Hun & Hrn).
  unfold ytdlp_finish.
  destruct (info !! "filepath") as [q|]; [|apply preserves_raise].
  cbv zeta.
  match goal with
  | |- preserves _ (if ?b then _ else _) => destruct b
  end; [|apply preserves_ret].
  apply preserves_bind.
  { destruct (PurePath.with_suffix _ _);
      [apply preserves_ret|apply preserves_raise]. }
  intros target. apply preserves_bind; [apply Hex|].
  intros [|]; [|apply preserves_ret].
  apply preserves_try_except_if; [|intros e; apply preserves_ret].
  apply preserves_bind; [apply Hex|]. intros tp.
  apply preserves_bind; [apply preserves_when, Hun|]. intros _.
  apply preserves_bind; [apply Hrn|]. intros _. apply preserves_ret.
Qed.

End AdapterFrames.

Section FinalEvent.

Context (E : Externals).

Lemma pytube_ends_with_final (url : string) (output_dir : Path)
  (filename : option string) (audio_only : bool) (resolution : option string)
  (control : option DownloadControl) (w w' : world) (p : Path) :
  _download_with_pytube E url output_dir filename audio_only resolution
                        (Some sink) control w = (Ret p, w') ->
  exists evs, w_sink w' = evs ++ [(Some 100%Q, "")].
Proof.
  unfold _download_with_pytube. intros H.
  apply bind_ret_inv in H as (u1 & w1 & _ & H).
  apply bind_ret_inv in H as (u2 & w2 & _ & H).
  cbv zeta in H.
  apply bind_ret_inv in H as (streams & w3 & _ & H).
  apply bind_ret_inv in H as (stream & w4 & _ & H).
  apply bind_ret_inv in H as (u5 & w5 & _ & H).
  apply bind_ret_inv in H as (destination & w6 & _ & H).
  apply bind_ret_inv in H as (u7 & w7 & H7 & H).
  injection H as _ <-. injection H7 as _ <-.
  exists (w_sink w6). reflexivity.
Qed.

Lemma ytdlp_sink (url : string) (output_dir : Path)
  (filename : option string) (audio_only : bool) (resolution : option string)
  (control : option DownloadControl) (cookies : option string)
  (w w' : world) (p : Path) :
  control_local control ->
  _download_with_ytdlp E url output_dir filename audio_only resolution
                       (Some sink) control cookies w = (Ret p, w') ->
  exists opts jar ev q,
    w_sink w'
    = w_sink w ++ flat_map (fun ev => hook_events (ev_status ev))
                           (yr_events (YoutubeDL_download E opts url jar))
    /\ In ev (yr_events (YoutubeDL_download E opts url jar))
    /\ reports_file E (ev_status ev) q.
Proof.
  intros Hctl H.
  assert (Hfs : forall f w, w_sink (set_fs f w) = w_sink w) by reflexivity.
  destruct (fs_ops_preserve w_sink Hfs) as (Hmk & Hex & _).
  rewrite download_with_ytdlp_parts in H.
  apply bind_ret_inv in H as (u1 & w1 & H1 & H). apply Hmk in H1.
  apply bind_ret_inv in H as (tpl & w2 & Ht & H).
  apply bind_ret_inv in H as (ff & w3 & H3 & H). apply Hex in H3.
  apply bind_ret_inv in H as (info & w4 & Hs & H).
  destruct (determine_template_total filename audio_only) as (t & Heq & Hext).
  rewrite Heq in Ht. injection Ht as <- <-.
  pose proof (finish_preserves E w_sink Hfs _ _ _ _ _ _ H) as Hfin.
  destruct (ytdlp_finish_ret _ _ _ _ _ _ _ Hext H) as (q & Hq & _).
  unfold with_TemporaryDirectory in Hs.
  apply bind_ret_inv in Hs as (temp_dir & w5 & H5 & Hs).
  apply (mkdtemp_preserves E w_sink Hfs) in H5; [|reflexivity].
  apply finally_ret_inv in Hs as (w6 & Hs & ->).
  unfold ytdlp_session in Hs.
  apply bind_ret_inv in Hs as (opts & w7 & H7 & Hs).
  apply (cookie_opts_preserves E w_sink Hfs) in H7.
  apply bind_ret_inv in Hs as (u8 & w8 & H8 & Hs).
  assert (Hw8 : w_sink w8 = w_sink w7).
  { revert H8. apply with_control_preserves. intros c Hc.
    destruct (Hctl c Hc) as [(_ & Hr & _) _]. exact Hr. }
  rewrite reraise_id in Hs. unfold ydl_download in Hs.
  apply bind_ret_inv in Hs as (jar & w9 & H9 & Hs).
  injection H9 as _ <-.
  apply bind_ret_inv in Hs as (u10 & w10 & H10 & Hs).
  injection H10 as _ <-.
  apply bind_ret_inv in Hs as (info1 & w11 & Hfor & Hs).
  apply bind_ret_inv in Hs as (u12 & w12 & H12 & Hs).
  injection H12 as _ <-.
  destruct (yr_result _); [discriminate|]. injection Hs as <- <-.
  pose proof (for_each_hook_sink E control _ Hctl _ _ _ _ Hfor) as Hsink.
  destruct (for_each_hook_info E _ _ _ _ _ _ _ Hfor q Hq)
    as [Hin | (ev & Hin & Hrep)]; [rewrite lookup_empty in Hin; discriminate|].
  exists opts, jar, ev, q. split; [|auto].
  rewrite Hfin. cbn [w_sink set_fs]. cbn [w_sink set_fs set_calls] in Hsink.
  rewrite Hsink. congruence.
Qed.

End FinalEvent.

(** ** Cancellation before the download starts *)

Section CancelledAtStart.

Context (E : Externals).

Lemma pytube_cancelled_at_start (url : string) (output_dir : Path)
  (filename : option string) (audio_only : bool) (resolution : option string)
  (cb : option ProgressCallback) (w : world)
  (fs' : gmap (list string) node) :
  Fs.mkdirs [] (key E output_dir) (w_fs w) = Some fs' ->
  Control.cancelled (w_ctl w) = true ->
  exists w',
    _download_with_pytube E url output_dir filename audio_only resolution
                          cb (Some worker_control) w
    = (Raise (mk_exn DownloadCancelled ""), w')
    /\ w_sink w' = w_sink w.
Proof.
  intros Hmk Hc.
  destruct (raise_if_cancelled_cancelled (set_fs fs' w)) as (w' & Hr & _);
    [exact Hc|].
  exists w'. unfold _download_with_pytube, fs_mkdir_p.
  cbv beta iota zeta delta [bind with_control raise_if_cancelled worker_control].
  rewrite Hmk. cbv beta iota. rewrite Hr. split; [reflexivity|].
  destruct worker_control_local with (c := worker_control) as [(_ & Hs & _) _];
    [reflexivity|].
  apply Hs in Hr. exact Hr.
Qed.

Lemma ytdlp_cancelled_at_start (url : string) (output_dir : Path)
  (filename : option string) (audio_only : bool) (resolution : option string)
  (cb : option ProgressCallback) (cookies : option string) (w : world)
  (fs' : gmap (list string) node) :
  Fs.mkdirs [] (key E output_dir) (w_fs w) = Some fs' ->
  Control.cancelled (w_ctl w) = true ->
  Str.contains "010" (Str.strip (default "" cookies))
  || Str.contains "009" (Str.strip (default "" cookies)) = false ->
  exists w',
    _download_with_ytdlp E url output_dir filename audio_only resolution
                         cb (Some worker_control) cookies w
    = (Raise (mk_exn DownloadCancelled ""), w').
Proof.
  intros Hmk Hc Hsep.
  rewrite download_with_ytdlp_parts.
  destruct (determine_template_total filename audio_only) as (t & Heq & _).
  rewrite Heq.
  cbv beta iota zeta delta
      [bind ret get modify raise fs_mkdir_p fs_exists with_TemporaryDirectory
       mkdtemp finally ytdlp_session ytdlp_cookie_opts with_control
       try_except_if try_except raise_if_cancelled worker_control].
  rewrite Hmk. cbv beta iota zeta. rewrite Hsep.
  destruct (truthy cookies); cbv beta iota zeta.
  all: match goal with
       | |- context [WorkerControl_raise_if_cancelled ?X] =>
           destruct (raise_if_cancelled_cancelled X) as (w2 & Hr & _);
             [exact Hc|rewrite Hr]
       end.
  all: eexists; reflexivity.
Qed.

End CancelledAtStart.

(** C6, amended: with a progress callback, the events of a successful run
    of the pytube adapter end with [(100, "")]; those of a successful run
    of the yt-dlp adapter are the events that the hook makes of the native
    events, one [(100, "")] for each [finished] event, so that there is at
    least one [(100, "")] among them and they end with [(100, "")] when
    the last native event is a [finished] one. More than one [(100, "")]
    may come at the end. A run that is cancelled before it starts, or that
    fails when the streams are listed, delivers no event at all. *)
Theorem progress_ends_with_final_event :
  (forall E url output_dir filename audio_only resolution control w p w',
      _download_with_pytube E url output_dir filename audio_only resolution
                            (Some sink) control w = (Ret p, w') ->
      exists evs, w_sink w' = evs ++ [(Some 100%Q, "")])
  /\ (forall E url output_dir filename audio_only resolution control cookies
             w p w',
         control_local control ->
         _download_with_ytdlp E url output_dir filename audio_only resolution
                              (Some sink) control cookies w = (Ret p, w') ->
         exists opts jar,
           let native := yr_events (YoutubeDL_download E opts url jar) in
           w_sink w'
           = w_sink w ++ flat_map (fun ev => hook_events (ev_status ev)) native
           /\ In (Some 100%Q, "")
                 (flat_map (fun ev => hook_events (ev_status ev)) native)
           /\ (forall pre ev,
                  native = pre ++ [ev] ->
                  dict_get (ev_status ev) "status" = PyStr "finished" ->
                  exists evs, w_sink w' = evs ++ [(Some 100%Q, "")]))
  /\ (forall E url output_dir filename audio_only resolution w fs',
         Fs.mkdirs [] (key E output_dir) (w_fs w) = Some fs' ->
         Control.cancelled (w_ctl w) = true ->
         exists w',
           _download_with_pytube E url output_dir filename audio_only resolution
                                 (Some sink) (Some worker_control) w
           = (Raise (mk_exn DownloadCancelled ""), w')
           /\ w_sink w' = w_sink w)
  /\ (forall E url output_dir filename audio_only resolution w fs' e,
         Fs.mkdirs [] (key E output_dir) (w_fs w) = Some fs' ->
         YouTube_streams E url = inl e ->
         exists w',
           _download_with_pytube E url output_dir filename audio_only resolution
                                 (Some sink) None w = (Raise e, w')
           /\ w_sink w' = w_sink w).
Proof.
  split; [|split; [|split]].
  - intros E url output_dir filename audio_only resolution control w p w'.
    apply pytube_ends_with_final.
  - intros E url output_dir filename audio_only resolution control cookies
           w p w' Hctl H.
    destruct (ytdlp_sink E _ _ _ _ _ _ _ _ _ _ Hctl H)
      as (opts & jar & ev & q & Hsink & Hin & Hrep).
    exists opts, jar. cbv zeta. split; [exact Hsink|]. split.
    + apply in_flat_map. exists ev. split; [exact Hin|].
      rewrite (reports_file_final E _ _ Hrep). left. reflexivity.
    + intros pre ev' Hnative Hst. rewrite Hsink, Hnative, flat_map_app.
      cbn [flat_map]. rewrite app_nil_r.
      replace (hook_events (ev_status ev')) with [(Some 100%Q, "")]
        by (unfold hook_events; rewrite Hst; reflexivity).
      rewrite app_assoc. eauto.
  - intros E url output_dir filename audio_only resolution w fs' Hmk Hc.
    apply (pytube_cancelled_at_start E _ _ _ _ _ _ _ fs' Hmk Hc).
  - intros E url output_dir filename audio_only resolution w fs' e Hmk Hst.
    eexists. unfold _download_with_pytube, fs_mkdir_p, pytube_streams, log_call.
    cbv beta iota zeta delta [bind with_control modify ret raise].
    rewrite Hmk. cbv beta iota. rewrite Hst. split; reflexivity.
Qed.

Lemma progress_ends_with_final_event_witness :
  exists evs,
    w_sink (snd (_download_with_pytube Demo2.ok "u" Demo.out None false None
                   (Some sink) (Some worker_control) Demo.world0))
    = evs ++ [(Some 100%Q, "")].
Proof.
  apply (proj1 progress_ends_with_final_event Demo2.ok "u" Demo.out None false
           None (Some worker_control) Demo.world0
           (mkPath true ["out"; "video.mp4"])).
  vm_compute. reflexivity.
Defined.

(** ** Paths and their text *)

Lemma split_parts_no_sep (c : ascii) (s : string) :
  Forall (fun p => Str.contains c p = false) (Str.split c s).
Proof.
  induction s as [|a s IH]; cbn [Str.split].
  - repeat constructor.
  - destruct (Ascii.eqb a c) eqn:Hac.
    + constructor; [reflexivity|exact IH].
    + destruct (Str.split c s) as [|p ps].
      * repeat constructor. cbn. rewrite Hac. reflexivity.
      * inversion IH as [|? ? Hp Hps]; subst.
        constructor; [|exact Hps]. cbn. rewrite Hac. exact Hp.
Qed.

Lemma split_no_sep (c : ascii) (s : string) :
  Str.contains c s = false -> Str.split c s = [s].
Proof.
  induction s as [|a s IH]; cbn [Str.split Str.contains]; [reflexivity|].
  intros H. apply orb_false_iff in H as [Hac Hs].
  rewrite Hac, (IH Hs). reflexivity.
Qed.

Lemma split_app_sep (c : ascii) (p t : string) :
  Str.contains c p = false ->
  Str.split c (p +:+ String c t) = p :: Str.split c t.
Proof.
  induction p as [|a p IH]; rewrite ?append_nil, ?append_cons;
    cbn [Str.split Str.contains].
  - intros _. rewrite Ascii.eqb_refl. reflexivity.
  - intros H. apply orb_false_iff in H as [Hac Hp].
    rewrite Hac, (IH Hp). reflexivity.
Qed.

Lemma split_join (ps : list string) :
  ps <> [] ->
  Forall (fun p => Str.contains "/" p = false) ps ->
  Str.split "/" (Str.join "/" ps) = ps.
Proof.
  induction ps as [|p ps IH]; [congruence|]. intros _ Hall.
  inversion Hall as [|? ? Hp Hps]; subst.
  destruct ps as [|q ps].
  - cbn [Str.join]. apply split_no_sep, Hp.
  - change (Str.join "/" (p :: q :: ps))
      with (p +:+ String "/" (Str.join "/" (q :: ps))).
    rewrite (split_app_sep _ _ _ Hp), IH; [reflexivity|discriminate|exact Hps].
Qed.

Lemma of_string_clean (s : string) : Forall clean (parts (PurePath.of_string s)).
Proof.
  apply Forall_forall. intros x Hx. cbn [parts PurePath.of_string] in Hx.
  apply list_elem_of_filter in Hx as [Hk Hx]. split.
  - pose proof (split_parts_no_sep "/" s) as Hall.
    rewrite Forall_forall in Hall. apply Hall, Hx.
  - apply Is_true_true, Hk.
Qed.

Lemma filter_clean (ps : list string) :
  Forall clean ps -> filter (fun p => Is_true (PurePath.keep_part p)) ps = ps.
Proof.
  induction 1 as [|x ps [_ Hk] _ IH]; [reflexivity|].
  rewrite filter_cons_True; [|apply Is_true_true, Hk]. rewrite IH. reflexivity.
Qed.

Lemma startswith_join (p : string) (ps : list string) :
  clean p -> Str.startswith "/" (Str.join "/" (p :: ps)) = false.
Proof.
  intros [Hc Hk]. destruct p as [|a p]; [discriminate|].
  cbn [Str.contains] in Hc. apply orb_false_iff in Hc as [Hac _].
  assert (Hs : forall t, Str.startswith "/" (String a p +:+ t) = false).
  { intros t. rewrite append_cons. cbn [Str.startswith].
    rewrite Ascii.eqb_sym, Hac. reflexivity. }
  destruct ps as [|q ps]; cbn [Str.join].
  - specialize (Hs ""). rewrite append_cons in Hs. cbn [Str.startswith] in *.
    rewrite Ascii.eqb_sym, Hac. reflexivity.
  - apply Hs.
Qed.

(** [Path(str(p)) == p]. *)
Lemma of_string_to_string (p : Path) :
  Forall clean (parts p) -> PurePath.of_string (PurePath.to_string p) = p.
Proof.
  destruct p as [a ps]. cbn [parts]. intros Hall.
  assert (Hsep : Forall (fun p => Str.contains "/" p = false) ps).
  { eapply Forall_impl; [exact Hall|]. intros x [Hx _]. exact Hx. }
  unfold PurePath.to_string, PurePath.of_string. cbn [anchored parts].
  destruct a, ps as [|p ps].
  - reflexivity.
  - rewrite append_cons, append_nil. cbn [Str.startswith Str.split].
    change (Ascii.eqb "/" "/") with true. cbn [andb].
    rewrite split_join; [|discriminate|exact Hsep].
    rewrite filter_cons_False; [|intros []].
    rewrite (filter_clean _ Hall). reflexivity.
  - reflexivity.
  - inversion Hall as [|? ? Hp _]; subst.
    rewrite (startswith_join p ps Hp).
    rewrite split_join; [|discriminate|exact Hsep].
    rewrite (filter_clean _ Hall). reflexivity.
Qed.

Lemma collapse_snoc (acc xs : list string) (c : string) :
  c <> ".." -> Fs.collapse acc (xs ++ [c]) = Fs.collapse acc xs ++ [c].
Proof.
  intros Hc. revert acc.
  induction xs as [|x xs IH]; intros acc; cbn [Fs.collapse app].
  - destruct (String.eqb c "..") eqn:Heq; [|reflexivity].
    apply String.eqb_eq in Heq. contradiction.
  - destruct (String.eqb x ".."); apply IH.
Qed.

Section Keys.

Context (E : Externals).

Lemma key_child (p : Path) (c : string) :
  c <> ".." -> key E (PurePath.child p c) = key E p ++ [c].
Proof.
  intros Hc. unfold key, Fs.resolve, PurePath.child. cbn [parts anchored].
  destruct (anchored p); [|rewrite app_assoc]; apply collapse_snoc, Hc.
Qed.

(** The key of the cookie file, and of the path that its name in the
    options denotes. *)
Lemma key_cookiefile (temp_dir : string) :
  key E (cookiefile_path temp_dir)
  = key E (PurePath.of_string temp_dir) ++ ["cookies.txt"]
  /\ key E (PurePath.of_string (PurePath.to_string (cookiefile_path temp_dir)))
     = key E (cookiefile_path temp_dir).
Proof.
  split.
  - apply key_child. discriminate.
  - rewrite of_string_to_string; [reflexivity|].
    unfold cookiefile_path, PurePath.child. cbn [parts].
    apply Forall_app. split; [apply of_string_clean|].
    repeat constructor.
Qed.

End Keys.

(** ** The file system after the yt-dlp adapter *)

Lemma rmtree_gone (d k : list string) (fs : gmap (list string) node) :
  d `prefix_of` k -> Fs.rmtree d fs !! k = None.
Proof.
  intros Hp. unfold Fs.rmtree. apply map_lookup_filter_None. right.
  intros x _ Hn. apply Hn. exact Hp.
Qed.

Lemma move_lookup (src dst k : list string) (n : node)
  (fs : gmap (list string) node) :
  Fs.move src dst fs !! k = Some n ->
  exists k0, fs !! k0 = Some n /\ (k = k0 \/ exists rest, k = dst ++ rest).
Proof.
  unfold Fs.move. intros H.
  apply elem_of_list_to_map_2, list_elem_of_In, in_map_iff in H
    as ([k0 n0] & Heq & Hin).
  apply list_elem_of_In, elem_of_map_to_list in Hin.
  cbn [fst snd] in Heq.
  destruct (bool_decide (src `prefix_of` k0)); injection Heq as <- <-; eauto.
Qed.

Lemma suffix_mp3 (x : string) :
  Str.nonempty x = true -> PurePath.suffix_of_name (x +:+ ".mp3") = ".mp3".
Proof.
  intros Hx. apply nonempty_length in Hx.
  unfold PurePath.suffix_of_name.
  rewrite rfind_append. simpl Str.rfind. rewrite length_append.
  simpl String.length.
  replace (0 <? String.length x + 0)%nat with true
    by (symmetry; apply Nat.ltb_lt; lia).
  replace (String.length x + 0 <? String.length x + 4 - 1)%nat with true
    by (symmetry; apply Nat.ltb_lt; lia).
  simpl. rewrite Nat.add_0_r. apply drop_append_length.
Qed.

Lemma with_suffix_parts (q t : Path) :
  PurePath.with_suffix q ".mp3" = Some t ->
  exists x, Str.nonempty x = true
            /\ parts t = removelast (parts q) ++ [x +:+ ".mp3"]
            /\ anchored t = anchored q.
Proof.
  unfold PurePath.with_suffix.
  destruct (Str.nonempty (PurePath.name q)) eqn:Hn; [|discriminate].
  cbn [negb]. cbv zeta.
  destruct (Str.nonempty (PurePath.suffix_of_name (PurePath.name q))) eqn:Hs;
    intros [= <-]; cbn [parts anchored].
  - destruct (suffix_of_name_inv _ Hs) as (i & _ & H0 & H1 & Heq).
    eexists. split; [|split; reflexivity].
    apply nonempty_length. rewrite Heq, length_drop, length_take; lia.
  - exists (PurePath.name q). auto.
Qed.

Lemma snoc_eq_app (K D rest : list string) (c m : string) :
  K ++ [c] = (D ++ [m]) ++ rest -> (c = m /\ rest = []) \/ In m K.
Proof.
  destruct rest as [|r rest] using rev_ind.
  - rewrite app_nil_r. intros H. apply app_inj_tail in H as [_ ->]. auto.
  - rewrite app_assoc. intros H. apply app_inj_tail in H as [-> _].
    right. apply in_app_iff. left. apply in_app_iff. right. left. reflexivity.
Qed.

Section FileSystemAfter.

Context (E : Externals).

Lemma key_with_suffix (q t : Path) :
  PurePath.with_suffix q ".mp3" = Some t ->
  exists D x, Str.nonempty x = true /\ key E t = D ++ [x +:+ ".mp3"].
Proof.
  intros H. destruct (with_suffix_parts q t H) as (x & Hx & Hp & Ha).
  assert (Hne : x +:+ ".mp3" <> "..").
  { intros Heq. apply (f_equal String.length) in Heq.
    rewrite length_append in Heq. simpl in Heq. lia. }
  unfold key, Fs.resolve. cbn [parts]. rewrite Hp.
  destruct (anchored t); [|rewrite app_assoc];
    rewrite (collapse_snoc _ _ _ Hne); eauto.
Qed.

(** What [ytdlp_finish] can do to the file system. *)
Lemma finish_fs (audio_only : bool) (ext : option string)
  (info : gmap string Path) (w w' : world) (o : outcome Path) :
  (audio_only = true -> ext = Some "mp3") ->
  ytdlp_finish E audio_only ext info w = (o, w') ->
  w_fs w' = w_fs w
  \/ exists q t fs1,
      audio_only = true
      /\ PurePath.with_suffix q ".mp3" = Some t
      /\ (fs1 = w_fs w \/ fs1 = delete (key E t) (w_fs w))
      /\ (w_fs w' = fs1 \/ w_fs w' = Fs.move (key E q) (key E t) fs1).
Proof.
  intros Hext. unfold ytdlp_finish.
  destruct (info !! "filepath") as [q|]; [|intros [= <- <-]; auto].
  cbv zeta.
  destruct audio_only; cbn [andb]; [|intros [= <- <-]; auto].
  rewrite (Hext eq_refl).
  change ("." +:+ default "" (Some "mp3")) with ".mp3".
  cbn [andb truthy Str.nonempty].
  destruct (negb _); [|intros [= <- <-]; auto].
  destruct (PurePath.with_suffix q ".mp3") as [t|] eqn:Ht;
    [|intros [= <- <-]; auto].
  unfold fs_exists, fs_unlink, fs_rename.
  cbv beta iota zeta delta [bind ret get raise when try_except_if try_except].
  destruct (Fs.exists_ (w_fs w) (key E q)); [|intros [= <- <-]; auto].
  destruct (Fs.exists_ (w_fs w) (key E t)).
  - destruct (w_fs w !! key E t) as [[c|]|] eqn:Hl; cbn [is_os_error mk_exn exn_cls].
    + cbn [w_fs set_fs].
      destruct (delete (key E t) (w_fs w) !! key E q) as [[c1|]|];
        destruct (delete (key E t) (w_fs w) !! key E t) as [[c2|]|];
        cbn [is_os_error mk_exn exn_cls]; intros [= <- <-]; cbn [w_fs set_fs];
        right; exists q, t, (delete (key E t) (w_fs w)); auto 10.
    + intros [= <- <-]. auto.
    + intros [= <- <-]. auto.
  - destruct (w_fs w !! key E q) as [[c1|]|];
      destruct (w_fs w !! key E t) as [[c2|]|];
      cbn [is_os_error mk_exn exn_cls]; intros [= <- <-]; cbn [w_fs set_fs];
      auto; right; exists q, t, (w_fs w); auto 10.
Qed.

(** The cookie file of a temporary directory that is gone stays away. *)
Lemma finish_keeps_absent (audio_only : bool) (ext : option string)
  (info : gmap string Path) (w w' : world) (o : outcome Path)
  (K : list string) :
  (audio_only = true -> ext = Some "mp3") ->
  (forall k, K `prefix_of` k -> w_fs w !! k = None) ->
  audio_only = false
  \/ Forall (fun c => PurePath.suffix_of_name c <> ".mp3") K ->
  ytdlp_finish E audio_only ext info w = (o, w') ->
  w_fs w' !! (K ++ ["cookies.txt"]) = None.
Proof.
  intros Hext Hgone Hmode H.
  assert (Hck : K `prefix_of` K ++ ["cookies.txt"]) by (eexists; reflexivity).
  destruct (finish_fs _ _ _ _ _ _ Hext H)
    as [-> | (q & t & fs1 & Ha & Ht & Hfs1 & Hfs)]; [apply Hgone, Hck|].
  assert (Hgone1 : forall k, K `prefix_of` k -> fs1 !! k = None).
  { intros k Hk. destruct Hfs1 as [-> | ->]; [apply Hgone, Hk|].
    apply lookup_delete_None. right. apply Hgone, Hk. }
  destruct Hfs as [-> | ->]; [apply Hgone1, Hck|].
  destruct (Fs.move _ _ fs1 !! (K ++ ["cookies.txt"])) as [n|] eqn:Hl;
    [exfalso|reflexivity].
  apply move_lookup in Hl as (k0 & Hk0 & [<- | (rest & Heq)]).
  - rewrite (Hgone1 _ Hck) in Hk0. discriminate.
  - destruct (key_with_suffix q t Ht) as (D & x & Hx & Hkey).
    rewrite Hkey in Heq.
    destruct (snoc_eq_app _ _ _ _ _ Heq) as [[Hc _] | Hin].
    + apply (f_equal PurePath.suffix_of_name) in Hc.
      rewrite (suffix_mp3 x Hx) in Hc. discriminate.
    + destruct Hmode as [Hv | Hall]; [congruence|].
      rewrite Forall_forall in Hall.
      apply (Hall (x +:+ ".mp3")); [apply list_elem_of_In, Hin|].
      apply suffix_mp3, Hx.
Qed.

End FileSystemAfter.

(** ** The cookies *)

(** C9, as stated, fails: a cookie value that ends with a newline contains
    a newline, and is passed as a [Cookie] header all the same, the newline
    stripped; the options name no cookie file. *)
Lemma trailing_newline_cookie_is_a_header :
  Str.contains "010" ("a=b" +:+ newline) = true
  /\ exists opts,
      w_calls (snd (_download_with_ytdlp Demo2.ok "u" Demo.out None false None
                      (Some sink) (Some worker_control)
                      (Some ("a=b" +:+ newline)) Demo.world0))
      = [CallYdlDownload opts "u" None]
      /\ cookiefile opts = None
      /\ http_headers opts = Some {[ "Cookie" := "a=b" ]}.
Proof.
  split; [reflexivity|]. eexists. split; [vm_compute; reflexivity|].
  split; reflexivity.
Qed.

(** The white space that is stripped is that of Python: a value that ends
    with a tab and a no-break space has neither once it is stripped, and a
    next-line character at the front goes as well. *)
Lemma strip_python_white_space :
  Str.strip (String "133" "a=b" +:+ String "009" (String "160" "")) = "a=b".
Proof. reflexivity. Qed.

Section CookieScope.

Context (E : Externals).

Lemma base_opts_no_cookies (filename : option string) (audio_only : bool)
  (resolution : option string) (ffmpeg_exists : bool)
  (tpl : string * option string) :
  cookiefile (ytdlp_base_opts E filename audio_only resolution ffmpeg_exists tpl)
  = None
  /\ http_headers
       (ytdlp_base_opts E filename audio_only resolution ffmpeg_exists tpl)
     = None.
Proof.
  unfold ytdlp_base_opts.
  destruct audio_only, ffmpeg_exists, (truthy (which_ffmpeg E)), (truthy tpl.2);
    split; reflexivity.
Qed.

Lemma cookie_opts_ret (output_dir : Path) (cookies : option string)
  (base : ydl_opts) (temp_dir : string) (w w1 : world) (opts : ydl_opts) :
  truthy cookies = true ->
  cookiefile base = None -> http_headers base = None ->
  ytdlp_cookie_opts E output_dir cookies base temp_dir w = (Ret opts, w1) ->
  cookie_options temp_dir (Str.strip (default "" cookies)) opts
                 (cookie_jar E opts (w_fs w1)).
Proof.
  intros Hc Hcf Hh. unfold ytdlp_cookie_opts, cookie_options. rewrite Hc.
  cbv zeta.
  destruct (Str.contains "010" _ || Str.contains "009" _).
  - intros H. apply bind_ret_inv in H as (u & w2 & Hw & H).
    injection H as <- <-.
    split; [reflexivity|]. split; [|exact Hh].
    unfold cookie_jar. cbn [cookiefile opts_with_cookiefile].
    destruct (key_cookiefile E temp_dir) as [_ ->].
    unfold fs_write_text in Hw.
    repeat match type of Hw with
           | (match ?x with _ => _ end) = _ => destruct x
           end; try discriminate;
      injection Hw as _ <-; cbn [w_fs set_fs];
      rewrite lookup_insert_eq; reflexivity.
  - intros [= <- <-]. unfold cookie_jar.
    cbn [cookiefile http_headers opts_set_header opts_with_paths].
    rewrite Hcf, Hh. cbn [default]. rewrite insert_empty. auto.
Qed.

Lemma ydl_download_calls (opts : ydl_opts) (url : string)
  (hook : gmap string pyval -> gmap string Path -> M (gmap string Path))
  (info : gmap string Path) (w w' : world) (o : outcome (gmap string Path)) :
  (forall st i, preserves w_calls (hook st i)) ->
  ydl_download E opts url hook info w = (o, w') ->
  w_calls w' = w_calls w ++ [CallYdlDownload opts url (cookie_jar E opts (w_fs w))].
Proof.
  intros Hhook. unfold ydl_download, log_call.
  cbv beta iota zeta delta [bind get modify].
  match goal with
  | |- (let (o, w') := ?m ?w0 in _) = _ -> _ =>
      assert (Hp : preserves w_calls m); [|destruct (m w0) as [[a|e|] w1] eqn:Hm]
  end.
  { apply preserves_for_each. intros ev i _ w0 o0 w0' Hb.
    apply Hhook in Hb. exact Hb. }
  all: apply Hp in Hm; cbn [w_calls set_calls] in Hm.
  - destruct (yr_result _); intros [= <- <-]; exact Hm.
  - intros [= <- <-]. exact Hm.
  - intros [= <- <-]. exact Hm.
Qed.

Lemma session_calls (url : string) (output_dir : Path)
  (cb : option ProgressCallback) (control : option DownloadControl)
  (cookies : option string) (base : ydl_opts) (temp_dir : string)
  (w w' : world) (o : outcome (gmap string Path)) :
  control_local control -> callback_local cb ->
  truthy cookies = true ->
  cookiefile base = None -> http_headers base = None ->
  ytdlp_session E url output_dir cb control cookies base temp_dir w = (o, w') ->
  exists new,
    w_calls w' = w_calls w ++ new
    /\ forall c, In c new ->
                 exists opts jar,
                   c = CallYdlDownload opts url jar
                   /\ cookie_options temp_dir (Str.strip (default "" cookies))
                                     opts jar.
Proof.
  intros Hctl Hcb Hc Hcf Hh H.
  assert (Hfs : forall f w, w_calls (set_fs f w) = w_calls w) by reflexivity.
  assert (Hnone : forall w1, w_calls w1 = w_calls w ->
                             exists new, w_calls w1 = w_calls w ++ new
                                         /\ forall c, In c new -> False).
  { intros w1 ->. exists []. rewrite app_nil_r. auto. }
  assert (Hskip : w_calls w' = w_calls w ->
                  exists new,
                    w_calls w' = w_calls w ++ new
                    /\ forall c, In c new ->
                                 exists opts jar,
                                   c = CallYdlDownload opts url jar
                                   /\ cookie_options temp_dir
                                        (Str.strip (default "" cookies)) opts jar).
  { intros Heq. destruct (Hnone w' Heq) as (new & Hn & Hf).
    exists new. split; [exact Hn|]. intros c Hin. destruct (Hf c Hin). }
  unfold ytdlp_session in H.
  pose proof (cookie_opts_preserves E w_calls Hfs output_dir cookies base temp_dir)
    as Hco.
  assert (Hwc : forall (m : DownloadControl -> M unit),
             (forall c, m c = raise_if_cancelled c) ->
             preserves w_calls (with_control control m)
             /\ preserves w_fs (with_control control m)).
  { intros m Hm. split; apply with_control_preserves; intros c Hcc; rewrite Hm;
      destruct (Hctl c Hcc) as [(Hf & _ & Hcl & _) _]; assumption. }
  destruct (Hwc raise_if_cancelled (fun c => eq_refl)) as [Hwcc Hwcf].
  destruct (bind_inv _ _ _ _ _ H)
    as [(opts & w1 & H1 & H2) | [(e & H1 & _) | (H1 & _)]];
    [|apply Hskip, (Hco _ _ _ H1)|apply Hskip, (Hco _ _ _ H1)].
  pose proof (cookie_opts_ret _ _ _ _ _ _ _ Hc Hcf Hh H1) as Hopts.
  apply Hco in H1.
  destruct (bind_inv _ _ _ _ _ H2)
    as [(u & w2 & H3 & H4) | [(e & H3 & _) | (H3 & _)]];
    [|apply Hskip; rewrite (Hwcc _ _ _ H3); exact H1
     |apply Hskip; rewrite (Hwcc _ _ _ H3); exact H1].
  rewrite reraise_id in H4.
  apply ydl_download_calls in H4.
  - exists [CallYdlDownload opts url (cookie_jar E opts (w_fs w2))].
    split; [rewrite H4, (Hwcc _ _ _ H3), H1; reflexivity|].
    intros c [<- | []]. exists opts, (cookie_jar E opts (w_fs w2)).
    split; [reflexivity|]. rewrite (Hwcf _ _ _ H3). exact Hopts.
  - intros st i. apply hook_preserves.
    + intros c Hcc. destruct (Hctl c Hcc) as [(_ & _ & Hr & _) (_ & _ & Hp & _)].
      auto.
    + intros f percent message Hf. destruct (Hcb f percent message Hf) as (_ & Hf2 & _).
      exact Hf2.
    + intros s m. destruct (safe_write_local s m) as (_ & _ & Hs & _). exact Hs.
Qed.

Lemma tempdir_scope {A} (body : string -> M A) (w w' : world) (o : outcome A) :
  with_TemporaryDirectory E "yt-dlp-frag-" body w = (o, w') ->
  let temp_dir := gettempdir E +:+ "/" +:+ "yt-dlp-frag-" +:+ pretty (w_tmp w) in
  exists w5 w6,
    body temp_dir w5 = (o, w6)
    /\ w_calls w5 = w_calls w
    /\ w_calls w' = w_calls w6
    /\ (o <> Hang ->
        forall k, key E (PurePath.of_string temp_dir) `prefix_of` k ->
                  w_fs w' !! k = None).
Proof.
  unfold with_TemporaryDirectory, mkdtemp, finally.
  cbv beta iota zeta delta [bind].
  match goal with
  | |- (let (o, w') := ?m ?w0 in _) = _ -> _ =>
      destruct (m w0) as [[a|e|] w6] eqn:Hm
  end; intros [= <- <-]; eexists _, w6; (split; [exact Hm|]);
    (split; [reflexivity|]); (split; [reflexivity|]).
  - intros _ k Hk. apply rmtree_gone, Hk.
  - intros _ k Hk. apply rmtree_gone, Hk.
  - congruence.
Qed.

End CookieScope.

Section DownloadCall.

Context (E : Externals).

(** The yt-dlp adapter, from the call of [ydl.download] on: once the
    output directory and the temporary directory are made, the options are
    complete and the control object lets the download start, the adapter is
    the download, the removal of the temporary directory and what follows
    the [with] statement. The [try] statement around the download does not
    show: it lets every exception through. *)
Lemma ytdlp_runs_download (url : string) (output_dir : Path)
  (filename : option string) (audio_only : bool) (resolution : option string)
  (cb : option ProgressCallback) (control : option DownloadControl)
  (cookies : option string) (w w4 w5 : world)
  (fs1 : gmap (list string) node) (tpl : string * option string)
  (opts : ydl_opts) :
  Fs.mkdirs [] (key E output_dir) (w_fs w) = Some fs1 ->
  _determine_template filename audio_only = Some tpl ->
  ytdlp_cookie_opts E output_dir cookies
    (ytdlp_base_opts E filename audio_only resolution
       (Fs.exists_ fs1 (key E (PurePath.child (module_dir E) "ffmpeg.exe")))
       tpl)
    (gettempdir E +:+ "/" +:+ "yt-dlp-frag-" +:+ pretty (w_tmp w))
    (snd (mkdtemp E "yt-dlp-frag-" (set_fs fs1 w))) = (Ret opts, w4) ->
  with_control control raise_if_cancelled w4 = (Ret tt, w5) ->
  _download_with_ytdlp E url output_dir filename audio_only resolution
                       cb control cookies w
  = (let* info :=
       finally (ydl_download E opts url (_hook E cb control) ∅)
         (fun w0 =>
            set_fs (Fs.rmtree
                      (key E (PurePath.of_string
                                (gettempdir E +:+ "/" +:+ "yt-dlp-frag-"
                                 +:+ pretty (w_tmp w))))
                      (w_fs w0)) w0) in
     ytdlp_finish E audio_only tpl.2 info) w5.
Proof.
  intros Hmk Htpl Hopts Hcheck.
  rewrite download_with_ytdlp_parts.
  unfold bind at 1. unfold fs_mkdir_p. rewrite Hmk.
  unfold bind at 1. rewrite Htpl. unfold ret at 1.
  unfold bind at 1. unfold fs_exists at 1, get at 1. cbn [w_fs set_fs].
  unfold bind at 1. unfold with_TemporaryDirectory at 1.
  unfold bind at 1. unfold mkdtemp at 1.
  unfold mkdtemp in Hopts. cbn [snd w_tmp set_fs w_fs] in Hopts.
  cbn [w_tmp set_fs w_fs].
  unfold finally at 1. unfold ytdlp_session at 1.
  unfold bind at 1. rewrite Hopts.
  unfold bind at 1. rewrite Hcheck.
  rewrite reraise_id.
  unfold bind at 1, finally at 1.
  destruct (ydl_download E opts url (_hook E cb control) ∅ w5)
    as [[info|e|] w6]; reflexivity.
Qed.

End DownloadCall.

Section CookieRun.

Context (E : Externals).

(** The options are completed, and the cookie file is written when the
    stripped cookies hold a newline or a tab, in a temporary directory that
    has just been made. *)
Lemma cookie_opts_run (output_dir : Path) (cookies : option string)
  (base : ydl_opts) (w : world) (fs1 : gmap (list string) node) :
  truthy cookies = true ->
  let stripped := Str.strip (default "" cookies) in
  let temp_dir :=
    gettempdir E +:+ "/" +:+ "yt-dlp-frag-" +:+ pretty (w_tmp w) in
  let wt := snd (mkdtemp E "yt-dlp-frag-" (set_fs fs1 w)) in
  fs1 !! key E (cookiefile_path temp_dir) = None ->
  exists opts,
    ytdlp_cookie_opts E output_dir cookies base temp_dir wt
    = (Ret opts,
       if Str.contains "010" stripped || Str.contains "009" stripped
       then set_fs (<[key E (cookiefile_path temp_dir) := File stripped]>
                      (w_fs wt)) wt
       else wt).
Proof.
  intros Hc. cbv zeta. intros Hfree.
  unfold ytdlp_cookie_opts. rewrite Hc. cbv zeta.
  destruct (Str.contains "010" _ || Str.contains "009" _);
    [|eexists; reflexivity].
  unfold bind, fs_write_text, mkdtemp. cbn [snd w_fs set_fs set_tmp w_tmp].
  destruct (key_cookiefile E
              (gettempdir E +:+ "/" +:+ "yt-dlp-frag-" +:+ pretty (w_tmp w)))
    as [Hkey _].
  rewrite Hkey, removelast_last, lookup_insert_eq.
  rewrite lookup_insert_ne.
  - rewrite <- Hkey, Hfree. eexists. reflexivity.
  - intros Heq. apply (f_equal (@length string)) in Heq.
    rewrite length_app in Heq. simpl in Heq. lia.
Qed.

Lemma cookie_run (url : string) (output_dir : Path)
  (filename : option string) (audio_only : bool) (resolution : option string)
  (cb : option ProgressCallback) (control : option DownloadControl)
  (cookies : option string) (w w5 : world) (fs1 : gmap (list string) node) :
  control_local control -> callback_local cb ->
  truthy cookies = true ->
  Fs.mkdirs [] (key E output_dir) (w_fs w) = Some fs1 ->
  let stripped := Str.strip (default "" cookies) in
  let temp_dir :=
    gettempdir E +:+ "/" +:+ "yt-dlp-frag-" +:+ pretty (w_tmp w) in
  let wt := snd (mkdtemp E "yt-dlp-frag-" (set_fs fs1 w)) in
  let with_file := Str.contains "010" stripped || Str.contains "009" stripped in
  fs1 !! key E (cookiefile_path temp_dir) = None ->
  with_control control raise_if_cancelled
    (if with_file
     then set_fs (<[key E (cookiefile_path temp_dir) := File stripped]>
                    (w_fs wt)) wt
     else wt) = (Ret tt, w5) ->
  exists opts tpl,
    _determine_template filename audio_only = Some tpl
    /\ _download_with_ytdlp E url output_dir filename audio_only resolution
                            cb control cookies w
       = (let* info :=
            finally (ydl_download E opts url (_hook E cb control) ∅)
              (fun w0 =>
                 set_fs (Fs.rmtree (key E (PurePath.of_string temp_dir))
                                   (w_fs w0)) w0) in
          ytdlp_finish E audio_only tpl.2 info) w5
    /\ cookie_options temp_dir stripped opts (cookie_jar E opts (w_fs w5))
    /\ w_fs w5
       = (if with_file
          then <[key E (cookiefile_path temp_dir) := File stripped]>
                 (<[key E (PurePath.of_string temp_dir) := Dir]> fs1)
          else <[key E (PurePath.of_string temp_dir) := Dir]> fs1)
    /\ forall o w',
        _download_with_ytdlp E url output_dir filename audio_only resolution
                             cb control cookies w = (o, w') ->
        w_calls w'
        = w_calls w
          ++ [CallYdlDownload opts url (cookie_jar E opts (w_fs w5))].
Proof.
  intros Hctl Hcb Hc Hmk. cbv zeta. intros Hfree Hcheck.
  assert (Hfs : forall f w, w_calls (set_fs f w) = w_calls w) by reflexivity.
  destruct (determine_template_total filename audio_only) as (tpl & Htpl & _).
  set (base := ytdlp_base_opts E filename audio_only resolution
                 (Fs.exists_ fs1
                    (key E (PurePath.child (module_dir E) "ffmpeg.exe"))) tpl).
  destruct (base_opts_no_cookies E filename audio_only resolution
              (Fs.exists_ fs1
                 (key E (PurePath.child (module_dir E) "ffmpeg.exe"))) tpl)
    as [Hcf Hh].
  destruct (cookie_opts_run output_dir cookies base w fs1 Hc Hfree)
    as (opts & Hopts).
  cbv zeta in Hopts.
  pose proof (ytdlp_runs_download E url output_dir filename audio_only
                resolution cb control cookies w _ w5 fs1 tpl opts Hmk Htpl
                Hopts Hcheck) as Hrun.
  pose proof (cookie_opts_ret E _ _ _ _ _ _ _ Hc Hcf Hh Hopts) as Hjar.
  match type of Hcheck with
  | with_control _ _ ?w0 = _ => set (w4 := w0) in *
  end.
  assert (Hw5 : w_fs w5 = w_fs w4 /\ w_calls w5 = w_calls w).
  { split.
    - refine (with_control_preserves w_fs control raise_if_cancelled _ _ _ _
                Hcheck).
      intros c Hcc. destruct (Hctl c Hcc) as [(Hf & _) _]. exact Hf.
    - rewrite (with_control_preserves w_calls control raise_if_cancelled
                 (fun c Hcc => proj1 (proj2 (proj2 (proj1 (Hctl c Hcc)))))
                 _ _ _ Hcheck).
      unfold w4.
      destruct (Str.contains "010" _ || Str.contains "009" _); reflexivity. }
  destruct Hw5 as [Hw5f Hw5c].
  exists opts, tpl. split; [exact Htpl|]. split; [exact Hrun|].
  split; [rewrite Hw5f; exact Hjar|]. split.
  - rewrite Hw5f. unfold w4.
    destruct (Str.contains "010" _ || Str.contains "009" _); reflexivity.
  - intros o w' H. rewrite Hrun in H.
    assert (Hdl : forall o6 w6,
               finally (ydl_download E opts url (_hook E cb control) ∅)
                 (fun w0 =>
                    set_fs (Fs.rmtree
                              (key E (PurePath.of_string
                                        (gettempdir E +:+ "/" +:+ "yt-dlp-frag-"
                                         +:+ pretty (w_tmp w))))
                              (w_fs w0)) w0) w5 = (o6, w6) ->
               w_calls w6
               = w_calls w
                 ++ [CallYdlDownload opts url (cookie_jar E opts (w_fs w5))]).
    { intros o6 w6. unfold finally.
      destruct (ydl_download E opts url (_hook E cb control) ∅ w5)
        as [o7 w7] eqn:Hd.
      apply ydl_download_calls in Hd.
      - rewrite Hw5c in Hd.
        destruct o7; intros [= <- <-]; cbn [w_calls set_fs]; exact Hd.
      - intros st i. apply hook_preserves.
        + intros c Hcc.
          destruct (Hctl c Hcc) as [(_ & _ & Hr & _) (_ & _ & Hp & _)]. auto.
        + intros f percent message Hf.
          destruct (Hcb f percent message Hf) as (_ & Hf2 & _). exact Hf2.
        + intros s m. destruct (safe_write_local s m) as (_ & _ & Hs & _).
          exact Hs. }
    destruct (bind_inv _ _ _ _ _ H)
      as [(info & w6 & H6 & H7) | [(e & H6 & _) | (H6 & _)]].
    + rewrite (finish_preserves E w_calls Hfs _ _ _ _ _ _ H7).
      exact (Hdl _ _ H6).
    + exact (Hdl _ _ H6).
    + exact (Hdl _ _ H6).
Qed.

End CookieRun.

(** C9, amended: what decides is the cookie value with the white space at
    its ends stripped (the strings are those over the code points below
    256, and the white space is that of [str.strip] there). When the
    stripped value contains a newline or a tab, the call into yt-dlp names
    the file [cookies.txt] of the temporary directory of this invocation as
    cookie file, and the file holds the stripped value; otherwise the
    stripped value is the [Cookie] header and no cookie file is named. In
    both cases the file does not exist once the adapter has returned or
    raised, whether by success, failure or cancellation. (The temporary
    name is taken to be free when the adapter starts, as [mkdtemp] sees to;
    in audio mode, where the adapter renames the download to [.mp3], no
    directory above the temporary one is taken to be called [*.mp3].)

    When the output directory can be made and the control object is not
    cancelled before the download, the adapter calls into yt-dlp exactly
    once, with these options; at the call the file system is the one with
    the output directory and the temporary directory made and, for a value
    with a newline or a tab, the stripped value written to [cookies.txt],
    and nothing else: in the header case no cookie file exists. The
    outcome of the adapter is that of the download, of the removal of the
    temporary directory and of the renaming that follows. *)
Theorem cookie_file_is_scoped :
  forall E url output_dir filename audio_only resolution cb control cookies
         w o w',
    control_local control -> callback_local cb ->
    truthy cookies = true ->
    _download_with_ytdlp E url output_dir filename audio_only resolution
                         cb control cookies w = (o, w') ->
    let stripped := Str.strip (default "" cookies) in
    let temp_dir :=
      gettempdir E +:+ "/" +:+ "yt-dlp-frag-" +:+ pretty (w_tmp w) in
    (exists new,
        w_calls w' = w_calls w ++ new
        /\ forall c, In c new ->
                     exists opts jar,
                       c = CallYdlDownload opts url jar
                       /\ cookie_options temp_dir stripped opts jar)
    /\ (o <> Hang ->
        w_fs w !! key E (cookiefile_path temp_dir) = None ->
        audio_only = false
        \/ Forall (fun c => PurePath.suffix_of_name c <> ".mp3")
                  (key E (PurePath.of_string temp_dir)) ->
        w_fs w' !! key E (cookiefile_path temp_dir) = None)
    /\ (forall fs1 w5,
           let with_file :=
             Str.contains "010" stripped || Str.contains "009" stripped in
           let made := snd (mkdtemp E "yt-dlp-frag-" (set_fs fs1 w)) in
           Fs.mkdirs [] (key E output_dir) (w_fs w) = Some fs1 ->
           fs1 !! key E (cookiefile_path temp_dir) = None ->
           with_control control raise_if_cancelled
             (if with_file
              then set_fs (<[key E (cookiefile_path temp_dir) := File stripped]>
                             (w_fs made)) made
              else made) = (Ret tt, w5) ->
           exists opts jar tpl,
             w_calls w' = w_calls w ++ [CallYdlDownload opts url jar]
             /\ cookie_options temp_dir stripped opts jar
             /\ w_fs w5 !! key E (cookiefile_path temp_dir)
                = (if with_file then Some (File stripped) else None)
             /\ w_fs w5
                = (if with_file
                   then <[key E (cookiefile_path temp_dir) := File stripped]>
                          (<[key E (PurePath.of_string temp_dir) := Dir]> fs1)
                   else <[key E (PurePath.of_string temp_dir) := Dir]> fs1)
             /\ _determine_template filename audio_only = Some tpl
             /\ (o, w')
                = (let* info :=
                     finally (ydl_download E opts url (_hook E cb control) ∅)
                       (fun w0 =>
                          set_fs (Fs.rmtree
                                    (key E (PurePath.of_string temp_dir))
                                    (w_fs w0)) w0) in
                   ytdlp_finish E audio_only tpl.2 info) w5).
Proof.
  intros E url output_dir filename audio_only resolution cb control cookies
         w o w' Hctl Hcb Hc H. cbv zeta.
  refine ((fun (HAB : _ /\ _) HC => conj (proj1 HAB) (conj (proj2 HAB) HC))
            _ _).
  {
    assert (Hfs : forall f w, w_calls (set_fs f w) = w_calls w) by reflexivity.
    assert (Hft : forall f w, w_tmp (set_fs f w) = w_tmp w) by reflexivity.
    destruct (fs_ops_preserve w_calls Hfs) as (Hmkc & Hexc & _).
    destruct (fs_ops_preserve w_tmp Hft) as (Hmkt & Hext & _).
    assert (Hskip : w_calls w' = w_calls w ->
                    exists new,
                      w_calls w' = w_calls w ++ new
                      /\ forall c, In c new ->
                                   exists opts jar,
                                     c = CallYdlDownload opts url jar
                                     /\ cookie_options
                                          (gettempdir E +:+ "/" +:+ "yt-dlp-frag-"
                                           +:+ pretty (w_tmp w))
                                          (Str.strip (default "" cookies)) opts jar).
    { intros ->. exists []. rewrite app_nil_r. split; [reflexivity|].
      intros c []. }
    rewrite download_with_ytdlp_parts in H.
    destruct (determine_template_total filename audio_only) as (t & Heq & Hmp3).
    rewrite Heq in H.
    destruct (bind_inv _ _ _ _ _ H)
      as [(u & w1 & H1 & H2) | [(e & H1 & ->) | (H1 & ->)]].
    2: { (* the output directory cannot be made *)
      split; [apply Hskip, (Hmkc _ _ _ _ H1)|].
      intros _ Hfree _. unfold fs_mkdir_p in H1.
      destruct (Fs.mkdirs _ _ _); [discriminate|]. injection H1 as _ <-.
      exact Hfree. }
    2: { unfold fs_mkdir_p in H1. destruct (Fs.mkdirs _ _ _); discriminate. }
    pose proof (Hmkc _ _ _ _ H1) as Hc1. pose proof (Hmkt _ _ _ _ H1) as Ht1.
    clear H H1.
    destruct (bind_inv _ _ _ _ _ H2)
      as [(tpl & w2 & H3 & H4) | [(e & H3 & _) | (H3 & _)]];
      [|discriminate|discriminate].
    injection H3 as <- <-. clear H2.
    destruct (bind_inv _ _ _ _ _ H4)
      as [(ff & w3 & H5 & H6) | [(e & H5 & _) | (H5 & _)]];
      [|discriminate|discriminate].
    injection H5 as _ <-. clear H4.
    destruct (base_opts_no_cookies E filename audio_only resolution ff t)
      as [Hcf Hh].
    assert (Hsession :
      forall o5 w4,
        with_TemporaryDirectory E "yt-dlp-frag-"
          (ytdlp_session E url output_dir cb control cookies
             (ytdlp_base_opts E filename audio_only resolution ff t)) w1
        = (o5, w4) ->
        (exists new,
            w_calls w4 = w_calls w ++ new
            /\ forall c, In c new ->
                         exists opts jar,
                           c = CallYdlDownload opts url jar
                           /\ cookie_options
                                (gettempdir E +:+ "/" +:+ "yt-dlp-frag-"
                                 +:+ pretty (w_tmp w))
                                (Str.strip (default "" cookies)) opts jar)
        /\ (o5 <> Hang ->
            forall k,
              key E (PurePath.of_string
                       (gettempdir E +:+ "/" +:+ "yt-dlp-frag-" +:+ pretty (w_tmp w)))
                `prefix_of` k ->
              w_fs w4 !! k = None)).
    { intros o5 w4 Hw. apply tempdir_scope in Hw. cbv zeta in Hw.
      rewrite Ht1 in Hw. destruct Hw as (w5 & w6 & Hbody & Hc5 & Hc4 & Hgone).
      split; [|exact Hgone].
      destruct (session_calls E _ _ _ _ _ _ _ _ _ _ Hctl Hcb Hc Hcf Hh Hbody)
        as (new & Hnew & Hall).
      exists new. split; [|exact Hall]. congruence. }
    destruct (key_cookiefile E
                (gettempdir E +:+ "/" +:+ "yt-dlp-frag-" +:+ pretty (w_tmp w)))
      as [Hkey _].
    assert (Hck : key E (PurePath.of_string
                           (gettempdir E +:+ "/" +:+ "yt-dlp-frag-"
                            +:+ pretty (w_tmp w)))
                    `prefix_of`
                    key E (cookiefile_path
                             (gettempdir E +:+ "/" +:+ "yt-dlp-frag-"
                              +:+ pretty (w_tmp w)))).
    { rewrite Hkey. eexists. reflexivity. }
    destruct (bind_inv _ _ _ _ _ H6)
      as [(info & w4 & H7 & H8) | [(e & H7 & ->) | (H7 & ->)]].
    - destruct (Hsession _ _ H7) as [(new & Hnew & Hall) Hgone].
      split.
      + exists new. split; [|exact Hall].
        rewrite (finish_preserves E w_calls Hfs _ _ _ _ _ _ H8). exact Hnew.
      + intros _ _ Hmode. rewrite Hkey.
        apply (finish_keeps_absent E audio_only t.2 info w4 w' o);
          [exact Hmp3|apply Hgone; discriminate|exact Hmode|exact H8].
    - destruct (Hsession _ _ H7) as [Hcalls Hgone].
      split; [exact Hcalls|]. intros _ _ _. apply Hgone; [discriminate|exact Hck].
    - destruct (Hsession _ _ H7) as [Hcalls _].
      split; [exact Hcalls|]. intros Hn. contradiction.
  }
  intros fs1 w5 Hmk Hfree Hcheck.
  destruct (cookie_run E url output_dir filename audio_only resolution cb
              control cookies w w5 fs1 Hctl Hcb Hc Hmk Hfree Hcheck)
    as (opts & tpl & Htpl & Hrun & Hopt & Hfs5 & Hcalls).
  cbv zeta in Hrun, Hopt, Hfs5.
  exists opts, (cookie_jar E opts (w_fs w5)), tpl.
  split; [exact (Hcalls o w' H)|]. split; [exact Hopt|].
  split; [|split; [exact Hfs5|split; [exact Htpl|]]].
  - rewrite Hfs5.
    destruct (Str.contains "010" _ || Str.contains "009" _).
    + apply lookup_insert_eq.
    + rewrite lookup_insert_ne; [exact Hfree|].
      destruct (key_cookiefile E
                  (gettempdir E +:+ "/" +:+ "yt-dlp-frag-"
                   +:+ pretty (w_tmp w))) as [Hkey _].
      rewrite Hkey. intros Heq. apply (f_equal (@length string)) in Heq.
      rewrite length_app in Heq. simpl in Heq. lia.
  - rewrite <- H. exact Hrun.
Qed.

(** A cookie jar of one line with tabs: yt-dlp is called once, with the
    cookie file of the temporary directory holding the jar, and after the
    run the cookie file is gone. *)
Lemma cookie_file_is_scoped_witness :
  w_fs (snd (_download_with_ytdlp Demo2.ok "u" Demo.out None false None
               (Some sink) (Some worker_control)
               (Some (".example.com" +:+ String "009" "TRUE")) Demo.world0))
  !! key Demo2.ok (cookiefile_path "/tmp/yt-dlp-frag-0") = None
  /\ exists opts,
       w_calls (snd (_download_with_ytdlp Demo2.ok "u" Demo.out None false
                       None (Some sink) (Some worker_control)
                       (Some (".example.com" +:+ String "009" "TRUE"))
                       Demo.world0))
       = [CallYdlDownload opts "u"
            (Some (".example.com" +:+ String "009" "TRUE"))]
       /\ cookiefile opts = Some "/tmp/yt-dlp-frag-0/cookies.txt".
Proof.
  pose proof (cookie_file_is_scoped Demo2.ok "u" Demo.out None false None
                (Some sink) (Some worker_control)
                (Some (".example.com" +:+ String "009" "TRUE")) Demo.world0
                _ _ worker_control_local sink_local eq_refl
                (surjective_pairing _)) as H.
  destruct H as (_ & Hgone & Hcall). split.
  - apply Hgone.
    + vm_compute. discriminate.
    + vm_compute. reflexivity.
    + left. reflexivity.
  - destruct (Hcall (<[["out"] := Dir]> ∅)
                (snd (fs_write_text ["tmp"; "yt-dlp-frag-0"; "cookies.txt"]
                        (".example.com" +:+ String "009" "TRUE")
                        (snd (mkdtemp Demo2.ok "yt-dlp-frag-"
                                (set_fs (<[["out"] := Dir]> ∅) Demo.world0))))))
      as (opts & jar & tpl & Hcalls & Hopt & _).
    + vm_compute. reflexivity.
    + vm_compute. reflexivity.
    + vm_compute. reflexivity.
    + exists opts. destruct Hopt as (Hcf & -> & _).
      split; [exact Hcalls|exact Hcf].
Defined.

(** ** The orchestrator *)

Section OrchestratorProperties.

Context (pytube : adapter) (ytdlp : adapter_with_cookies).
Context (url : string) (output_dir : Path) (filename : option string)
        (audio_only : bool) (resolution : option string)
        (progress_callback : option ProgressCallback)
        (control : option DownloadControl) (cookies : option string).

Let run_pytube : M Path :=
  pytube url output_dir filename audio_only resolution progress_callback control.
Let run_ytdlp : M Path :=
  ytdlp url output_dir filename audio_only resolution progress_callback control
        cookies.
Let run_download : M Path :=
  download_video_with pytube ytdlp url output_dir filename audio_only
                      resolution progress_callback control cookies.

(** What the [except] clauses around an attempt with the fallback adapter
    make of its outcome. *)
Lemma fallback_first (w : world) :
  audio_only = true \/ truthy cookies = true ->
  run_download w
  = match run_ytdlp w with
    | (Raise e, w') =>
        if is_cancelled e then (Raise e, w')
        else (Raise (mk_exn DownloadError (exn_str e)), w')
    | r => r
    end.
Proof.
  intros Hmode.
  assert (Hp : audio_only || truthy cookies = true).
  { destruct Hmode as [-> | ->]; [reflexivity|apply orb_true_r]. }
  unfold run_download, download_video_with.
  fold run_pytube. fold run_ytdlp. rewrite Hp.
  unfold try_except at 1.
  destruct (run_ytdlp w) as [[p|e|] w']; try reflexivity.
  destruct (is_cancelled e); reflexivity.
Qed.

Lemma primary_first (w : world) :
  audio_only = false -> truthy cookies = false ->
  run_download w
  = match run_pytube w with
    | (Raise e1, w1) =>
        if is_cancelled e1 then (Raise e1, w1)
        else
          match run_ytdlp
                  (snd (_safe_write Stderr (MsgPytubeFailed (exn_str e1)) w1)) with
          | (Raise e2, w2) =>
              if is_cancelled e2 then (Raise e2, w2)
              else (Raise (mk_exn DownloadError (exn_str e2)), w2)
          | r => r
          end
    | r => r
    end.
Proof.
  intros Ha Hc.
  unfold run_download, download_video_with.
  fold run_pytube. fold run_ytdlp.
  replace (audio_only || truthy cookies) with false
    by (rewrite Ha, Hc; reflexivity).
  cbv iota. unfold try_except at 1.
  destruct (run_pytube w) as [[p|e1|] w1]; try reflexivity.
  destruct (is_cancelled e1); [reflexivity|].
  unfold bind at 1.
  destruct (_safe_write Stderr (MsgPytubeFailed (exn_str e1)) w1)
    as [[[]|e|] w1'] eqn:Hw.
  - unfold try_except. simpl.
    destruct (run_ytdlp w1') as [[p|e2|] w2]; try reflexivity.
    destruct (is_cancelled e2); reflexivity.
  - unfold _safe_write in Hw. exfalso.
    repeat match type of Hw with
           | context [if ?b then _ else _] => destruct b
           end; discriminate.
  - unfold _safe_write in Hw. exfalso.
    repeat match type of Hw with
           | context [if ?b then _ else _] => destruct b
           end; discriminate.
Qed.

(** C1: in audio mode or with cookies, the yt-dlp adapter is the first
    one run, from the world that [download_video] starts in: its result is
    the result, and when it fails with something else than a cancellation,
    [download_video] raises [DownloadError] with its message in the world
    that the adapter leaves. The pytube adapter is not run: whatever it is,
    the outcome is the same. *)
Theorem fallback_only_for_audio_or_cookies (w : world) :
  audio_only = true \/ truthy cookies = true ->
  (forall p w', run_ytdlp w = (Ret p, w') -> run_download w = (Ret p, w'))
  /\ (forall e w',
         run_ytdlp w = (Raise e, w') ->
         is_cancelled e = false ->
         run_download w = (Raise (mk_exn DownloadError (exn_str e)), w'))
  /\ (forall other : adapter,
         download_video_with other ytdlp url output_dir filename audio_only
                             resolution progress_callback control cookies w
         = run_download w).
Proof.
  intros Hmode. pose proof (fallback_first w Hmode) as Hd.
  split; [|split].
  - intros p w' Hrun. rewrite Hd, Hrun. reflexivity.
  - intros e w' Hrun He. rewrite Hd, Hrun, He. reflexivity.
  - intros other. rewrite Hd.
    assert (Hp : audio_only || truthy cookies = true).
    { destruct Hmode as [-> | ->]; [reflexivity|apply orb_true_r]. }
    unfold download_video_with. fold run_ytdlp. rewrite Hp.
    unfold try_except at 1.
    destruct (run_ytdlp w) as [[p|e|] w']; try reflexivity.
    destruct (is_cancelled e); reflexivity.
Qed.

(** C2: in video mode without cookies the pytube adapter is the first one
    run, and its result or cancellation is the result; when it fails
    otherwise, a note goes to the console and the yt-dlp adapter is run
    next, and when that fails too (not by cancellation) [download_video]
    raises [DownloadError] with the message of the yt-dlp adapter. *)
Theorem primary_then_fallback (w : world) :
  audio_only = false -> truthy cookies = false ->
  (forall p w1, run_pytube w = (Ret p, w1) -> run_download w = (Ret p, w1))
  /\ (forall e1 w1 o2 w2,
         run_pytube w = (Raise e1, w1) ->
         is_cancelled e1 = false ->
         run_ytdlp (snd (_safe_write Stderr (MsgPytubeFailed (exn_str e1)) w1))
         = (o2, w2) ->
         match o2 with
         | Ret p => run_download w = (Ret p, w2)
         | Raise e2 =>
             is_cancelled e2 = false ->
             run_download w = (Raise (mk_exn DownloadError (exn_str e2)), w2)
         | Hang => run_download w = (Hang, w2)
         end).
Proof.
  intros Ha Hc. split.
  - intros p w1 H1. rewrite (primary_first w Ha Hc), H1. reflexivity.
  - intros e1 w1 o2 w2 H1 He1 H2.
    rewrite (primary_first w Ha Hc), H1, He1, H2.
    destruct o2 as [p|e2|]; try reflexivity.
    intros ->. reflexivity.
Qed.

Lemma orchestrate_cancelled (w : world) :
  (forall e w1,
      is_cancelled e = true ->
      (if audio_only || truthy cookies then run_ytdlp w else run_pytube w)
      = (Raise e, w1) ->
      run_download w = (Raise e, w1))
  /\ (forall e1 w1 e2 w2,
         audio_only || truthy cookies = false ->
         run_pytube w = (Raise e1, w1) ->
         is_cancelled e1 = false ->
         run_ytdlp (snd (_safe_write Stderr (MsgPytubeFailed (exn_str e1)) w1))
         = (Raise e2, w2) ->
         is_cancelled e2 = true ->
         run_download w = (Raise e2, w2))
  /\ (forall e w',
         run_download w = (Raise e, w') ->
         is_cancelled e = true \/ exn_cls e = DownloadError).
Proof.
  destruct (audio_only || truthy cookies) eqn:Hp.
  - assert (Hmode : audio_only = true \/ truthy cookies = true).
    { apply orb_true_iff, Hp. }
    pose proof (fallback_first w Hmode) as Hd.
    split; [|split].
    + intros e w1 He Hrun. rewrite Hd, Hrun, He. reflexivity.
    + intros; discriminate.
    + intros e w' Hr. rewrite Hd in Hr.
      destruct (run_ytdlp w) as [[p|e0|] w0]; try discriminate.
      destruct (is_cancelled e0) eqn:He0; injection Hr as <- <-; auto.
  - apply orb_false_iff in Hp as [Ha Hc].
    pose proof (primary_first w Ha Hc) as Hd.
    split; [|split].
    + intros e w1 He Hrun. rewrite Hd, Hrun, He. reflexivity.
    + intros e1 w1 e2 w2 _ H1 He1 H2 He2.
      rewrite Hd, H1, He1, H2, He2. reflexivity.
    + intros e w' Hr. rewrite Hd in Hr.
      destruct (run_pytube w) as [[p|e1|] w1]; try discriminate.
      destruct (is_cancelled e1) eqn:He1; [injection Hr as <- <-; auto|].
      destruct (run_ytdlp _) as [[p|e2|] w2]; try discriminate.
      destruct (is_cancelled e2) eqn:He2; injection Hr as <- <-; auto.
Qed.

End OrchestratorProperties.

Section AdapterRaises.

Context (E : Externals).
Context (url : string) (output_dir : Path) (filename : option string)
        (audio_only : bool) (resolution : option string)
        (cb : option ProgressCallback) (control : option DownloadControl).

(** An exception of the check before [ydl.download] comes out of the yt-dlp
    adapter, the temporary directory removed. *)
Lemma ytdlp_raises_in_check (cookies : option string)
  (w w4 w5 : world) (fs1 : gmap (list string) node)
  (tpl : string * option string) (opts : ydl_opts) (e : exn) :
  Fs.mkdirs [] (key E output_dir) (w_fs w) = Some fs1 ->
  _determine_template filename audio_only = Some tpl ->
  ytdlp_cookie_opts E output_dir cookies
    (ytdlp_base_opts E filename audio_only resolution
       (Fs.exists_ fs1 (key E (PurePath.child (module_dir E) "ffmpeg.exe"))) tpl)
    (gettempdir E +:+ "/" +:+ "yt-dlp-frag-" +:+ pretty (w_tmp w))
    (snd (mkdtemp E "yt-dlp-frag-" (set_fs fs1 w))) = (Ret opts, w4) ->
  with_control control raise_if_cancelled w4 = (Raise e, w5) ->
  _download_with_ytdlp E url output_dir filename audio_only resolution
                       cb control cookies w
  = (Raise e,
     set_fs (Fs.rmtree
               (key E (PurePath.of_string
                         (gettempdir E +:+ "/" +:+ "yt-dlp-frag-"
                          +:+ pretty (w_tmp w))))
               (w_fs w5)) w5).
Proof.
  intros Hmk Htpl Hopts Hcheck.
  rewrite download_with_ytdlp_parts.
  unfold bind at 1. unfold fs_mkdir_p. rewrite Hmk.
  unfold bind at 1. rewrite Htpl. unfold ret at 1.
  unfold bind at 1. unfold fs_exists at 1, get at 1. cbn [w_fs set_fs].
  unfold bind at 1. unfold with_TemporaryDirectory at 1.
  unfold bind at 1. unfold mkdtemp at 1.
  unfold mkdtemp in Hopts. cbn [snd w_tmp set_fs w_fs] in Hopts.
  cbn [w_tmp set_fs w_fs].
  unfold finally at 1. unfold ytdlp_session at 1.
  unfold bind at 1. rewrite Hopts.
  unfold bind at 1. rewrite Hcheck. reflexivity.
Qed.

(** An exception of the checks before [stream.download] comes out of the
    pytube adapter. *)
Lemma pytube_raises_in_check (w w2 w6 : world)
  (fs1 : gmap (list string) node) (streams : list Stream) (stream : Stream)
  (e : exn) :
  Fs.mkdirs [] (key E output_dir) (w_fs w) = Some fs1 ->
  with_control control raise_if_cancelled (set_fs fs1 w) = (Ret tt, w2) ->
  YouTube_streams E url = inr streams ->
  pytube_select streams audio_only resolution = inr stream ->
  with_control control (fun c => raise_if_cancelled c >> wait_if_paused c)
    (set_calls (w_calls w2 ++ [CallYouTube url]) w2) = (Raise e, w6) ->
  _download_with_pytube E url output_dir filename audio_only resolution
                        cb control w = (Raise e, w6).
Proof.
  intros Hmk Hcheck Hst Hsel Hwait.
  unfold _download_with_pytube.
  unfold bind at 1. unfold fs_mkdir_p. rewrite Hmk.
  unfold bind at 1. rewrite Hcheck. cbv zeta.
  unfold bind at 1. unfold pytube_streams, log_call.
  unfold bind at 1. unfold modify at 1. rewrite Hst. unfold ret at 1.
  unfold bind at 1. rewrite Hsel. unfold ret at 1.
  unfold bind at 1. rewrite Hwait. reflexivity.
Qed.

(** Whatever [stream.download] raises, the handler included, the pytube
    adapter raises. *)
Lemma pytube_raises_what_download_raises (w w2 w5 w6 : world)
  (fs1 : gmap (list string) node) (streams : list Stream) (stream : Stream)
  (e : exn) :
  Fs.mkdirs [] (key E output_dir) (w_fs w) = Some fs1 ->
  with_control control raise_if_cancelled (set_fs fs1 w) = (Ret tt, w2) ->
  YouTube_streams E url = inr streams ->
  pytube_select streams audio_only resolution = inr stream ->
  with_control control (fun c => raise_if_cancelled c >> wait_if_paused c)
    (set_calls (w_calls w2 ++ [CallYouTube url]) w2) = (Ret tt, w5) ->
  stream_download E stream (PurePath.to_string output_dir)
    (if truthy filename then default "" filename else default_filename stream)
    (_make_pytube_progress_handler cb control) w5 = (Raise e, w6) ->
  _download_with_pytube E url output_dir filename audio_only resolution
                        cb control w = (Raise e, w6).
Proof.
  intros Hmk Hcheck Hst Hsel Hwait Hd.
  unfold _download_with_pytube.
  unfold bind at 1. unfold fs_mkdir_p. rewrite Hmk.
  unfold bind at 1. rewrite Hcheck. cbv zeta.
  unfold bind at 1. unfold pytube_streams, log_call.
  unfold bind at 1. unfold modify at 1. rewrite Hst. unfold ret at 1.
  unfold bind at 1. rewrite Hsel. unfold ret at 1.
  unfold bind at 1. rewrite Hwait.
  unfold bind at 1. rewrite Hd. reflexivity.
Qed.

End AdapterRaises.

(** C3: a [DownloadCancelled] raised by the adapter that runs first, or by
    the yt-dlp adapter run after a failure of the pytube adapter, comes
    out of [download_video] as it is, in the world that the cancelled
    adapter leaves: no further adapter runs. Whatever else
    [download_video] raises is a [DownloadError], with the message of the
    adapter error.

    The adapters let it through. What the check before [ydl.download] or
    [ydl.download] itself raises, from the hook or from yt-dlp, the yt-dlp
    adapter raises as it is once the temporary directory is removed; when
    this adapter runs first, [download_video] raises the same if it is a
    [DownloadCancelled], and a [DownloadError] with its message if not.
    What the checks before [stream.download] or [stream.download] itself
    raises, from the progress handler or from pytube, the pytube adapter
    raises as it is; when it is a [DownloadCancelled], so does
    [download_video], which runs this adapter first in video mode without
    cookies.

    [download_video] raises [DownloadCancelled] when the control object is
    cancelled before it starts (into an output directory that can be made,
    and with cookies that need no file). *)
Theorem cancelled_propagates :
  forall (pytube : adapter) (ytdlp : adapter_with_cookies)
         url output_dir filename audio_only resolution progress_callback
         control cookies w,
    let run_pytube :=
      pytube url output_dir filename audio_only resolution progress_callback
             control in
    let run_ytdlp :=
      ytdlp url output_dir filename audio_only resolution progress_callback
            control cookies in
    let run_download :=
      download_video_with pytube ytdlp url output_dir filename audio_only
                          resolution progress_callback control cookies in
    (forall e w1,
        is_cancelled e = true ->
        (if audio_only || truthy cookies then run_ytdlp w else run_pytube w)
        = (Raise e, w1) ->
        run_download w = (Raise e, w1))
    /\ (forall e1 w1 e2 w2,
           audio_only || truthy cookies = false ->
           run_pytube w = (Raise e1, w1) ->
           is_cancelled e1 = false ->
           run_ytdlp (snd (_safe_write Stderr (MsgPytubeFailed (exn_str e1)) w1))
           = (Raise e2, w2) ->
           is_cancelled e2 = true ->
           run_download w = (Raise e2, w2))
    /\ (forall e w',
           run_download w = (Raise e, w') ->
           is_cancelled e = true \/ exn_cls e = DownloadError)
    /\ (forall E fs1 tpl opts w4 w5 e w6,
           let temp_dir :=
             gettempdir E +:+ "/" +:+ "yt-dlp-frag-" +:+ pretty (w_tmp w) in
           let cleaned :=
             set_fs (Fs.rmtree (key E (PurePath.of_string temp_dir)) (w_fs w6))
                    w6 in
           Fs.mkdirs [] (key E output_dir) (w_fs w) = Some fs1 ->
           _determine_template filename audio_only = Some tpl ->
           ytdlp_cookie_opts E output_dir cookies
             (ytdlp_base_opts E filename audio_only resolution
                (Fs.exists_ fs1
                   (key E (PurePath.child (module_dir E) "ffmpeg.exe"))) tpl)
             temp_dir (snd (mkdtemp E "yt-dlp-frag-" (set_fs fs1 w)))
           = (Ret opts, w4) ->
           (with_control control raise_if_cancelled w4 = (Raise e, w6)
            \/ (with_control control raise_if_cancelled w4 = (Ret tt, w5)
                /\ ydl_download E opts url (_hook E progress_callback control)
                                ∅ w5 = (Raise e, w6))) ->
           _download_with_ytdlp E url output_dir filename audio_only
                                resolution progress_callback control cookies w
           = (Raise e, cleaned)
           /\ (audio_only || truthy cookies = true ->
               download_video E url output_dir filename audio_only resolution
                              progress_callback control cookies w
               = (Raise (if is_cancelled e then e
                         else mk_exn DownloadError (exn_str e)), cleaned)))
    /\ (forall E fs1 streams stream w2 w5 e w6,
           Fs.mkdirs [] (key E output_dir) (w_fs w) = Some fs1 ->
           with_control control raise_if_cancelled (set_fs fs1 w)
           = (Ret tt, w2) ->
           YouTube_streams E url = inr streams ->
           pytube_select streams audio_only resolution = inr stream ->
           (with_control control
              (fun c => raise_if_cancelled c >> wait_if_paused c)
              (set_calls (w_calls w2 ++ [CallYouTube url]) w2) = (Raise e, w6)
            \/ (with_control control
                  (fun c => raise_if_cancelled c >> wait_if_paused c)
                  (set_calls (w_calls w2 ++ [CallYouTube url]) w2)
                = (Ret tt, w5)
                /\ stream_download E stream (PurePath.to_string output_dir)
                     (if truthy filename then default "" filename
                      else default_filename stream)
                     (_make_pytube_progress_handler progress_callback control)
                     w5 = (Raise e, w6))) ->
           _download_with_pytube E url output_dir filename audio_only
                                 resolution progress_callback control w
           = (Raise e, w6)
           /\ (audio_only || truthy cookies = false ->
               is_cancelled e = true ->
               download_video E url output_dir filename audio_only resolution
                              progress_callback control cookies w
               = (Raise e, w6)))
    /\ (forall E fs',
           Fs.mkdirs [] (key E output_dir) (w_fs w) = Some fs' ->
           Control.cancelled (w_ctl w) = true ->
           Str.contains "010" (Str.strip (default "" cookies))
           || Str.contains "009" (Str.strip (default "" cookies)) = false ->
           exists w',
             download_video E url output_dir filename audio_only resolution
                            progress_callback (Some worker_control) cookies w
             = (Raise (mk_exn DownloadCancelled ""), w')).
Proof.
  intros pytube ytdlp url output_dir filename audio_only resolution
         progress_callback control cookies w. cbv zeta.
  destruct (orchestrate_cancelled pytube ytdlp url output_dir filename
              audio_only resolution progress_callback control cookies w)
    as (H1 & H2 & H3).
  split; [exact H1|]. split; [exact H2|]. split; [exact H3|].
  split; [|split].
  - intros E fs1 tpl opts w4 w5 e w6 Hmk Htpl Hopts Hrun.
    assert (Ha : _download_with_ytdlp E url output_dir filename audio_only
                   resolution progress_callback control cookies w
                 = (Raise e,
                    set_fs (Fs.rmtree
                              (key E (PurePath.of_string
                                        (gettempdir E +:+ "/" +:+ "yt-dlp-frag-"
                                         +:+ pretty (w_tmp w))))
                              (w_fs w6)) w6)).
    { destruct Hrun as [Hcheck | [Hcheck Hd]].
      - apply (ytdlp_raises_in_check E url output_dir filename audio_only
                 resolution progress_callback control cookies w w4 w6 fs1 tpl
                 opts e Hmk Htpl Hopts Hcheck).
      - rewrite (ytdlp_runs_download E url output_dir filename audio_only
                   resolution progress_callback control cookies w w4 w5 fs1
                   tpl opts Hmk Htpl Hopts Hcheck).
        unfold bind, finally. rewrite Hd. reflexivity. }
    split; [exact Ha|].
    intros Hp. unfold download_video.
    rewrite (fallback_first (_download_with_pytube E) (_download_with_ytdlp E)
               url output_dir filename audio_only resolution progress_callback
               control cookies w
               ltac:(apply orb_true_iff in Hp; exact Hp)).
    rewrite Ha. destruct (is_cancelled e); reflexivity.
  - intros E fs1 streams stream w2 w5 e w6 Hmk Hcheck Hst Hsel Hrun.
    assert (Ha : _download_with_pytube E url output_dir filename audio_only
                   resolution progress_callback control w = (Raise e, w6)).
    { destruct Hrun as [Hwait | [Hwait Hd]].
      - apply (pytube_raises_in_check E url output_dir filename audio_only
                 resolution progress_callback control w w2 w6 fs1 streams
                 stream e Hmk Hcheck Hst Hsel Hwait).
      - apply (pytube_raises_what_download_raises E url output_dir filename
                 audio_only resolution progress_callback control w w2 w5 w6
                 fs1 streams stream e Hmk Hcheck Hst Hsel Hwait Hd). }
    split; [exact Ha|].
    intros Hp He. apply orb_false_iff in Hp as [Hao Hc]. unfold download_video.
    rewrite (primary_first (_download_with_pytube E) (_download_with_ytdlp E)
               url output_dir filename audio_only resolution progress_callback
               control cookies w Hao Hc).
    rewrite Ha, He. reflexivity.
  - intros E fs' Hmk Hc Hsep. unfold download_video.
    destruct (audio_only || truthy cookies) eqn:Hp.
    + destruct (ytdlp_cancelled_at_start E url output_dir filename audio_only
                  resolution progress_callback cookies w fs' Hmk Hc Hsep)
        as (w' & Hrun).
      exists w'.
      apply (proj1 (orchestrate_cancelled (_download_with_pytube E)
                      (_download_with_ytdlp E) url output_dir filename
                      audio_only resolution progress_callback
                      (Some worker_control) cookies w));
        [reflexivity|rewrite Hp; exact Hrun].
    + destruct (pytube_cancelled_at_start E url output_dir filename audio_only
                  resolution progress_callback w fs' Hmk Hc)
        as (w' & Hrun & _).
      exists w'.
      apply (proj1 (orchestrate_cancelled (_download_with_pytube E)
                      (_download_with_ytdlp E) url output_dir filename
                      audio_only resolution progress_callback
                      (Some worker_control) cookies w));
        [reflexivity|rewrite Hp; exact Hrun].
Qed.

Lemma fallback_only_witness :
  download_video Demo.failing "u" Demo.out None true None (Some sink)
                 (Some worker_control) None Demo.world0
  = (Raise (mk_exn DownloadError "Video unavailable"),
     snd (_download_with_ytdlp Demo.failing "u" Demo.out None true None
            (Some sink) (Some worker_control) None Demo.world0)).
Proof.
  apply (proj1 (proj2 (fallback_only_for_audio_or_cookies
                         (_download_with_pytube Demo.failing)
                         (_download_with_ytdlp Demo.failing)
                         "u" Demo.out None true None (Some sink)
                         (Some worker_control) None Demo.world0
                         (or_introl eq_refl)))
           Demo.unavailable).
  - vm_compute. reflexivity.
  - reflexivity.
Defined.

Lemma primary_then_fallback_witness :
  download_video Demo.failing "u" Demo.out None false None (Some sink)
                 (Some worker_control) None Demo.world0
  = (Raise (mk_exn DownloadError "Video unavailable"),
     snd (download_video Demo.failing "u" Demo.out None false None (Some sink)
            (Some worker_control) None Demo.world0)).
Proof.
  refine (proj2 (primary_then_fallback
                   (_download_with_pytube Demo.failing)
                   (_download_with_ytdlp Demo.failing)
                   "u" Demo.out None false None (Some sink) (Some worker_control)
                   None Demo.world0 eq_refl eq_refl)
            (mk_exn (OtherException "pytube.exceptions.VideoUnavailable")
                    "unavailable in pytube")
            _ (Raise Demo.unavailable) _ _ eq_refl _ eq_refl).
  - vm_compute. reflexivity.
  - vm_compute. reflexivity.
Defined.

(** The control object is cancelled before the download starts, while
    yt-dlp calls the hook, and while pytube calls the progress handler. *)
Lemma cancelled_propagates_witness :
  download_video Demo.failing "u" Demo.out None false None (Some sink)
                 (Some worker_control) None
                 (set_ctl (Control.cancel Control.init) [] Demo.world0)
  = (Raise (mk_exn DownloadCancelled ""),
     snd (_download_with_pytube Demo.failing "u" Demo.out None false None
            (Some sink) (Some worker_control)
            (set_ctl (Control.cancel Control.init) [] Demo.world0)))
  /\ download_video Demo2.ok "u" Demo.out None true None (Some sink)
                    (Some worker_control) None cancelled_later
     = (Raise (mk_exn DownloadCancelled ""),
        snd (_download_with_ytdlp Demo2.ok "u" Demo.out None true None
               (Some sink) (Some worker_control) None cancelled_later))
  /\ download_video Demo2.ok "u" Demo.out None false None (Some sink)
                    (Some worker_control) None cancelled_in_handler
     = (Raise (mk_exn DownloadCancelled ""),
        snd (_download_with_pytube Demo2.ok "u" Demo.out None false None
               (Some sink) (Some worker_control) cancelled_in_handler)).
Proof.
  split; [|split].
  - apply (proj1 (cancelled_propagates
                    (_download_with_pytube Demo.failing)
                    (_download_with_ytdlp Demo.failing)
                    "u" Demo.out None false None (Some sink)
                    (Some worker_control) None
                    (set_ctl (Control.cancel Control.init) [] Demo.world0))).
    + reflexivity.
    + vm_compute. reflexivity.
  - pose (fs1 := <[["out"] := Dir]> (∅ : gmap (list string) node)).
    pose (tpl := ("%(title)s.%(ext)s", Some "mp3")).
    pose (opts := opts_with_paths "/out" "/tmp/yt-dlp-frag-0"
                    (ytdlp_base_opts Demo2.ok None true None false tpl)).
    pose (w4 := snd (mkdtemp Demo2.ok "yt-dlp-frag-"
                       (set_fs fs1 cancelled_later))).
    pose (w5 := snd (WorkerControl_raise_if_cancelled w4)).
    pose (w6 := snd (ydl_download Demo2.ok opts "u"
                       (_hook Demo2.ok (Some sink) (Some worker_control))
                       ∅ w5)).
    destruct (proj1 (proj2 (proj2 (proj2
                (cancelled_propagates
                   (_download_with_pytube Demo2.ok)
                   (_download_with_ytdlp Demo2.ok)
                   "u" Demo.out None true None (Some sink)
                   (Some worker_control) None cancelled_later))))
                Demo2.ok fs1 tpl opts w4 w5 (mk_exn DownloadCancelled "") w6)
      as [_ Hd].
    + vm_compute. reflexivity.
    + vm_compute. reflexivity.
    + vm_compute. reflexivity.
    + right. split; vm_compute; reflexivity.
    + etransitivity; [exact (Hd eq_refl)|]. vm_compute. reflexivity.
  - pose (fs1 := <[["out"] := Dir]> (∅ : gmap (list string) node)).
    pose (stream := Demo.stream 37 "1080p" 4096).
    pose (w2 := snd (WorkerControl_raise_if_cancelled
                       (set_fs fs1 cancelled_in_handler))).
    pose (w5 := snd ((WorkerControl_raise_if_cancelled
                      >> WorkerControl_wait_if_paused)
                       (set_calls (w_calls w2 ++ [CallYouTube "u"]) w2))).
    pose (w6 := snd (stream_download Demo2.ok stream "/out" "video.mp4"
                       (_make_pytube_progress_handler (Some sink)
                          (Some worker_control)) w5)).
    destruct (proj1 (proj2 (proj2 (proj2 (proj2
                (cancelled_propagates
                   (_download_with_pytube Demo2.ok)
                   (_download_with_ytdlp Demo2.ok)
                   "u" Demo.out None false None (Some sink)
                   (Some worker_control) None cancelled_in_handler)))))
                Demo2.ok fs1 Demo.streams stream w2 w5
                (mk_exn DownloadCancelled "") w6)
      as [_ Hd].
    + vm_compute. reflexivity.
    + vm_compute. reflexivity.
    + reflexivity.
    + vm_compute. reflexivity.
    + right. split; vm_compute; reflexivity.
    + etransitivity; [exact (Hd eq_refl eq_refl)|]. vm_compute. reflexivity.
Defined.

(* ===================================================================== *)
(** * Further properties *)
(* ===================================================================== *)

(** ** Resolution labels *)

Lemma digit_char (d : N) :
  (d < 10)%N ->
  StreamQuery.is_digit (pretty_N_char d) = true
  /\ N.of_nat (nat_of_ascii (pretty_N_char d) - 48) = d.
Proof.
  intros Hd.
  assert (d = 0 \/ d = 1 \/ d = 2 \/ d = 3 \/ d = 4 \/ d = 5 \/ d = 6 \/ d = 7
          \/ d = 8 \/ d = 9)%N as Hc by lia.
  repeat destruct Hc as [-> | Hc]; try subst d; split; reflexivity.
Qed.

Lemma leading_digits_pretty_go (x : N) :
  forall s, (0 < x)%N ->
            leading_digits (pretty_N_go x s) None = leading_digits s (Some x).
Proof.
  induction (N.lt_wf_0 x) as [x _ IH]. intros s Hx.
  rewrite pretty_N_go_step by exact Hx.
  destruct (digit_char (x `mod` 10)) as [Hd Hv]; [apply N.mod_lt; lia|].
  assert (Hdm : x = (x `div` 10 * 10 + x `mod` 10)%N).
  { rewrite N.mul_comm. apply N.div_mod. lia. }
  destruct (decide (x `div` 10 = 0)%N) as [H0 | H0].
  - rewrite H0, pretty_N_go_0. cbn [leading_digits]. rewrite Hd, Hv.
    unfold default; cbn [from_option id]. rewrite H0 in Hdm. rewrite Hdm at 2. reflexivity.
  - rewrite IH; [|apply N.div_lt; [exact Hx|reflexivity]|apply N.neq_0_lt_0; exact H0].
    cbn [leading_digits]. rewrite Hd, Hv. unfold default; cbn [from_option id].
    rewrite <- Hdm. reflexivity.
Qed.

Lemma pretty_go_app (x : N) :
  forall s t, pretty_N_go x s +:+ t = pretty_N_go x (s +:+ t).
Proof.
  induction (N.lt_wf_0 x) as [x _ IH]. intros s t.
  destruct (decide (x = 0)%N) as [-> | Hx].
  - rewrite !pretty_N_go_0. reflexivity.
  - apply N.neq_0_lt_0 in Hx.
    rewrite (pretty_N_go_step x s), (pretty_N_go_step x (s +:+ t)) by exact Hx.
    rewrite IH; [|apply N.div_lt; [exact Hx|reflexivity]].
    rewrite append_cons. reflexivity.
Qed.

Lemma pretty_go_head (x : N) :
  forall s, (0 < x)%N ->
            exists c r, pretty_N_go x s = String c r /\ StreamQuery.is_digit c = true.
Proof.
  induction (N.lt_wf_0 x) as [x _ IH]. intros s Hx.
  rewrite pretty_N_go_step by exact Hx.
  destruct (decide (x `div` 10 = 0)%N) as [H0 | H0].
  - rewrite H0, pretty_N_go_0. eexists _, _. split; [reflexivity|].
    apply digit_char, N.mod_lt. discriminate.
  - apply IH; [apply N.div_lt; [exact Hx|reflexivity]|apply N.neq_0_lt_0; exact H0].
Qed.

Lemma digit_not_space (c : ascii) :
  StreamQuery.is_digit c = true -> Str.isspace c = false.
Proof.
  destruct c as [[] [] [] [] [] [] [] []]; intros H; try reflexivity;
    discriminate H.
Qed.

Lemma rstrip_keeps (s : string) (c : ascii) :
  Str.isspace c = false -> Str.rstrip (s +:+ String c "") = s +:+ String c "".
Proof.
  intros Hc. induction s as [|a s IH].
  - rewrite append_nil. cbn [Str.rstrip]. rewrite Hc. reflexivity.
  - rewrite append_cons. cbn [Str.rstrip]. rewrite IH.
    destruct s; [rewrite append_nil|rewrite append_cons]; reflexivity.
Qed.

Lemma parse_resolution_pretty_go (x : N) :
  (0 < x)%N -> _parse_resolution (pretty_N_go x "" +:+ "p") = Some x.
Proof.
  intros Hx. unfold _parse_resolution, Str.strip.
  destruct (pretty_go_head x "" Hx) as (c & r & Hr & Hc).
  assert (Hl : Str.lstrip (pretty_N_go x "" +:+ "p") = pretty_N_go x "" +:+ "p").
  { rewrite Hr, append_cons. cbn [Str.lstrip].
    rewrite (digit_not_space c Hc). reflexivity. }
  rewrite Hl, rstrip_keeps by reflexivity.
  rewrite pretty_go_app, append_nil, leading_digits_pretty_go by exact Hx.
  reflexivity.
Qed.

(** X1: [_parse_resolution] reads the height back from a label: for every
    natural number [n], the label made of the decimal digits of [n]
    followed by [p] is parsed to [n]. *)
Theorem parse_resolution_round_trip (n : N) :
  _parse_resolution (pretty n +:+ "p") = Some n.
Proof.
  unfold pretty, pretty_N. destruct (decide (n = 0)%N) as [-> | Hn].
  - reflexivity.
  - apply parse_resolution_pretty_go, N.neq_0_lt_0, Hn.
Qed.

(** ** Pause and resume *)

Lemma do_steps_resume_keep (b : list Control.step) :
  forall c, ~ In Control.ResumeClear b -> _resume_event c = true ->
            _resume_event (Control.do_steps b c) = true.
Proof.
  unfold Control.do_steps.
  induction b as [|s b IH]; intros c Hb Hc; simpl; [exact Hc|].
  apply IH.
  - intros Hin. apply Hb. right. exact Hin.
  - destruct s; simpl; auto. exfalso. apply Hb. left. reflexivity.
Qed.

Lemma wait_loop_post (n : nat) :
  forall (w w' : world) (o : outcome unit),
    while n wait_cond wait_body w = (o, w') ->
    match o with
    | Ret _ => _resume_event (w_ctl w') = true
    | Raise e => e = mk_exn DownloadCancelled ""
                 /\ _cancel_event (w_ctl w') = true
    | Hang => True
    end.
Proof.
  induction n as [|n IH]; intros w w' o.
  - simpl. unfold_m. intros [= <- <-]. exact I.
  - simpl. unfold wait_cond at 1, wait_body at 1,
      WorkerControl_raise_if_cancelled, observe, sleep. unfold_m.
    destruct (w_sched w) as [|b0 rest] eqn:Hs; simpl.
    + destruct (_resume_event (w_ctl w)) eqn:Hr; simpl.
      { intros [= <- <-]. exact Hr. }
      rewrite Hs.
      destruct (_cancel_event (w_ctl w)) eqn:Hc; simpl.
      { intros [= <- <-]. auto. }
      apply IH.
    + destruct (_resume_event (Control.do_steps b0 (w_ctl w))) eqn:Hr; simpl.
      { intros [= <- <-]. exact Hr. }
      destruct rest as [|b1 rest]; simpl.
      * destruct (_cancel_event (Control.do_steps b0 (w_ctl w))) eqn:Hc; simpl.
        { intros [= <- <-]. auto. }
        apply IH.
      * destruct (_cancel_event
                    (Control.do_steps b1 (Control.do_steps b0 (w_ctl w))))
          eqn:Hc; simpl.
        { intros [= <- <-]. auto. }
        apply IH.
Qed.

(** X2: what [wait_if_paused] leaves behind. When it returns, the object
    is not paused at that moment; the only exception that it raises is
    [DownloadCancelled], and then the cancel event is set; and when it never
    returns, the object is paused, not cancelled, and the controlling thread
    takes no further step. *)
Theorem wait_if_paused_postcondition (w w' : world) (o : outcome unit) :
  WorkerControl_wait_if_paused w = (o, w') ->
  match o with
  | Ret _ => Control.is_paused (w_ctl w') = false
  | Raise e => e = mk_exn DownloadCancelled ""
               /\ Control.cancelled (w_ctl w') = true
  | Hang => w_sched w' = [] /\ Control.is_paused (w_ctl w') = true
            /\ Control.cancelled (w_ctl w') = false
  end.
Proof.
  intros H. destruct o as [[]|e|].
  - unfold Control.is_paused.
    rewrite (wait_loop_post _ _ _ _ H). reflexivity.
  - exact (wait_loop_post _ _ _ _ H).
  - destruct (wait_hang_is_blocked _ _ H) as (Hs & Hr & Hc).
    unfold Control.is_paused, Control.cancelled. rewrite Hr. auto.
Qed.

Lemma wait_if_paused_postcondition_witness :
  exists w', WorkerControl_wait_if_paused resumed_world = (Ret tt, w')
             /\ Control.is_paused (w_ctl w') = false.
Proof.
  eexists. split; [reflexivity|].
  exact (wait_if_paused_postcondition resumed_world _ (Ret tt) eq_refl).
Defined.

Lemma wait_loop_resumes (n : nat) :
  forall (w : world) (pre : list (list Control.step)) ss post,
    w_sched w = pre ++ ss :: post ->
    (forall c, _resume_event (Control.do_steps ss c) = true) ->
    Forall (fun b => ~ In Control.ResumeClear b) post ->
    length pre + 1 < n ->
    exists r w', while n wait_cond wait_body w = (r, w')
                 /\ (r = Ret tt \/ r = Raise (mk_exn DownloadCancelled ""))
                 /\ 2 * (w_clock w' - w_clock w) <= length pre + 1
                 /\ (pre = [] -> r = Ret tt /\ w_clock w' = w_clock w).
Proof.
  induction n as [n IH] using lt_wf_ind.
  intros w pre ss post Hs Hss Hpost Hn.
  destruct n as [|n]; [lia|].
  destruct pre as [|b0 pre].
  - simpl in Hs. simpl. unfold wait_cond at 1, observe at 1. unfold_m.
    rewrite Hs. simpl. rewrite Hss. simpl.
    eexists _, _. split; [reflexivity|]. split; [auto|].
    split; [simpl; lia|auto].
  - simpl in Hs. simpl. unfold wait_cond at 1, observe at 1. unfold_m.
    rewrite Hs. simpl.
    set (c := Control.do_steps b0 (w_ctl w)).
    destruct (_resume_event c) eqn:Hr; simpl.
    + eexists _, _. split; [reflexivity|]. split; [auto|].
      split; [simpl; lia|discriminate].
    + unfold wait_body at 1, WorkerControl_raise_if_cancelled at 1,
        observe at 1, sleep at 1. unfold_m. simpl.
      destruct pre as [|b1 pre]; simpl.
      * destruct (_cancel_event (Control.do_steps ss c)) eqn:Hc; simpl.
        { eexists _, _. split; [reflexivity|]. split; [auto|].
          split; [simpl; lia|discriminate]. }
        simpl in Hn. destruct n as [|n]; [lia|].
        simpl. unfold wait_cond at 1, observe at 1. unfold_m. simpl.
        destruct post as [|b post]; simpl.
        { rewrite Hss. simpl. eexists _, _. split; [reflexivity|].
          split; [auto|]. split; [simpl; lia|discriminate]. }
        rewrite do_steps_resume_keep;
          [|exact (Forall_inv Hpost)|apply Hss].
        simpl. eexists _, _. split; [reflexivity|].
        split; [auto|]. split; [simpl; lia|discriminate].
      * destruct (_cancel_event (Control.do_steps b1 c)) eqn:Hc.
        { eexists _, _. split; [reflexivity|]. split; [auto|].
          split; [simpl; lia|discriminate]. }
        simpl in Hn.
        match goal with
        | |- context [while n wait_cond wait_body ?w1] =>
            destruct (IH n (Nat.lt_succ_diag_r n) w1 pre ss post)
              as (r & w' & Hw & Hres & Hk & _);
              [reflexivity|exact Hss|exact Hpost|lia|]
        end.
        exists r, w'. split; [exact Hw|]. split; [exact Hres|].
        split; [|discriminate]. simpl in Hk. simpl. lia.
Qed.

(** X3: a [resume] ends the wait. When the controlling thread sets the
    resume event before read number [length pre] of the loop and does not
    clear it afterwards, [wait_if_paused] ends, by returning or by raising
    [DownloadCancelled], after at most [(length pre + 1) / 2] sleeps; and when
    the resume event is set at the first read, it returns at once, without
    sleeping and without looking at the cancel event. *)
Theorem wait_if_paused_ends_on_resume (w : world) pre ss post :
  w_sched w = pre ++ ss :: post ->
  (forall c, Control.is_paused (Control.do_steps ss c) = false) ->
  Forall (fun b => ~ In Control.ResumeClear b) post ->
  exists r w', WorkerControl_wait_if_paused w = (r, w')
               /\ (r = Ret tt \/ r = Raise (mk_exn DownloadCancelled ""))
               /\ 2 * (w_clock w' - w_clock w) <= length pre + 1
               /\ (pre = [] -> r = Ret tt /\ w_clock w' = w_clock w).
Proof.
  intros Hs Hss Hpost.
  unfold WorkerControl_wait_if_paused. fold wait_cond. fold wait_body.
  apply (wait_loop_resumes _ w pre ss post Hs); [|exact Hpost|].
  - intros c. specialize (Hss c). unfold Control.is_paused in Hss.
    destruct (_resume_event (Control.do_steps ss c)); [reflexivity|discriminate].
  - rewrite Hs, length_app. simpl. lia.
Qed.

Lemma wait_if_paused_ends_on_resume_witness :
  exists r w', WorkerControl_wait_if_paused resumed_world = (r, w')
               /\ (r = Ret tt \/ r = Raise (mk_exn DownloadCancelled ""))
               /\ 2 * (w_clock w' - w_clock resumed_world) <= 1 + 1
               /\ ([[]] = @nil (list Control.step) -> r = Ret tt
                                /\ w_clock w' = w_clock resumed_world).
Proof.
  apply (wait_if_paused_ends_on_resume resumed_world [[]]
           (Control.steps_of Control.Resume) [[]]).
  - reflexivity.
  - intros c. reflexivity.
  - repeat constructor. simpl. tauto.
Defined.

(** ** Percentages *)

Lemma percent_of_value (d t : Z) :
  (0 < t)%Z -> (percent_of d t == (100 * d) # Z.to_pos t)%Q.
Proof.
  intros Ht. unfold percent_of. rewrite Qred_correct.
  destruct t as [|p|p]; try lia.
  unfold Qeq, Qdiv, Qmult, Qinv, inject_Z. simpl. lia.
Qed.

Lemma percent_of_bounds (d t : Z) :
  (0 <= d <= t)%Z -> (0 < t)%Z ->
  (0 <= percent_of d t)%Q /\ (percent_of d t <= 100)%Q.
Proof.
  intros Hd Ht. rewrite (percent_of_value d t Ht).
  destruct t as [|p|p]; try lia.
  unfold Qle. simpl. lia.
Qed.

Lemma percent_of_mono (d1 d2 t : Z) :
  (d1 <= d2)%Z -> (0 < t)%Z -> (percent_of d1 t <= percent_of d2 t)%Q.
Proof.
  intros Hd Ht. rewrite (percent_of_value d1 t Ht), (percent_of_value d2 t Ht).
  destruct t as [|p|p]; try lia.
  unfold Qle. simpl. nia.
Qed.

Lemma percent_of_full (t : Z) : (0 < t)%Z -> percent_of t t = 100%Q.
Proof.
  intros Ht. unfold percent_of.
  transitivity (Qred 100); [apply Qred_complete|reflexivity].
  destruct t as [|p|p]; try lia.
  unfold Qeq, Qdiv, Qmult, Qinv, inject_Z. simpl. lia.
Qed.

Lemma percent_of_zero (t : Z) : percent_of 0 t = 0%Q.
Proof.
  unfold percent_of.
  transitivity (Qred 0); [apply Qred_complete|reflexivity].
  unfold Qeq, Qdiv, Qmult, Qinv, inject_Z. simpl. lia.
Qed.

(** X4: the handler that the pytube adapter registers for a progress
    callback, without control object. The size is [filesize], or
    [filesize_approx] when [filesize] is [0]; with [bytes_remaining] between
    [0] and that size, the callback is called once, with the percentage
    [(size - bytes_remaining) / size * 100], which lies between [0] and [100],
    is [100] when nothing remains and [0] when everything remains; when both
    sizes are [0] the callback gets [None] and nothing is divided. *)
Theorem pytube_handler_percent (cb : ProgressCallback)
  (stream : Stream) (bytes_remaining : Z) (w : world) :
  let total := if (filesize stream =? 0)%Z then filesize_approx stream
               else filesize stream in
  (0 <= bytes_remaining <= total)%Z ->
  exists percent,
    _make_pytube_progress_handler (Some cb) None stream bytes_remaining w
    = cb percent "" w
    /\ match percent with
       | None => filesize stream = 0%Z /\ filesize_approx stream = 0%Z
       | Some q =>
           (0 < total)%Z
           /\ q = percent_of (total - bytes_remaining) total
           /\ (0 <= q)%Q /\ (q <= 100)%Q
           /\ (bytes_remaining = 0%Z -> q = 100%Q)
           /\ (bytes_remaining = total -> q = 0%Q)
       end.
Proof.
  intros total Hr.
  unfold _make_pytube_progress_handler. unfold_m. cbn beta iota.
  fold total.
  replace (if negb (filesize stream =? 0)%Z then filesize stream
           else filesize_approx stream) with total
    by (unfold total; destruct (filesize stream =? 0)%Z; reflexivity).
  destruct (total =? 0)%Z eqn:Ht; cbn [negb].
  - exists None. split; [reflexivity|].
    apply Z.eqb_eq in Ht. unfold total in Ht.
    destruct (filesize stream =? 0)%Z eqn:Hf.
    + apply Z.eqb_eq in Hf. auto.
    + apply Z.eqb_neq in Hf. contradiction.
  - apply Z.eqb_neq in Ht. assert (Hpos : (0 < total)%Z) by lia.
    exists (Some (percent_of (total - bytes_remaining) total)).
    split; [reflexivity|]. split; [exact Hpos|]. split; [reflexivity|].
    destruct (percent_of_bounds (total - bytes_remaining) total) as [H0 H100];
      [lia|exact Hpos|].
    split; [exact H0|]. split; [exact H100|]. split.
    + intros ->. rewrite Z.sub_0_r. apply percent_of_full, Hpos.
    + intros ->. rewrite Z.sub_diag. apply percent_of_zero.
Qed.

Lemma pytube_handler_percent_witness :
  exists percent,
    _make_pytube_progress_handler (Some sink) None
      (Demo.stream 22 "720p" 1024) 256 Demo.world0
    = sink percent "" Demo.world0
    /\ match percent with
       | None => True
       | Some q => (0 <= q)%Q /\ (q <= 100)%Q
       end.
Proof.
  destruct (pytube_handler_percent sink (Demo.stream 22 "720p" 1024) 256
              Demo.world0 ltac:(simpl; lia)) as (percent & Hrun & Hp).
  exists percent. split; [exact Hrun|].
  destruct percent as [q|]; [|exact I].
  destruct Hp as (_ & _ & H0 & H100 & _). split; assumption.
Defined.

(** X5: the hook of the yt-dlp adapter on a [downloading] event, with a
    progress callback and without control object. A missing key counts as
    [0]; the total is [total_bytes], or [total_bytes_estimate] when that is
    missing or [0]. The callback is called once: with [None] when the total
    is [0], so that nothing is divided by zero, and otherwise with
    [downloaded / total * 100], which lies between [0] and [100] when
    [downloaded] lies between [0] and the total. The dictionary
    [download_info] stays as it is. *)
Theorem hook_downloading_percent (E : Externals) (cb : ProgressCallback)
  (st : gmap string pyval) (info : gmap string Path) (w : world)
  (downloaded total_bytes total_bytes_estimate : Z) :
  dict_get st "status" = PyStr "downloading" ->
  int_or_zero (dict_get st "downloaded_bytes") = Some downloaded ->
  int_or_zero (dict_get st "total_bytes") = Some total_bytes ->
  int_or_zero (dict_get st "total_bytes_estimate") = Some total_bytes_estimate ->
  let total := if (total_bytes =? 0)%Z then total_bytes_estimate
               else total_bytes in
  exists percent,
    _hook E (Some cb) None st info w = (cb percent "" >> ret info) w
    /\ match percent with
       | None => total = 0%Z
       | Some q =>
           total <> 0%Z /\ q = percent_of downloaded total
           /\ ((0 <= downloaded <= total)%Z -> (0 <= q)%Q /\ (q <= 100)%Q)
       end.
Proof.
  intros Hst Hd Htb Hte total.
  exists (if (total =? 0)%Z then None else Some (percent_of downloaded total)).
  split.
  - unfold _hook. rewrite Hst.
    change (bool_decide (PyStr "downloading" = PyStr "downloading")) with true.
    cbv beta iota zeta. unfold with_control, py_or, total.
    destruct (dict_get st "downloaded_bytes") as [|?|d'];
      simpl in Hd; [|discriminate Hd|]; injection Hd as <-;
      (destruct (dict_get st "total_bytes") as [|?|tb'];
       simpl in Htb; [|discriminate Htb|]; injection Htb as <-);
      (destruct (dict_get st "total_bytes_estimate") as [|?|te'];
       simpl in Hte; [|discriminate Hte|]; injection Hte as <-);
      cbn [py_truthy Z.eqb negb];
      repeat match goal with
             | |- context [(?z =? 0)%Z] =>
                 is_var z; let H := fresh "Hz" in
                           destruct (z =? 0)%Z eqn:H;
                           [apply Z.eqb_eq in H; subst z|]
             end;
      repeat (cbn [py_truthy Z.eqb negb];
              match goal with
              | H : (_ =? 0)%Z = false |- _ => rewrite H
              end);
      cbn [py_truthy Z.eqb negb]; reflexivity.
  - destruct (total =? 0)%Z eqn:Ht.
    + apply Z.eqb_eq, Ht.
    + apply Z.eqb_neq in Ht. split; [exact Ht|]. split; [reflexivity|].
      intros Hb. apply percent_of_bounds; lia.
Qed.

Lemma hook_downloading_percent_witness :
  exists percent,
    _hook Demo2.ok (Some sink) None estimated_status ∅ Demo.world0
    = (sink percent "" >> ret ∅) Demo.world0
    /\ match percent with
       | None => False
       | Some q => q = percent_of 50 200
       end.
Proof.
  destruct (hook_downloading_percent Demo2.ok sink estimated_status ∅
              Demo.world0 50 0 200 eq_refl eq_refl eq_refl eq_refl)
    as (percent & Hrun & Hp).
  exists percent. split; [exact Hrun|].
  destruct percent as [q|].
  - destruct Hp as (_ & Hq & _). exact Hq.
  - discriminate Hp.
Defined.

(** X6: without a progress callback the pytube adapter reports to the
    console with [_progress_callback], which divides by [stream.filesize].
    For a selected stream whose [filesize] is [0], the first chunk makes the
    adapter raise [ZeroDivisionError], nothing having been printed; in video
    mode without cookies [download_video] then notes the failure on the
    console and goes on with the yt-dlp adapter. *)
Theorem console_handler_zero_size (E : Externals) (url : string)
  (output_dir : Path) (filename : option string) (resolution : option string)
  (streams : list Stream) (stream : Stream) (w w0 : world) :
  fs_mkdir_p (key E output_dir) w = (Ret tt, w0) ->
  YouTube_streams E url = inr streams ->
  pytube_select streams false resolution = inr stream ->
  filesize stream = 0%Z ->
  pr_chunks (Stream_download E stream (PurePath.to_string output_dir)
               (if truthy filename then default "" filename
                else default_filename stream)) <> [] ->
  exists w1,
    _download_with_pytube E url output_dir filename false resolution None None w
    = (Raise (mk_exn ZeroDivisionError "division by zero"), w1)
    /\ w_console w1 = w_console w
    /\ download_video E url output_dir filename false resolution None None None w
       = match _download_with_ytdlp E url output_dir filename false resolution
                 None None None
                 (snd (_safe_write Stderr (MsgPytubeFailed "division by zero")
                         w1)) with
         | (Raise e, w2) =>
             if is_cancelled e then (Raise e, w2)
             else (Raise (mk_exn DownloadError (exn_str e)), w2)
         | r => r
         end.
Proof.
  intros Hmk Hst Hsel Hsize Hchunks.
  assert (Hrun : exists w1,
             _download_with_pytube E url output_dir filename false resolution
                                   None None w
             = (Raise (mk_exn ZeroDivisionError "division by zero"), w1)
             /\ w_console w1 = w_console w).
  { unfold _download_with_pytube, pytube_streams, stream_download, log_call.
    unfold_m. rewrite Hmk, Hst. cbn beta iota zeta. rewrite Hsel.
    cbn beta iota zeta.
    destruct (pr_chunks _) as [|r rest]; [contradiction|].
    cbn [for_each]. unfold bind, _make_pytube_progress_handler,
      _progress_callback, raise. rewrite Hsize. cbn [Z.eqb].
    eexists. split; [reflexivity|]. cbn [w_console set_calls].
    unfold fs_mkdir_p in Hmk. destruct (Fs.mkdirs _ _ _); [|discriminate].
    injection Hmk as <-. reflexivity. }
  destruct Hrun as (w1 & Hrun & Hcon). exists w1.
  split; [exact Hrun|]. split; [exact Hcon|].
  unfold download_video.
  rewrite (primary_first _ _ url output_dir filename false resolution None None
             None w eq_refl eq_refl).
  rewrite Hrun. reflexivity.
Qed.

Lemma console_handler_zero_size_witness :
  exists w1,
    _download_with_pytube unknown_size "u" Demo.out None false None None None
                          Demo.world0
    = (Raise (mk_exn ZeroDivisionError "division by zero"), w1).
Proof.
  destruct (console_handler_zero_size unknown_size "u" Demo.out None None
              [Demo.stream 18 "360p" 0] (Demo.stream 18 "360p" 0)
              Demo.world0 _ eq_refl eq_refl eq_refl eq_refl
              ltac:(discriminate)) as (w1 & Hrun & _).
  exists w1. exact Hrun.
Defined.

(** ** The options of the call into yt-dlp *)

Section CallOptions.

Context (E : Externals).

Lemma cookie_opts_from (output_dir : Path) (cookies : option string)
  (base : ydl_opts) (temp_dir : string) (w w1 : world) (opts : ydl_opts) :
  ytdlp_cookie_opts E output_dir cookies base temp_dir w = (Ret opts, w1) ->
  options_from base (PurePath.to_string output_dir) temp_dir opts.
Proof.
  unfold ytdlp_cookie_opts. cbv zeta.
  destruct (truthy cookies).
  - destruct (Str.contains "010" _ || Str.contains "009" _).
    + intros H. apply bind_ret_inv in H as (u & w2 & _ & H).
      injection H as <- _. repeat split.
    + intros [= <- _]. repeat split.
  - intros [= <- _]. repeat split.
Qed.

Lemma session_call_opts (url : string) (output_dir : Path)
  (cb : option ProgressCallback) (control : option DownloadControl)
  (cookies : option string) (base : ydl_opts) (temp_dir : string)
  (w w' : world) (o : outcome (gmap string Path)) :
  control_local control -> callback_local cb ->
  ytdlp_session E url output_dir cb control cookies base temp_dir w = (o, w') ->
  exists new,
    w_calls w' = w_calls w ++ new
    /\ length new <= 1
    /\ forall c, In c new ->
                 exists opts jar,
                   c = CallYdlDownload opts url jar
                   /\ options_from base (PurePath.to_string output_dir)
                                   temp_dir opts.
Proof.
  intros Hctl Hcb H.
  assert (Hfs : forall f w, w_calls (set_fs f w) = w_calls w) by reflexivity.
  assert (Hskip : w_calls w' = w_calls w ->
                  exists new,
                    w_calls w' = w_calls w ++ new
                    /\ length new <= 1
                    /\ forall c, In c new ->
                                 exists opts jar,
                                   c = CallYdlDownload opts url jar
                                   /\ options_from base
                                        (PurePath.to_string output_dir)
                                        temp_dir opts).
  { intros ->. exists []. rewrite app_nil_r. split; [reflexivity|].
    split; [simpl; lia|]. intros c []. }
  unfold ytdlp_session in H.
  pose proof (cookie_opts_preserves E w_calls Hfs output_dir cookies base temp_dir)
    as Hco.
  assert (Hwcc : preserves w_calls (with_control control raise_if_cancelled)).
  { apply with_control_preserves. intros c Hcc.
    destruct (Hctl c Hcc) as [(_ & _ & Hcl & _) _]. exact Hcl. }
  destruct (bind_inv _ _ _ _ _ H)
    as [(opts & w1 & H1 & H2) | [(e & H1 & _) | (H1 & _)]];
    [|apply Hskip, (Hco _ _ _ H1)|apply Hskip, (Hco _ _ _ H1)].
  pose proof (cookie_opts_from _ _ _ _ _ _ _ H1) as Hopts.
  apply Hco in H1.
  destruct (bind_inv _ _ _ _ _ H2)
    as [(u & w2 & H3 & H4) | [(e & H3 & _) | (H3 & _)]];
    [|apply Hskip; rewrite (Hwcc _ _ _ H3); exact H1
     |apply Hskip; rewrite (Hwcc _ _ _ H3); exact H1].
  rewrite reraise_id in H4.
  apply ydl_download_calls in H4.
  - exists [CallYdlDownload opts url (cookie_jar E opts (w_fs w2))].
    split; [rewrite H4, (Hwcc _ _ _ H3), H1; reflexivity|].
    split; [simpl; lia|].
    intros c [<- | []]. exists opts, (cookie_jar E opts (w_fs w2)).
    split; [reflexivity|exact Hopts].
  - intros st i. apply hook_preserves.
    + intros c Hcc. destruct (Hctl c Hcc) as [(_ & _ & Hr & _) (_ & _ & Hp & _)].
      auto.
    + intros f percent message Hf. destruct (Hcb f percent message Hf) as (_ & Hf2 & _).
      exact Hf2.
    + intros s m. destruct (safe_write_local s m) as (_ & _ & Hs & _). exact Hs.
Qed.

Lemma ytdlp_call_opts (url : string) (output_dir : Path)
  (filename : option string) (audio_only : bool) (resolution : option string)
  (cb : option ProgressCallback) (control : option DownloadControl)
  (cookies : option string) (w w' : world) (o : outcome Path) :
  control_local control -> callback_local cb ->
  _download_with_ytdlp E url output_dir filename audio_only resolution
                       cb control cookies w = (o, w') ->
  exists new,
    w_calls w' = w_calls w ++ new
    /\ length new <= 1
    /\ forall c, In c new ->
                 exists opts jar ff tpl,
                   c = CallYdlDownload opts url jar
                   /\ _determine_template filename audio_only = Some tpl
                   /\ options_from
                        (ytdlp_base_opts E filename audio_only resolution ff tpl)
                        (PurePath.to_string output_dir)
                        (gettempdir E +:+ "/" +:+ "yt-dlp-frag-"
                         +:+ pretty (w_tmp w))
                        opts.
Proof.
  intros Hctl Hcb H.
  assert (Hfs : forall f w, w_calls (set_fs f w) = w_calls w) by reflexivity.
  assert (Hft : forall f w, w_tmp (set_fs f w) = w_tmp w) by reflexivity.
  destruct (fs_ops_preserve w_calls Hfs) as (Hmkc & Hexc & _).
  destruct (fs_ops_preserve w_tmp Hft) as (Hmkt & Hext & _).
  assert (Hskip : forall (P : ext_call -> Prop),
             w_calls w' = w_calls w ->
             exists new, w_calls w' = w_calls w ++ new /\ length new <= 1
                         /\ forall c, In c new -> P c).
  { intros P ->. exists []. rewrite app_nil_r. split; [reflexivity|].
    split; [simpl; lia|]. intros c []. }
  rewrite download_with_ytdlp_parts in H.
  destruct (determine_template_total filename audio_only) as (t & Heq & Hmp3).
  rewrite Heq in H. rewrite Heq.
  destruct (bind_inv _ _ _ _ _ H)
    as [(u & w1 & H1 & H2) | [(e & H1 & ->) | (H1 & ->)]];
    [|apply Hskip, (Hmkc _ _ _ _ H1)|apply Hskip, (Hmkc _ _ _ _ H1)].
  pose proof (Hmkc _ _ _ _ H1) as Hc1. pose proof (Hmkt _ _ _ _ H1) as Ht1.
  clear H H1.
  destruct (bind_inv _ _ _ _ _ H2)
    as [(tpl & w2 & H3 & H4) | [(e & H3 & _) | (H3 & _)]];
    [|discriminate|discriminate].
  injection H3 as <- <-. clear H2.
  destruct (bind_inv _ _ _ _ _ H4)
    as [(ff & w3 & H5 & H6) | [(e & H5 & _) | (H5 & _)]];
    [|discriminate|discriminate].
  injection H5 as _ <-. clear H4.
  assert (Hsession :
    forall o5 w4,
      with_TemporaryDirectory E "yt-dlp-frag-"
        (ytdlp_session E url output_dir cb control cookies
           (ytdlp_base_opts E filename audio_only resolution ff t)) w1
      = (o5, w4) ->
      exists new,
        w_calls w4 = w_calls w ++ new
        /\ length new <= 1
        /\ forall c, In c new ->
                     exists opts jar ff tpl,
                       c = CallYdlDownload opts url jar
                       /\ Some t = Some tpl
                       /\ options_from
                            (ytdlp_base_opts E filename audio_only resolution ff tpl)
                            (PurePath.to_string output_dir)
                            (gettempdir E +:+ "/" +:+ "yt-dlp-frag-"
                             +:+ pretty (w_tmp w))
                            opts).
  { intros o5 w4 Hw. apply tempdir_scope in Hw. cbv zeta in Hw.
    rewrite Ht1 in Hw. destruct Hw as (w5 & w6 & Hbody & Hc5 & Hc4 & _).
    destruct (session_call_opts _ _ _ _ _ _ _ _ _ _ Hctl Hcb Hbody)
      as (new & Hnew & Hlen & Hall).
    exists new. split; [congruence|]. split; [exact Hlen|].
    intros c Hin. destruct (Hall c Hin) as (opts & jar & -> & Hopts).
    exists opts, jar, ff, t. auto. }
  destruct (bind_inv _ _ _ _ _ H6)
    as [(info & w4 & H7 & H8) | [(e & H7 & ->) | (H7 & ->)]].
  - destruct (Hsession _ _ H7) as (new & Hnew & Hrest).
    exists new. split; [|exact Hrest].
    rewrite (finish_preserves E w_calls Hfs _ _ _ _ _ _ H8). exact Hnew.
  - exact (Hsession _ _ H7).
  - exact (Hsession _ _ H7).
Qed.

End CallOptions.

Lemma base_opts_video (E : Externals) (filename resolution : option string)
  (ff : bool) (tpl : string * option string) (hf : string) :
  (truthy resolution = false /\ hf = "")
  \/ (exists n, (0 < n)%N /\ resolution = Some (pretty n +:+ "p")
                /\ hf = "[height<=" +:+ pretty n +:+ "]") ->
  let base := ytdlp_base_opts E filename false resolution ff tpl in
  format base = video_format hf
  /\ merge_output_format base = Some "mp4"
  /\ postprocessors base = None /\ postprocessor_args base = None
  /\ outtmpl base = tpl.1 /\ overwrites base = true.
Proof.
  intros Hres. cbv zeta.
  assert (Hf : (if truthy resolution
                then _parse_resolution (default "" resolution) else None)
               = None /\ hf = ""
               \/ exists n, (0 < n)%N
                            /\ (if truthy resolution
                                then _parse_resolution (default "" resolution)
                                else None) = Some n
                            /\ hf = "[height<=" +:+ pretty n +:+ "]").
  { destruct Hres as [[Ht ->] | (n & Hn & -> & ->)].
    - left. rewrite Ht. auto.
    - right. exists n. split; [exact Hn|]. split; [|reflexivity].
      cbn [default from_option id].
      assert (Hp : pretty n = pretty_N_go n "").
      { unfold pretty, pretty_N. destruct (decide (n = 0)%N); [lia|reflexivity]. }
      replace (truthy (Some (pretty n +:+ "p"))) with true.
      + rewrite Hp. apply parse_resolution_pretty_go, Hn.
      + symmetry. unfold truthy. rewrite Hp.
        destruct (pretty_go_head n "" Hn) as (c & r & -> & _). reflexivity. }
  unfold ytdlp_base_opts. cbv zeta.
  destruct Hf as [[-> ->] | (n & Hn & -> & ->)].
  - destruct ff, (truthy (which_ffmpeg E)); repeat split.
  - replace (n =? 0)%N with false by (symmetry; apply N.eqb_neq; lia).
    destruct ff, (truthy (which_ffmpeg E)); repeat split.
Qed.

Lemma base_opts_audio (E : Externals) (filename resolution : option string)
  (ff : bool) (tpl : string * option string) :
  tpl.2 = Some "mp3" ->
  let base := ytdlp_base_opts E filename true resolution ff tpl in
  format base = "bestaudio/best"
  /\ merge_output_format base = None
  /\ postprocessors base = Some [("FFmpegExtractAudio", "mp3", "192")]
  /\ postprocessor_args base = Some ["-vn"]
  /\ outtmpl base = Str.replace "%(ext)s" "mp3" tpl.1
  /\ overwrites base = true.
Proof.
  intros Hext. cbv zeta. unfold ytdlp_base_opts. cbv zeta. rewrite Hext.
  destruct ff, (truthy (which_ffmpeg E)); repeat split.
Qed.

(** X7: the options of the call into yt-dlp in video mode. The adapter
    calls [ydl.download] at most once, for the given URL. The format selector
    is the chain [bestvideo…+bestaudio / bestvideo…+bestaudio / best… / best]
    with the height filter in its first three members: [[height<=n]] for a
    resolution [<n>p] with [n > 0], and none when no resolution is given.
    The streams are merged to [mp4], no post-processor is set, existing
    files are overwritten, [paths.home] is the output directory and
    [paths.temp] the temporary directory of this invocation. *)
Theorem ytdlp_video_call_options :
  forall E url output_dir filename resolution cb control cookies w o w' hf,
    control_local control -> callback_local cb ->
    (truthy resolution = false /\ hf = "")
    \/ (exists n, (0 < n)%N /\ resolution = Some (pretty n +:+ "p")
                  /\ hf = "[height<=" +:+ pretty n +:+ "]") ->
    _download_with_ytdlp E url output_dir filename false resolution
                         cb control cookies w = (o, w') ->
    exists new,
      w_calls w' = w_calls w ++ new
      /\ length new <= 1
      /\ forall c, In c new ->
                   exists opts jar,
                     c = CallYdlDownload opts url jar
                     /\ format opts = video_format hf
                     /\ merge_output_format opts = Some "mp4"
                     /\ postprocessors opts = None
                     /\ overwrites opts = true
                     /\ paths_home opts = Some (PurePath.to_string output_dir)
                     /\ paths_temp opts
                        = Some (gettempdir E +:+ "/" +:+ "yt-dlp-frag-"
                                +:+ pretty (w_tmp w)).
Proof.
  intros E url output_dir filename resolution cb control cookies w o w' hf
         Hctl Hcb Hres H.
  destruct (ytdlp_call_opts E _ _ _ _ _ _ _ _ _ _ _ Hctl Hcb H)
    as (new & Hnew & Hlen & Hall).
  exists new. split; [exact Hnew|]. split; [exact Hlen|].
  intros c Hin. destruct (Hall c Hin) as (opts & jar & ff & tpl & -> & _ & Hopts).
  exists opts, jar. split; [reflexivity|].
  destruct (base_opts_video E filename resolution ff tpl hf Hres)
    as (Hf & Hm & Hp & _ & _ & Hov).
  destruct Hopts as (_ & Hf' & _ & _ & Hov' & _ & Hm' & Hp' & _ & Hh & Ht).
  rewrite Hf', Hm', Hp', Hov'. auto 10.
Qed.

Lemma ytdlp_video_call_options_witness :
  exists new,
    w_calls (snd (_download_with_ytdlp Demo2.ok "u" Demo.out None false
                    (Some "720p") (Some sink) (Some worker_control) None
                    Demo.world0))
    = w_calls Demo.world0 ++ new
    /\ length new <= 1
    /\ forall c, In c new ->
                 exists opts jar,
                   c = CallYdlDownload opts "u" jar
                   /\ format opts = video_format "[height<=720]"
                   /\ merge_output_format opts = Some "mp4"
                   /\ postprocessors opts = None
                   /\ overwrites opts = true
                   /\ paths_home opts = Some "/out"
                   /\ paths_temp opts = Some "/tmp/yt-dlp-frag-0".
Proof.
  refine (ytdlp_video_call_options Demo2.ok "u" Demo.out None (Some "720p")
            (Some sink) (Some worker_control) None Demo.world0
            (Ret (mkPath true ["out"; "a.f140.m4a"])) _ "[height<=720]"
            worker_control_local sink_local _ _).
  - right. exists 720%N. split; [reflexivity|]. split; reflexivity.
  - vm_compute. reflexivity.
Defined.

(** X8: the options of the call into yt-dlp in audio mode. The adapter
    calls [ydl.download] at most once, for the given URL, with the format
    selector [bestaudio/best], no merge format, the post-processor
    [FFmpegExtractAudio] to [mp3] at quality [192], the argument [-vn], and
    the output directory as [paths.home]. The resolution has no influence:
    [download_video] in audio mode is the same computation for any two
    resolutions. *)
Theorem ytdlp_audio_call_options :
  (forall E url output_dir filename resolution cb control cookies w o w',
      control_local control -> callback_local cb ->
      _download_with_ytdlp E url output_dir filename true resolution
                           cb control cookies w = (o, w') ->
      exists new,
        w_calls w' = w_calls w ++ new
        /\ length new <= 1
        /\ forall c, In c new ->
                     exists opts jar,
                       c = CallYdlDownload opts url jar
                       /\ format opts = "bestaudio/best"
                       /\ merge_output_format opts = None
                       /\ postprocessors opts
                          = Some [("FFmpegExtractAudio", "mp3", "192")]
                       /\ postprocessor_args opts = Some ["-vn"]
                       /\ paths_home opts
                          = Some (PurePath.to_string output_dir))
  /\ (forall E url output_dir filename resolution resolution' cb control
             cookies,
         download_video E url output_dir filename true resolution cb control
                        cookies
         = download_video E url output_dir filename true resolution' cb control
                          cookies).
Proof.
  split; [|reflexivity].
  intros E url output_dir filename resolution cb control cookies w o w'
         Hctl Hcb H.
  destruct (ytdlp_call_opts E _ _ _ _ _ _ _ _ _ _ _ Hctl Hcb H)
    as (new & Hnew & Hlen & Hall).
  exists new. split; [exact Hnew|]. split; [exact Hlen|].
  intros c Hin. destruct (Hall c Hin) as (opts & jar & ff & tpl & -> & Htpl & Hopts).
  exists opts, jar. split; [reflexivity|].
  destruct (determine_template_total filename true) as (t & Heq & Hmp3).
  rewrite Heq in Htpl. injection Htpl as <-.
  destruct (base_opts_audio E filename resolution ff t (Hmp3 eq_refl))
    as (Hf & Hm & Hp & Ha & _).
  destruct Hopts as (_ & Hf' & _ & _ & _ & _ & Hm' & Hp' & Ha' & Hh & _).
  rewrite Hf', Hm', Hp', Ha'. auto 10.
Qed.

Lemma ytdlp_audio_call_options_witness :
  exists new,
    w_calls (snd (_download_with_ytdlp Demo2.ok "u" Demo.out None true
                    (Some "720p") (Some sink) (Some worker_control) None
                    Demo.world0))
    = w_calls Demo.world0 ++ new
    /\ length new <= 1
    /\ forall c, In c new ->
                 exists opts jar,
                   c = CallYdlDownload opts "u" jar
                   /\ format opts = "bestaudio/best"
                   /\ merge_output_format opts = None
                   /\ postprocessors opts
                      = Some [("FFmpegExtractAudio", "mp3", "192")]
                   /\ postprocessor_args opts = Some ["-vn"]
                   /\ paths_home opts = Some "/out".
Proof.
  refine (proj1 ytdlp_audio_call_options Demo2.ok "u" Demo.out None
            (Some "720p") (Some sink) (Some worker_control) None Demo.world0
            (Ret (mkPath true ["out"; "a.f140.mp3"])) _
            worker_control_local sink_local _).
  vm_compute. reflexivity.
Defined.

(** ** The last reported file *)

Section LastReport.

Context (E : Externals).

Lemma hook_recorded (cb : option ProgressCallback) (ctl : option DownloadControl)
  (st : gmap string pyval) (info info' : gmap string Path) (w w' : world) :
  _hook E cb ctl st info w = (Ret info', w') -> info' = recorded E st info.
Proof.
  unfold _hook. intros H.
  apply bind_ret_inv in H as (u & w1 & _ & H).
  assert (Hfin :
    forall w1 w',
      (if bool_decide (dict_get st "status" = PyStr "finished") then
         bind
           (if py_truthy (dict_get st "filename") then
              match dict_get st "filename" with
              | PyStr f =>
                  ret (<["filepath" := Fs.resolve (cwd E) (PurePath.of_string f)]>
                         info)
              | _ => raise (mk_exn TypeError "expected str, bytes or os.PathLike object")
              end
            else ret info)
           (fun info0 =>
              bind
                match cb with
                | Some cb => cb (Some 100%Q) ""
                | None =>
                    _safe_write Stdout
                      (MsgComplete (py_str (default (PyStr "") (st !! "filename"))))
                end
                (fun _ => ret info0))
       else ret info) w1 = (Ret info', w') ->
      info' = recorded E st info).
  { clear. intros w1 w' H. unfold recorded.
    destruct (bool_decide (dict_get st "status" = PyStr "finished")) eqn:Hst;
      cbn [andb].
    - apply bind_ret_inv in H as (info0 & w2 & H0 & H).
      apply bind_ret_inv in H as (u & w3 & _ & H).
      injection H as <- <-.
      destruct (py_truthy (dict_get st "filename")) eqn:Ht.
      + destruct (dict_get st "filename") as [|f|z] eqn:Hf; try discriminate.
        injection H0 as <- <-. reflexivity.
      + injection H0 as <- <-. reflexivity.
    - injection H as <- <-. reflexivity. }
  assert (Hother : dict_get st "status" <> PyStr "finished" ->
                   info = recorded E st info).
  { intros Hne. unfold recorded.
    destruct (bool_decide (dict_get st "status" = PyStr "finished")) eqn:Hst;
      [|reflexivity].
    apply bool_decide_eq_true in Hst. contradiction. }
  destruct (bool_decide (dict_get st "status" = PyStr "downloading")) eqn:Hd,
    cb as [cb|].
  - apply bind_ret_inv in H as (pc & w2 & _ & H).
    apply bind_ret_inv in H as (u3 & w3 & _ & H).
    injection H as <- <-. apply Hother.
    apply bool_decide_eq_true in Hd. rewrite Hd. discriminate.
  - cbv zeta in H. cbv iota in H.
    destruct (bool_decide (dict_get st "status" = PyStr "postprocessing"));
      eapply Hfin, H.
  - destruct (bool_decide (dict_get st "status" = PyStr "postprocessing")) eqn:Hp.
    + apply bind_ret_inv in H as (u3 & w3 & _ & H).
      injection H as <- <-. apply Hother.
      apply bool_decide_eq_true in Hp. rewrite Hp. discriminate.
    + eapply Hfin, H.
  - destruct (bool_decide (dict_get st "status" = PyStr "postprocessing"));
      eapply Hfin, H.
Qed.

Lemma for_each_hook_recorded (cb : option ProgressCallback)
  (ctl : option DownloadControl) (events : list ydl_event) :
  forall (info info' : gmap string Path) (w w' : world),
    for_each events
      (fun ev info =>
         modify (fun w => set_fs (ev_fs ev (w_fs w)) w) >>
         _hook E cb ctl (ev_status ev) info) info w = (Ret info', w') ->
    info' = fold_left (fun i ev => recorded E (ev_status ev) i) events info.
Proof.
  induction events as [|ev events IH]; intros info info' w w' H.
  - injection H as <- <-. reflexivity.
  - cbn [for_each] in H.
    apply bind_ret_inv in H as (info1 & w1 & H1 & H).
    apply bind_ret_inv in H1 as (u & w0 & _ & H1).
    apply hook_recorded in H1. subst info1.
    cbn [fold_left]. exact (IH _ _ _ _ H).
Qed.

Lemma recorded_reports (st : gmap string pyval) (q : Path)
  (info : gmap string Path) :
  reports_file E st q -> recorded E st info = <["filepath" := q]> info.
Proof.
  intros (Hst & f & Hf & Hne & ->). unfold recorded.
  rewrite Hst, Hf. cbn [py_truthy]. rewrite Hne. reflexivity.
Qed.

Lemma recorded_silent (st : gmap string pyval) (info : gmap string Path) :
  silent st -> recorded E st info = info.
Proof.
  intros Hs. unfold recorded.
  destruct (bool_decide (dict_get st "status" = PyStr "finished")) eqn:Hst;
    [|reflexivity].
  destruct (py_truthy (dict_get st "filename")) eqn:Ht; [|reflexivity].
  apply bool_decide_eq_true in Hst. exfalso. apply Hs. split; [exact Hst|exact Ht].
Qed.

Lemma recorded_last (pre post : list ydl_event) (ev : ydl_event) (q : Path)
  (info : gmap string Path) :
  reports_file E (ev_status ev) q ->
  Forall (fun e => silent (ev_status e)) post ->
  fold_left (fun i e => recorded E (ev_status e) i) (pre ++ ev :: post) info
  !! "filepath" = Some q.
Proof.
  intros Hrep Hpost. rewrite fold_left_app. cbn [fold_left].
  rewrite (recorded_reports _ q _ Hrep).
  generalize (fold_left (fun i e => recorded E (ev_status e) i) pre info).
  intros i.
  assert (Hkeep : forall j, fold_left (fun i e => recorded E (ev_status e) i)
                                      post j = j).
  { induction Hpost as [|e post He _ IH]; intros j; [reflexivity|].
    cbn [fold_left]. rewrite (recorded_silent _ _ He). apply IH. }
  rewrite Hkeep. apply lookup_insert_eq.
Qed.

(** X9: of several [finished] events the last one counts. When the
    events of the download are [pre ++ ev :: post], [ev] reports the file
    [q] and no event of [post] reports a file, the path that the yt-dlp
    adapter returns is [q], or in audio mode [q] with the suffix [.mp3]. *)
Theorem ytdlp_returns_last_reported_path (url : string) (output_dir : Path)
  (filename : option string) (audio_only : bool) (resolution : option string)
  (cb : option ProgressCallback) (control : option DownloadControl)
  (cookies : option string) (w w' : world) (p q : Path)
  (pre post : list ydl_event) (ev : ydl_event) :
  (forall opts jar,
      yr_events (YoutubeDL_download E opts url jar) = pre ++ ev :: post) ->
  reports_file E (ev_status ev) q ->
  Forall (fun e => silent (ev_status e)) post ->
  _download_with_ytdlp E url output_dir filename audio_only resolution
                       cb control cookies w = (Ret p, w') ->
  p = q \/ (audio_only = true /\ PurePath.with_suffix q ".mp3" = Some p).
Proof.
  intros Hev Hrep Hpost H.
  rewrite download_with_ytdlp_parts in H.
  apply bind_ret_inv in H as (u1 & w1 & _ & H).
  apply bind_ret_inv in H as (tpl & w2 & Ht & H).
  apply bind_ret_inv in H as (ff & w3 & _ & H).
  apply bind_ret_inv in H as (info & w4 & Hs & H).
  destruct (determine_template_total filename audio_only) as (t & Heq & Hext).
  rewrite Heq in Ht. injection Ht as <- <-.
  destruct (ytdlp_finish_ret _ _ _ _ _ _ _ Hext H) as (q' & Hq & Hp).
  replace q with q'; [exact Hp|].
  unfold with_TemporaryDirectory in Hs.
  apply bind_ret_inv in Hs as (temp & w5 & _ & Hs).
  apply finally_ret_inv in Hs as (w6 & Hs & _).
  unfold ytdlp_session in Hs.
  apply bind_ret_inv in Hs as (opts & w7 & _ & Hs).
  apply bind_ret_inv in Hs as (u8 & w8 & _ & Hs).
  rewrite reraise_id in Hs. unfold ydl_download in Hs.
  apply bind_ret_inv in Hs as (jar & w9 & _ & Hs).
  apply bind_ret_inv in Hs as (u10 & w10 & _ & Hs).
  apply bind_ret_inv in Hs as (info1 & w11 & Hfor & Hs).
  apply bind_ret_inv in Hs as (u12 & w12 & _ & Hs).
  destruct (yr_result _); [discriminate|]. injection Hs as <- <-.
  apply for_each_hook_recorded in Hfor. rewrite Hev in Hfor.
  rewrite Hfor, (recorded_last pre post ev q ∅ Hrep Hpost) in Hq.
  injection Hq as ->. reflexivity.
Qed.

End LastReport.

Lemma ytdlp_returns_last_reported_path_witness :
  mkPath true ["out"; "a.f140.m4a"] = mkPath true ["out"; "a.f140.m4a"]
  \/ (false = true
      /\ PurePath.with_suffix (mkPath true ["out"; "a.f140.m4a"]) ".mp3"
         = Some (mkPath true ["out"; "a.f140.m4a"])).
Proof.
  refine (ytdlp_returns_last_reported_path Demo2.ok "u" Demo.out None false None
            (Some sink) (Some worker_control) None Demo.world0 _
            (mkPath true ["out"; "a.f140.m4a"]) (mkPath true ["out"; "a.f140.m4a"])
            [Demo.finished "a.f137.mp4"] [] (Demo.finished "a.f140.m4a")
            (fun _ _ => eq_refl) _ (List.Forall_nil _) _).
  - split; [reflexivity|]. exists "/out/a.f140.m4a".
    split; [reflexivity|]. split; reflexivity.
  - vm_compute. reflexivity.
Defined.

(** ** The temporary directory of the yt-dlp adapter *)

(** X12: in video mode the temporary directory of the yt-dlp adapter does
    not outlive the call. When nothing exists under the name of the
    directory before the call (as [mkdtemp] sees to), nothing exists under
    it after the adapter has returned or raised, whatever yt-dlp has written
    there. *)
Theorem ytdlp_temp_dir_removed :
  forall E url output_dir filename resolution cb control cookies w o w',
    _download_with_ytdlp E url output_dir filename false resolution
                         cb control cookies w = (o, w') ->
    o <> Hang ->
    let temp_dir :=
      gettempdir E +:+ "/" +:+ "yt-dlp-frag-" +:+ pretty (w_tmp w) in
    (forall k, key E (PurePath.of_string temp_dir) `prefix_of` k ->
               w_fs w !! k = None) ->
    forall k, key E (PurePath.of_string temp_dir) `prefix_of` k ->
              w_fs w' !! k = None.
Proof.
  intros E url output_dir filename resolution cb control cookies w o w' H Ho.
  cbv zeta. intros Hfree k Hk.
  assert (Hft : forall f w, w_tmp (set_fs f w) = w_tmp w) by reflexivity.
  destruct (fs_ops_preserve w_tmp Hft) as (Hmkt & Hext & _).
  rewrite download_with_ytdlp_parts in H.
  destruct (determine_template_total filename false) as (t & Heq & _).
  rewrite Heq in H.
  destruct (bind_inv _ _ _ _ _ H)
    as [(u & w1 & H1 & H2) | [(e & H1 & ->) | (H1 & ->)]].
  2: { unfold fs_mkdir_p in H1.
       destruct (Fs.mkdirs _ _ _); [discriminate|]. injection H1 as _ <-.
       apply Hfree, Hk. }
  2: { contradiction. }
  pose proof (Hmkt _ _ _ _ H1) as Ht1. clear H H1.
  destruct (bind_inv _ _ _ _ _ H2)
    as [(tpl & w2 & H3 & H4) | [(e & H3 & _) | (H3 & _)]];
    [|discriminate|discriminate].
  injection H3 as <- <-. clear H2.
  destruct (bind_inv _ _ _ _ _ H4)
    as [(ff & w3 & H5 & H6) | [(e & H5 & _) | (H5 & _)]];
    [|discriminate|discriminate].
  injection H5 as _ <-. clear H4.
  destruct (bind_inv _ _ _ _ _ H6)
    as [(info & w4 & H7 & H8) | [(e & H7 & ->) | (H7 & ->)]].
  - apply tempdir_scope in H7. cbv zeta in H7. rewrite Ht1 in H7.
    destruct H7 as (w5 & w6 & _ & _ & _ & Hgone).
    destruct (finish_fs E false t.2 info w4 w' o) as [-> | (q & t' & fs1 & Ha & _)];
      [discriminate|exact H8| |discriminate Ha].
    apply Hgone; [discriminate|exact Hk].
  - apply tempdir_scope in H7. cbv zeta in H7. rewrite Ht1 in H7.
    destruct H7 as (w5 & w6 & _ & _ & _ & Hgone).
    apply Hgone; [discriminate|exact Hk].
  - contradiction.
Qed.

Lemma ytdlp_temp_dir_removed_witness :
  w_fs (snd (_download_with_ytdlp fragments "u" Demo.out None false None
               (Some sink) (Some worker_control) None Demo.world0))
  !! ["tmp"; "yt-dlp-frag-0"; "a.mp4.part"] = None.
Proof.
  refine (ytdlp_temp_dir_removed fragments "u" Demo.out None None
            (Some sink) (Some worker_control) None Demo.world0
            (Ret (mkPath true ["out"; "a.mp4"])) _ _ _ _
            ["tmp"; "yt-dlp-frag-0"; "a.mp4.part"] _).
  - vm_compute. reflexivity.
  - discriminate.
  - intros k _. reflexivity.
  - exists ["a.mp4.part"]. reflexivity.
Defined.

(** ** The events and the calls of the pytube adapter *)

Section PytubeEvents.

Context (control : option DownloadControl).
Hypothesis Hctl : control_local control.

Lemma check_sink : preserves w_sink (with_control control raise_if_cancelled).
Proof.
  apply with_control_preserves. intros c Hc.
  destruct (Hctl c Hc) as [(_ & Hs & _) _]. exact Hs.
Qed.

Lemma check_wait_sink :
  preserves w_sink
    (with_control control (fun c => raise_if_cancelled c >> wait_if_paused c)).
Proof.
  apply with_control_preserves. intros c Hc.
  destruct (Hctl c Hc) as [(_ & Hr & _) (_ & Hw & _)].
  apply preserves_bind; [exact Hr|]. intros _. exact Hw.
Qed.

Lemma handler_sink (stream : Stream) (chunks : list Z) :
  forall (w w' : world) (u : unit),
    for_each chunks
      (fun r _ => _make_pytube_progress_handler (Some sink) control stream r)
      tt w = (Ret u, w') ->
    w_sink w'
    = w_sink w ++ map (fun r => (pytube_percent stream r, "")) chunks.
Proof.
  induction chunks as [|r chunks IH]; intros w w' u H.
  - injection H as _ <-. rewrite app_nil_r. reflexivity.
  - cbn [for_each] in H.
    apply bind_ret_inv in H as ([] & w1 & H1 & H).
    apply IH in H. rewrite H. cbn [map].
    unfold _make_pytube_progress_handler in H1.
    apply bind_ret_inv in H1 as (u0 & w0 & Hc & H1).
    apply check_wait_sink in Hc.
    assert (Hw1 : w_sink w1 = w_sink w0 ++ [(pytube_percent stream r, "")]).
    { unfold sink, modify in H1. injection H1 as <-.
      cbn [w_sink set_sink]. unfold pytube_percent. cbv zeta.
      destruct (negb (_ =? 0)%Z); reflexivity. }
    rewrite Hw1, Hc, <- app_assoc. reflexivity.
Qed.

(** X13: the progress events of a successful run of the pytube adapter,
    with a control object that does not touch the sink: one event for each
    chunk that pytube reports, in their order and with the percentage of the
    selected stream, followed by one [(100, "")]. *)
Theorem pytube_progress_events (E : Externals) (url : string)
  (output_dir : Path) (filename : option string) (audio_only : bool)
  (resolution : option string) (w w' : world) (p : Path) :
  _download_with_pytube E url output_dir filename audio_only resolution
                        (Some sink) control w = (Ret p, w') ->
  exists streams stream,
    YouTube_streams E url = inr streams
    /\ pytube_select streams audio_only resolution = inr stream
    /\ w_sink w'
       = w_sink w
         ++ map (fun r => (pytube_percent stream r, ""))
                (pr_chunks
                   (Stream_download E stream (PurePath.to_string output_dir)
                      (if truthy filename then default "" filename
                       else default_filename stream)))
         ++ [(Some 100%Q, "")].
Proof.
  intros H.
  assert (Hfs : forall f w, w_sink (set_fs f w) = w_sink w) by reflexivity.
  destruct (fs_ops_preserve w_sink Hfs) as (Hmk & _).
  unfold _download_with_pytube in H.
  apply bind_ret_inv in H as (u1 & w1 & H1 & H). apply Hmk in H1.
  apply bind_ret_inv in H as (u2 & w2 & H2 & H). apply check_sink in H2.
  cbv zeta in H.
  apply bind_ret_inv in H as (streams & w3 & H3 & H).
  apply bind_ret_inv in H as (stream & w4 & H4 & H).
  apply bind_ret_inv in H as (u5 & w5 & H5 & H). apply check_wait_sink in H5.
  apply bind_ret_inv in H as (destination & w6 & H6 & H).
  apply bind_ret_inv in H as (u7 & w7 & H7 & H).
  injection H as _ <-. injection H7 as _ <-.
  unfold pytube_streams, log_call in H3.
  apply bind_ret_inv in H3 as (u3 & w3' & H3' & H3).
  injection H3' as _ <-.
  destruct (YouTube_streams E url) as [e|l] eqn:Hy; [discriminate|].
  injection H3 as <- <-.
  destruct (pytube_select l audio_only resolution) as [e|s] eqn:Hsel;
    [discriminate|].
  injection H4 as <- <-.
  exists l, s. split; [reflexivity|]. split; [exact Hsel|].
  unfold stream_download, log_call in H6.
  apply bind_ret_inv in H6 as (u8 & w8 & H8 & H6). injection H8 as _ <-.
  apply bind_ret_inv in H6 as (u9 & w9 & H9 & H6).
  apply handler_sink in H9.
  apply bind_ret_inv in H6 as (u10 & w10 & H10 & H6). injection H10 as _ <-.
  destruct (pr_result _); [discriminate|]. injection H6 as _ <-.
  cbn [w_sink set_sink set_fs set_calls] in *.
  rewrite H9, H5, H2, H1, <- app_assoc. reflexivity.
Qed.

End PytubeEvents.

Lemma pytube_progress_events_witness :
  exists streams stream,
    YouTube_streams Demo2.ok "u" = inr streams
    /\ pytube_select streams false None = inr stream
    /\ w_sink (snd (_download_with_pytube Demo2.ok "u" Demo.out None false None
                      (Some sink) (Some worker_control) Demo.world0))
       = w_sink Demo.world0
         ++ map (fun r => (pytube_percent stream r, ""))
                (pr_chunks
                   (Stream_download Demo2.ok stream (PurePath.to_string Demo.out)
                      (default_filename stream)))
         ++ [(Some 100%Q, "")].
Proof.
  refine (pytube_progress_events (Some worker_control) worker_control_local
            Demo2.ok "u" Demo.out None false None Demo.world0 _
            (mkPath true ["out"; "video.mp4"]) _).
  vm_compute. reflexivity.
Defined.

Section PytubeCalls.

Context (control : option DownloadControl) (cb : option ProgressCallback).
Hypothesis Hctl : control_local control.
Hypothesis Hcb : callback_local cb.

Lemma check_calls : preserves w_calls (with_control control raise_if_cancelled).
Proof.
  apply with_control_preserves. intros c Hc.
  destruct (Hctl c Hc) as [(_ & _ & Hs & _) _]. exact Hs.
Qed.

Lemma check_wait_calls :
  preserves w_calls
    (with_control control (fun c => raise_if_cancelled c >> wait_if_paused c)).
Proof.
  apply with_control_preserves. intros c Hc.
  destruct (Hctl c Hc) as [(_ & _ & Hr & _) (_ & _ & Hw & _)].
  apply preserves_bind; [exact Hr|]. intros _. exact Hw.
Qed.

Lemma callback_calls (percent : option Q) (message : string) :
  match cb with
  | Some f => preserves w_calls (f percent message)
  | None => True
  end.
Proof.
  destruct cb as [f|] eqn:Hf; [|exact I].
  destruct (Hcb f percent message eq_refl) as (_ & H & _). exact H.
Qed.

Lemma handler_calls (stream : Stream) (r : Z) :
  preserves w_calls (_make_pytube_progress_handler cb control stream r).
Proof.
  pose proof callback_calls as Hc.
  unfold _make_pytube_progress_handler. destruct cb as [f|].
  - apply preserves_bind; [apply check_wait_calls|]. intros _. apply Hc.
  - unfold _progress_callback.
    destruct (filesize stream =? 0)%Z; [apply preserves_raise|].
    destruct (safe_write_local Stdout
                (MsgDownloading (filesize stream - r) (filesize stream)))
      as (_ & _ & H & _). exact H.
Qed.

(** X14: the calls of the pytube adapter into pytube, however it ends:
    none; or the one that lists the streams of the URL; or that one followed
    by one download, of the stream that was selected, into the output
    directory and under the custom file name, or the default file name of
    the stream when none is given. *)
Theorem pytube_calls (E : Externals) (url : string)
  (output_dir : Path) (filename : option string) (audio_only : bool)
  (resolution : option string) (w w' : world) (o : outcome Path) :
  _download_with_pytube E url output_dir filename audio_only resolution
                        cb control w = (o, w') ->
  w_calls w' = w_calls w
  \/ w_calls w' = w_calls w ++ [CallYouTube url]
  \/ exists streams stream,
      YouTube_streams E url = inr streams
      /\ pytube_select streams audio_only resolution = inr stream
      /\ w_calls w'
         = w_calls w
           ++ [CallYouTube url;
               CallStreamDownload stream (PurePath.to_string output_dir)
                 (if truthy filename then default "" filename
                  else default_filename stream)].
Proof.
  intros H.
  pose proof callback_calls as Hc.
  assert (Hfs : forall f w, w_calls (set_fs f w) = w_calls w) by reflexivity.
  destruct (fs_ops_preserve w_calls Hfs) as (Hmk & _).
  unfold _download_with_pytube in H.
  destruct (bind_inv _ _ _ _ _ H)
    as [(u1 & w1 & H1 & H2) | [(e & H1 & _) | (H1 & _)]];
    [|left; exact (Hmk _ _ _ _ H1)|left; exact (Hmk _ _ _ _ H1)].
  apply Hmk in H1. clear H.
  destruct (bind_inv _ _ _ _ _ H2)
    as [(u2 & w2 & H3 & H4) | [(e & H3 & _) | (H3 & _)]];
    [|left; rewrite (check_calls _ _ _ H3); exact H1
     |left; rewrite (check_calls _ _ _ H3); exact H1].
  apply check_calls in H3. clear H2. cbv zeta in H4.
  assert (Hw2 : w_calls w2 = w_calls w) by congruence.
  unfold pytube_streams, log_call in H4.
  unfold bind at 1 2, modify at 1 in H4.
  destruct (YouTube_streams E url) as [e|l] eqn:Hy.
  { injection H4 as _ <-. right. left. cbn [w_calls set_calls]. congruence. }
  unfold ret at 1 in H4.
  set (w3 := set_calls (w_calls w2 ++ [CallYouTube url]) w2) in H4.
  assert (Hw3 : w_calls w3 = w_calls w ++ [CallYouTube url]).
  { unfold w3. cbn [w_calls set_calls]. congruence. }
  clearbody w3.
  destruct (bind_inv _ _ _ _ _ H4)
    as [(stream & w4 & H5 & H6) | [(e & H5 & _) | (H5 & _)]].
  2: { right. left.
       destruct (pytube_select _ _ _); injection H5 as _ <-; exact Hw3. }
  2: { destruct (pytube_select _ _ _); discriminate H5. }
  destruct (pytube_select l audio_only resolution) as [e|s] eqn:Hsel;
    [discriminate H5|].
  injection H5 as <- <-. clear H4.
  destruct (bind_inv _ _ _ _ _ H6)
    as [(u5 & w5 & H7 & H8) | [(e & H7 & _) | (H7 & _)]];
    [|right; left; rewrite (check_wait_calls _ _ _ H7); exact Hw3
     |right; left; rewrite (check_wait_calls _ _ _ H7); exact Hw3].
  apply check_wait_calls in H7. clear H6.
  right. right. exists l, s. split; [reflexivity|]. split; [exact Hsel|].
  set (fname := if truthy filename then default "" filename
                else default_filename s) in *.
  assert (Hdl : preserves
                   (fun w0 => w_calls w0)
                   (for_each
                      (pr_chunks
                         (Stream_download E s (PurePath.to_string output_dir)
                            fname))
                      (fun r _ =>
                         _make_pytube_progress_handler cb control s r) tt)).
  { apply preserves_for_each. intros r u _. apply handler_calls. }
  assert (Hsd : forall o6 w6,
             stream_download E s (PurePath.to_string output_dir) fname
               (_make_pytube_progress_handler cb control) w5 = (o6, w6) ->
             w_calls w6
             = w_calls w
               ++ [CallYouTube url;
                   CallStreamDownload s (PurePath.to_string output_dir) fname]).
  { intros o6 w6 Hs. unfold stream_download, log_call in Hs.
    unfold bind at 1, modify at 1 in Hs.
    set (w5' := set_calls _ w5) in Hs.
    assert (Hw5 : w_calls w5'
                  = w_calls w
                    ++ [CallYouTube url;
                        CallStreamDownload s (PurePath.to_string output_dir)
                          fname]).
    { unfold w5'. cbn [w_calls set_calls]. rewrite H7, Hw3, <- app_assoc.
      reflexivity. }
    clearbody w5'.
    destruct (bind_inv _ _ _ _ _ Hs)
      as [(u6 & w6' & H9 & H10) | [(e & H9 & _) | (H9 & _)]];
      [|rewrite (Hdl _ _ _ H9); exact Hw5|rewrite (Hdl _ _ _ H9); exact Hw5].
    apply Hdl in H9.
    unfold bind, modify in H10.
    destruct (pr_result _); injection H10 as _ <-;
      cbn [w_calls set_fs]; congruence. }
  destruct (bind_inv _ _ _ _ _ H8)
    as [(d & w6 & H9 & H10) | [(e & H9 & _) | (H9 & _)]];
    [|exact (Hsd _ _ H9)|exact (Hsd _ _ H9)].
  apply Hsd in H9.
  assert (Hfin : preserves w_calls
                   match cb with
                   | Some cb0 => cb0 (Some 100%Q) ""
                   | None => _safe_write Stdout (MsgComplete d)
                   end).
  { destruct cb as [f|]; [apply Hc|].
    destruct (safe_write_local Stdout (MsgComplete d)) as (_ & _ & Hsw & _).
    exact Hsw. }
  destruct (bind_inv _ _ _ _ _ H10)
    as [(u7 & w7 & H11 & H12) | [(e & H11 & _) | (H11 & _)]].
  - injection H12 as _ <-. rewrite (Hfin _ _ _ H11). exact H9.
  - rewrite (Hfin _ _ _ H11). exact H9.
  - rewrite (Hfin _ _ _ H11). exact H9.
Qed.

End PytubeCalls.

Lemma pytube_calls_witness :
  w_calls (snd (_download_with_pytube Demo2.ok "u" Demo.out None false None
                  (Some sink) (Some worker_control) Demo.world0))
  = w_calls Demo.world0
  \/ w_calls (snd (_download_with_pytube Demo2.ok "u" Demo.out None false None
                     (Some sink) (Some worker_control) Demo.world0))
     = w_calls Demo.world0 ++ [CallYouTube "u"]
  \/ exists streams stream,
      YouTube_streams Demo2.ok "u" = inr streams
      /\ pytube_select streams false None = inr stream
      /\ w_calls (snd (_download_with_pytube Demo2.ok "u" Demo.out None false
                         None (Some sink) (Some worker_control) Demo.world0))
         = w_calls Demo.world0
           ++ [CallYouTube "u";
               CallStreamDownload stream (PurePath.to_string Demo.out)
                 (default_filename stream)].
Proof.
  refine (pytube_calls (Some worker_control) (Some sink) worker_control_local
            sink_local Demo2.ok "u" Demo.out None false None Demo.world0 _
            (Ret (mkPath true ["out"; "video.mp4"])) _).
  vm_compute. reflexivity.
Defined.

(** ** Where a cancellation comes from *)

Section CancelsIn.

Context (P : world -> Prop).
Hypothesis P_set_fs : forall f w, P w -> P (set_fs f w).

Lemma cancels_in_ret {A} (a : A) : cancels_in P (ret a).
Proof. intros w e w' [=]. Qed.

Lemma cancels_in_raise {A} (e : exn) :
  is_cancelled e = false -> cancels_in P (@raise A e).
Proof. intros He w e' w' [= <- <-] Hc. congruence. Qed.

Lemma cancels_in_modify (f : world -> world) : cancels_in P (modify f).
Proof. intros w e w' [=]. Qed.

Lemma cancels_in_get {A} (f : world -> A) : cancels_in P (get f).
Proof. intros w e w' [=]. Qed.

Lemma cancels_in_bind {A B} (m : M A) (k : A -> M B) :
  cancels_in P m -> (forall a, cancels_in P (k a)) -> cancels_in P (bind m k).
Proof.
  intros Hm Hk w e w'. unfold bind.
  destruct (m w) as [[a|e1|] w1] eqn:H1.
  - apply Hk.
  - intros [= <- <-]. exact (Hm _ _ _ H1).
  - intros [=].
Qed.

(** A handler, entered with an exception that, if it is a cancellation,
    was raised in a state with [P]. *)
Lemma cancels_in_try_except {A} (m : M A) (h : exn -> M A) :
  cancels_in P m ->
  (forall e w1 e' w',
      (is_cancelled e = true -> P w1) ->
      h e w1 = (Raise e', w') -> is_cancelled e' = true -> P w') ->
  cancels_in P (try_except m h).
Proof.
  intros Hm Hh w e w'. unfold try_except.
  destruct (m w) as [[a|e1|] w1] eqn:H1.
  - intros [=].
  - apply Hh. intros Hc. exact (Hm _ _ _ H1 Hc).
  - intros [=].
Qed.

Lemma cancels_in_finally {A} (m : M A) (f : world -> gmap (list string) node) :
  cancels_in P m ->
  cancels_in P (finally m (fun w => set_fs (f w) w)).
Proof.
  intros Hm w e w'. unfold finally.
  destruct (m w) as [[a|e1|] w1] eqn:H1; intros [= <- <-] Hc.
  apply P_set_fs. exact (Hm _ _ _ H1 Hc).
Qed.

Lemma cancels_in_when (c : bool) (m : M unit) :
  cancels_in P m -> cancels_in P (when c m).
Proof. intros Hm. destruct c; [exact Hm|apply cancels_in_ret]. Qed.

Lemma cancels_in_for_each {A S} (l : list A) (body : A -> S -> M S) :
  (forall x s, cancels_in P (body x s)) ->
  forall s, cancels_in P (for_each l body s).
Proof.
  intros Hb. induction l as [|x l IH]; intros s; cbn [for_each].
  - apply cancels_in_ret.
  - apply cancels_in_bind; [apply Hb|]. intros s'. apply IH.
Qed.

Lemma cancels_in_with_control (control : option DownloadControl)
  (m : DownloadControl -> M unit) :
  (forall c, control = Some c -> cancels_in P (m c)) ->
  cancels_in P (with_control control m).
Proof.
  intros Hm. unfold with_control. destruct control as [c|].
  - apply Hm. reflexivity.
  - apply cancels_in_ret.
Qed.

Local Ltac never :=
  let H := fresh "H" in
  intros ? ? ? H ?;
  repeat match type of H with
         | context [match ?x with _ => _ end] => destruct x
         end;
  try discriminate H; injection H as <- <-; discriminate.

Lemma cancels_in_safe_write (s : std_stream) (m : console_msg) :
  cancels_in P (_safe_write s m).
Proof. unfold _safe_write. never. Qed.

Lemma cancels_in_fs_ops :
  (forall k, cancels_in P (fs_mkdir_p k))
  /\ (forall k, cancels_in P (fs_exists k))
  /\ (forall k c, cancels_in P (fs_write_text k c))
  /\ (forall k, cancels_in P (fs_unlink k))
  /\ (forall k k', cancels_in P (fs_rename k k')).
Proof.
  unfold fs_mkdir_p, fs_exists, fs_write_text, fs_unlink, fs_rename, get.
  repeat split; intros; never.
Qed.

Context (E : Externals) (control : option DownloadControl)
        (cb : option ProgressCallback).
Hypothesis library : library_never_cancels E.
Hypothesis control_cancels :
  forall c, control = Some c ->
            cancels_in P (raise_if_cancelled c)
            /\ cancels_in P (wait_if_paused c).
Hypothesis callback_cancels :
  forall f percent message, cb = Some f -> cancels_in P (f percent message).

Lemma cancels_in_check : cancels_in P (with_control control raise_if_cancelled).
Proof.
  apply cancels_in_with_control. intros c Hc. apply (control_cancels c Hc).
Qed.

Lemma cancels_in_check_wait :
  cancels_in P (with_control control
                  (fun c => raise_if_cancelled c >> wait_if_paused c)).
Proof.
  apply cancels_in_with_control. intros c Hc.
  destruct (control_cancels c Hc) as [Hr Hw].
  apply cancels_in_bind; [exact Hr|]. intros _. exact Hw.
Qed.

Lemma cancels_in_callback (percent : option Q) (message : string) :
  match cb with
  | Some f => cancels_in P (f percent message)
  | None => True
  end.
Proof. destruct cb as [f|]; [|exact I]. apply callback_cancels. reflexivity. Qed.

Lemma cancels_in_handler (stream : Stream) (r : Z) :
  cancels_in P (_make_pytube_progress_handler cb control stream r).
Proof.
  unfold _make_pytube_progress_handler.
  pose proof cancels_in_callback as Hcb.
  destruct cb as [f|].
  - apply cancels_in_bind; [apply cancels_in_check_wait|]. intros _. apply Hcb.
  - unfold _progress_callback.
    destruct (filesize stream =? 0)%Z;
      [apply cancels_in_raise; reflexivity|apply cancels_in_safe_write].
Qed.

Lemma cancels_in_pytube (url : string) (output_dir : Path)
  (filename : option string) (audio_only : bool) (resolution : option string) :
  cancels_in P (_download_with_pytube E url output_dir filename audio_only
                                      resolution cb control).
Proof.
  destruct cancels_in_fs_ops as (Hmk & _).
  destruct library as (Lyt & Lst & _).
  pose proof cancels_in_callback as Hcb.
  unfold _download_with_pytube, pytube_streams, stream_download, log_call.
  apply cancels_in_bind; [apply Hmk|]. intros _.
  apply cancels_in_bind; [apply cancels_in_check|]. intros _. cbv zeta.
  apply cancels_in_bind.
  { apply cancels_in_bind; [apply cancels_in_modify|]. intros _.
    destruct (YouTube_streams E url) as [e|l] eqn:Hy;
      [apply cancels_in_raise, (Lyt _ _ Hy)|apply cancels_in_ret]. }
  intros streams. apply cancels_in_bind.
  { destruct (pytube_select streams audio_only resolution) as [e|s] eqn:Hsel;
      [apply cancels_in_raise|apply cancels_in_ret].
    unfold pytube_select in Hsel.
    repeat match type of Hsel with
           | context [match ?x with _ => _ end] =>
               lazymatch x with
               | context [match _ with _ => _ end] => fail
               | _ => destruct x
               end
           end;
      try discriminate Hsel; injection Hsel as <-; reflexivity. }
  intros stream.
  apply cancels_in_bind; [apply cancels_in_check_wait|]. intros _.
  apply cancels_in_bind.
  { apply cancels_in_bind; [apply cancels_in_modify|]. intros _.
    apply cancels_in_bind.
    { apply cancels_in_for_each. intros r _. apply cancels_in_handler. }
    intros _. apply cancels_in_bind; [apply cancels_in_modify|]. intros _.
    destruct (pr_result _) as [e|d] eqn:Hr;
      [apply cancels_in_raise, (Lst _ _ _ _ Hr)|apply cancels_in_ret]. }
  intros destination. apply cancels_in_bind; [|intros _; apply cancels_in_ret].
  destruct cb as [f|]; [apply Hcb|apply cancels_in_safe_write].
Qed.

Lemma cancels_in_hook (st : gmap string pyval) (info : gmap string Path) :
  cancels_in P (_hook E cb control st info).
Proof.
  pose proof cancels_in_callback as Hcb.
  unfold _hook.
  apply cancels_in_bind; [apply cancels_in_check_wait|]. intros _. cbv zeta.
  assert (Hfin : cancels_in P
    (if bool_decide (dict_get st "status" = PyStr "finished") then
       bind
         (if py_truthy (dict_get st "filename") then
            match dict_get st "filename" with
            | PyStr f =>
                ret (<["filepath" := Fs.resolve (cwd E) (PurePath.of_string f)]>
                       info)
            | _ => raise (mk_exn TypeError "expected str, bytes or os.PathLike object")
            end
          else ret info)
         (fun info0 =>
            bind
              match cb with
              | Some cb => cb (Some 100%Q) ""
              | None =>
                  _safe_write Stdout
                    (MsgComplete (py_str (default (PyStr "") (st !! "filename"))))
              end
              (fun _ => ret info0))
     else ret info)).
  { destruct (bool_decide _); [|apply cancels_in_ret].
    apply cancels_in_bind.
    { destruct (py_truthy _); [|apply cancels_in_ret].
      destruct (dict_get st "filename");
        first [apply cancels_in_ret|apply cancels_in_raise; reflexivity]. }
    intros info0. apply cancels_in_bind; [|intros _; apply cancels_in_ret].
    destruct cb as [f|]; [apply Hcb|apply cancels_in_safe_write]. }
  destruct (bool_decide (dict_get st "status" = PyStr "downloading")),
    cb as [f|].
  - apply cancels_in_bind.
    { repeat match goal with
             | |- cancels_in _ (match ?x with _ => _ end) => destruct x
             end;
        first [apply cancels_in_ret|apply cancels_in_raise; reflexivity]. }
    intros pc. apply cancels_in_bind; [apply Hcb|]. intros _.
    apply cancels_in_ret.
  - destruct (bool_decide (dict_get st "status" = PyStr "postprocessing"));
      exact Hfin.
  - destruct (bool_decide (dict_get st "status" = PyStr "postprocessing")).
    + apply cancels_in_bind; [apply Hcb|]. intros _. apply cancels_in_ret.
    + exact Hfin.
  - destruct (bool_decide (dict_get st "status" = PyStr "postprocessing"));
      exact Hfin.
Qed.

Lemma cancels_in_ytdlp (url : string) (output_dir : Path)
  (filename : option string) (audio_only : bool) (resolution : option string)
  (cookies : option string) :
  cancels_in P (_download_with_ytdlp E url output_dir filename audio_only
                                     resolution cb control cookies).
Proof.
  destruct cancels_in_fs_ops as (Hmk & Hex & Hwr & Hun & Hrn).
  destruct library as (_ & _ & Lyd).
  rewrite download_with_ytdlp_parts.
  apply cancels_in_bind; [apply Hmk|]. intros _.
  apply cancels_in_bind.
  { destruct (_determine_template _ _);
      [apply cancels_in_ret|apply cancels_in_raise; reflexivity]. }
  intros tpl. apply cancels_in_bind; [apply Hex|]. intros ff.
  apply cancels_in_bind.
  - unfold with_TemporaryDirectory.
    apply cancels_in_bind; [unfold mkdtemp; intros w e w' [=]|]. intros temp.
    apply (cancels_in_finally _
             (fun w => Fs.rmtree (key E (PurePath.of_string temp)) (w_fs w))).
    unfold ytdlp_session.
    apply cancels_in_bind.
    { unfold ytdlp_cookie_opts. cbv zeta.
      destruct (truthy cookies); [|apply cancels_in_ret].
      match goal with
      | |- cancels_in _ (if ?b then _ else _) => destruct b
      end; [|apply cancels_in_ret].
      apply cancels_in_bind; [apply Hwr|]. intros _. apply cancels_in_ret. }
    intros opts. apply cancels_in_bind; [apply cancels_in_check|]. intros _.
    intros w e w'. rewrite reraise_id. revert w e w'.
    unfold ydl_download, log_call.
    apply cancels_in_bind; [apply cancels_in_get|]. intros jar. cbv zeta.
    apply cancels_in_bind; [apply cancels_in_modify|]. intros _.
    apply cancels_in_bind.
    { apply cancels_in_for_each. intros ev info.
      apply cancels_in_bind; [apply cancels_in_modify|]. intros _.
      apply cancels_in_hook. }
    intros info. apply cancels_in_bind; [apply cancels_in_modify|]. intros _.
    destruct (yr_result _) as [e|] eqn:Hr;
      [apply cancels_in_raise, (Lyd _ _ _ _ Hr)|apply cancels_in_ret].
  - intros info. unfold ytdlp_finish.
    destruct (info !! "filepath") as [q|];
      [|apply cancels_in_raise; reflexivity].
    cbv zeta.
    match goal with
    | |- cancels_in _ (if ?b then _ else _) => destruct b
    end; [|apply cancels_in_ret].
    apply cancels_in_bind.
    { destruct (PurePath.with_suffix _ _);
        [apply cancels_in_ret|apply cancels_in_raise; reflexivity]. }
    intros target. apply cancels_in_bind; [apply Hex|]. intros present.
    destruct present; [|apply cancels_in_ret].
    unfold try_except_if. apply cancels_in_try_except.
    + apply cancels_in_bind; [apply Hex|]. intros tp.
      apply cancels_in_bind; [apply cancels_in_when, Hun|]. intros _.
      apply cancels_in_bind; [apply Hrn|]. intros _. apply cancels_in_ret.
    + intros e w1 e' w' Hp. destruct (is_os_error e) eqn:Hos.
      * intros [=].
      * intros [= <- <-]. exact Hp.
Qed.

Lemma cancels_in_download_video (url : string)
  (output_dir : Path) (filename : option string) (audio_only : bool)
  (resolution : option string) (cookies : option string) :
  cancels_in P (download_video E url output_dir filename audio_only resolution
                               cb control cookies).
Proof.
  unfold download_video, download_video_with. cbv zeta.
  assert (Hfb : cancels_in P
    (try_except
       (_download_with_ytdlp E url output_dir filename audio_only resolution
                             cb control cookies)
       (fun fallback_exc =>
          if is_cancelled fallback_exc then raise fallback_exc
          else raise (mk_exn DownloadError (exn_str fallback_exc))))).
  { apply cancels_in_try_except; [apply cancels_in_ytdlp|].
    intros e w1 e' w' Hp. destruct (is_cancelled e) eqn:He.
    - intros [= <- <-] _. exact (Hp eq_refl).
    - intros [= <- <-]. discriminate. }
  assert (Hpt : cancels_in P
    (try_except
       (_download_with_pytube E url output_dir filename audio_only resolution
                              cb control)
       (fun exc =>
          if is_cancelled exc then raise exc
          else
            _safe_write Stderr (MsgPytubeFailed (exn_str exc)) >>
            try_except
              (_download_with_ytdlp E url output_dir filename audio_only
                                    resolution cb control cookies)
              (fun fallback_exc =>
                 if is_cancelled fallback_exc then raise fallback_exc
                 else raise (mk_exn DownloadError (exn_str fallback_exc)))))).
  { apply cancels_in_try_except; [apply cancels_in_pytube|].
    intros e w1 e' w' Hp. destruct (is_cancelled e) eqn:He.
    - intros [= <- <-] _. exact (Hp eq_refl).
    - revert w1 e' w' Hp. intros w1 e' w' _. revert w1 e' w'.
      apply cancels_in_bind; [apply cancels_in_safe_write|]. intros _.
      exact Hfb. }
  destruct (audio_only || truthy cookies) eqn:Hp; [|exact Hpt].
  apply cancels_in_try_except; [apply cancels_in_ytdlp|].
  intros e w1 e' w' Hc. destruct (is_cancelled e) eqn:He.
  - intros [= <- <-] _. exact (Hc eq_refl).
  - intros [= <- <-]. discriminate.
Qed.

End CancelsIn.

Lemma worker_control_cancels :
  forall c, Some worker_control = Some c ->
            cancels_in cancel_requested (raise_if_cancelled c)
            /\ cancels_in cancel_requested (wait_if_paused c).
Proof.
  intros c [= <-]. cbn [raise_if_cancelled wait_if_paused worker_control].
  split.
  - intros w e w'.
    unfold WorkerControl_raise_if_cancelled, observe, bind, raise, ret.
    destruct (w_sched w) as [|ss rest].
    + destruct (_cancel_event (w_ctl w)) eqn:Hc; intros [= <- <-] _.
      exact Hc.
    + destruct (_cancel_event (Control.do_steps ss (w_ctl w))) eqn:Hc;
        intros [= <- <-] _. exact Hc.
  - intros w e w' H _. unfold WorkerControl_wait_if_paused in H.
    fold wait_cond in H. fold wait_body in H.
    exact (proj2 (wait_loop_post _ _ _ _ H)).
Qed.

Lemma sink_never_cancels (P : world -> Prop) :
  forall f percent message,
    Some sink = Some f -> cancels_in P (f percent message).
Proof. intros f percent message [= <-] w e w' H. discriminate H. Qed.

(** X15: the worker reports a cancellation only when there was one. Given
    that the two libraries do not raise [DownloadCancelled] themselves, a
    run of [DownloadWorker.run] that emits [cancelled] ends with the cancel
    event of the control object set. *)
Theorem cancelled_signal_is_sound :
  forall E url output_dir filename audio_only resolution w w',
    library_never_cancels E ->
    DownloadWorker_run E url output_dir filename audio_only resolution
                       (Some worker_control) w = (Some Cancelled, w') ->
    Control.cancelled (w_ctl w') = true.
Proof.
  intros E url output_dir filename audio_only resolution w w' Hlib H.
  unfold DownloadWorker_run in H.
  destruct (download_video E url output_dir filename audio_only resolution
              (Some sink) (Some worker_control) None w)
    as [[d|e|] w1] eqn:Hd; try discriminate H.
  destruct (is_cancelled e) eqn:He; [|discriminate H].
  injection H as <-.
  refine (cancels_in_download_video cancel_requested _ E (Some worker_control)
            (Some sink) Hlib worker_control_cancels
            (sink_never_cancels cancel_requested) url output_dir filename
            audio_only resolution None w e w1 Hd He).
  intros f w0 Hp. exact Hp.
Qed.

Lemma cancelled_signal_is_sound_witness :
  Control.cancelled
    (w_ctl (snd (DownloadWorker_run Demo2.ok "u" Demo.out None false None
                   (Some worker_control) cancelled_world))) = true.
Proof.
  refine (cancelled_signal_is_sound Demo2.ok "u" Demo.out None false None
            cancelled_world _ _ _).
  - repeat split; intros; discriminate.
  - vm_compute. reflexivity.
Defined.

Lemma check_wait_cancelled (w : world) :
  Control.cancelled (w_ctl w) = true ->
  exists w',
    with_control (Some worker_control)
      (fun c => raise_if_cancelled c >> wait_if_paused c) w
    = (Raise (mk_exn DownloadCancelled ""), w')
    /\ w_sink w' = w_sink w /\ w_console w' = w_console w
    /\ w_calls w' = w_calls w /\ w_fs w' = w_fs w.
Proof.
  intros Hc.
  destruct (raise_if_cancelled_cancelled w Hc) as (w' & Hr & _).
  exists w'. unfold with_control.
  cbn [raise_if_cancelled wait_if_paused worker_control].
  unfold bind. rewrite Hr. split; [reflexivity|].
  unfold WorkerControl_raise_if_cancelled, observe, bind, raise, ret in Hr.
  destruct (w_sched w); cbn in Hr;
    match type of Hr with
    | context [if ?b then _ else _] => destruct b
    end; try discriminate Hr; injection Hr as <-; auto.
Qed.

(** X22: a cancellation takes effect at the next progress report. Once
    the cancel event of the control object of the window is set, the hook of
    the yt-dlp adapter and the handler of the pytube adapter raise
    [DownloadCancelled] on their next call, whatever the event is and
    whether the object is paused or not; the progress callback is not
    called and nothing is printed. *)
Theorem progress_hooks_stop_on_cancel (w : world) :
  Control.cancelled (w_ctl w) = true ->
  (forall E cb status download_info,
      exists w',
        _hook E cb (Some worker_control) status download_info w
        = (Raise (mk_exn DownloadCancelled ""), w')
        /\ w_sink w' = w_sink w /\ w_console w' = w_console w)
  /\ (forall f stream bytes_remaining,
         exists w',
           _make_pytube_progress_handler (Some f) (Some worker_control) stream
                                         bytes_remaining w
           = (Raise (mk_exn DownloadCancelled ""), w')
           /\ w_sink w' = w_sink w /\ w_console w' = w_console w).
Proof.
  intros Hc.
  destruct (check_wait_cancelled w Hc) as (w' & Hr & Hs & Hco & _).
  split.
  - intros E cb status download_info. exists w'.
    unfold _hook. unfold bind at 1. rewrite Hr. auto.
  - intros f stream bytes_remaining. exists w'.
    unfold _make_pytube_progress_handler. unfold bind at 1. rewrite Hr. auto.
Qed.

Lemma progress_hooks_stop_on_cancel_witness :
  exists w',
    _hook Demo2.ok (Some sink) (Some worker_control) estimated_status ∅
          cancelled_world
    = (Raise (mk_exn DownloadCancelled ""), w')
    /\ w_sink w' = w_sink cancelled_world
    /\ w_console w' = w_console cancelled_world.
Proof.
  exact (proj1 (progress_hooks_stop_on_cancel cancelled_world eq_refl)
           Demo2.ok (Some sink) estimated_status ∅).
Defined.

(** ** The HTTP endpoint *)

Section Endpoint.

Context (E : Externals).

Lemma cleanup_gone (temp_dir : string) (w : world) (k : list string) :
  key E (PurePath.of_string temp_dir) `prefix_of` k ->
  w_fs (snd (Backend.cleanup E temp_dir w)) !! k = None.
Proof. intros Hk. cbn. apply rmtree_gone, Hk. Qed.

(** X16: what [download_endpoint] answers, by the body of the request.
    Without a body that parses as JSON, and for a JSON object without a
    usable [url] (missing, [null] or empty), the answer is [400] with
    "Missing 'url' in request body"; for a JSON value that is not an object
    the answer is the same when the value is a false one, and [500] when it
    is not; in all these cases nothing has been touched. For an object with
    a URL, an endpoint that comes to an end lets no exception out: it
    answers, and nothing is left under the temporary directory of the
    request. *)
Theorem endpoint_rejects_or_cleans_up (b : Backend.body) (w : world) :
  match b with
  | Backend.NoJson =>
      Backend.download_endpoint E b w
      = (Ret (Backend.Abort 400 "Missing 'url' in request body"), w)
  | Backend.JsonOther v =>
      Backend.download_endpoint E b w
      = (Ret (if Backend.json_truthy v then Backend.InternalServerError
              else Backend.Abort 400 "Missing 'url' in request body"), w)
  | Backend.JsonObject p =>
      if truthy (Backend.p_url p)
      then forall o w',
             Backend.download_endpoint E b w = (o, w') ->
             o <> Hang ->
             (exists r, o = Ret r)
             /\ forall k,
                 key E (PurePath.of_string (Backend.request_dir E w))
                   `prefix_of` k ->
                 w_fs w' !! k = None
      else Backend.download_endpoint E b w
           = (Ret (Backend.Abort 400 "Missing 'url' in request body"), w)
  end.
Proof.
  unfold Backend.download_endpoint.
  destruct b as [|p|v].
  - reflexivity.
  - destruct (truthy (Backend.p_url p)); cbn [negb]; [|reflexivity].
    cbv zeta. unfold mkdtemp at 1. unfold bind at 1.
    fold (Backend.request_dir E w).
    set (w1 := set_tmp _ _).
    unfold bind at 1. unfold try_except at 1. unfold bind at 1.
    destruct (download_video E _ _ _ _ _ None None _ w1)
      as [[d|e|] w2] eqn:Hd.
    + cbn [ret]. unfold fs_exists at 1, get at 1, bind at 1.
      destruct (Fs.exists_ (w_fs w2) (key E d)) eqn:Hp; cbn [negb].
      * unfold get at 1, bind at 1.
        match goal with
        | |- context [bind ?m ?k w2] => destruct (m w2) as [[u|e|] w3] eqn:Hu
        end.
        -- unfold bind at 1. rewrite Hu. unfold bind at 1.
           unfold Backend.cleanup at 1, modify at 1.
           destruct (w_fs w2 !! key E d) as [[c|]|];
             intros o w' [= <- <-] _; (split; [eauto|]);
             intros k Hk; apply rmtree_gone, Hk.
        -- exfalso. unfold try_except in Hu.
           match type of Hu with
           | (match ?m ?w with _ => _ end) = _ => destruct (m w) as [[?|?|] ?]
           end; discriminate.
        -- exfalso. unfold try_except in Hu.
           match type of Hu with
           | (match ?m ?w with _ => _ end) = _ =>
               destruct (m w) as [[?|?|] ?] eqn:Hm
           end; try discriminate.
           unfold fs_exists, fs_unlink, when in Hm. unfold_m.
           repeat match type of Hm with
                  | context [match ?x with _ => _ end] => destruct x
                  end; discriminate.
      * unfold Backend.cleanup, modify, bind, ret.
        intros o w' [= <- <-] _. split; [eauto|].
        intros k Hk. apply rmtree_gone, Hk.
    + unfold Backend.cleanup, modify, bind, ret.
      destruct (bool_decide (exn_cls e = DownloadError));
        intros o w' [= <- <-] _; (split; [eauto|]);
        intros k Hk; apply rmtree_gone, Hk.
    + intros o w' [= <- <-] Hn. contradiction.
  - destruct (Backend.json_truthy v); reflexivity.
Qed.

(** X17: a failed download is answered with [400] and the message of the
    error, which is a [DownloadError]; only an exception that is a
    cancellation is answered with [500] and "Failed to download video". In
    both cases the temporary directory has been removed. *)
Theorem endpoint_failure_response (p : Backend.payload) (w w2 : world)
  (e : exn) :
  truthy (Backend.p_url p) = true ->
  download_video E (default "" (Backend.p_url p))
                 (PurePath.of_string (Backend.request_dir E w))
                 (Backend.p_filename p)
                 (Backend.json_truthy (Backend.p_audio_only p))
                 (Backend.p_resolution p) None None (Backend.p_cookies p)
                 (snd (mkdtemp E "yt-download-" w)) = (Raise e, w2) ->
  Backend.download_endpoint E (Backend.JsonObject p) w
  = (Ret (if is_cancelled e
          then Backend.Abort 500 "Failed to download video"
          else Backend.Abort 400 (exn_str e)),
     snd (Backend.cleanup E (Backend.request_dir E w) w2))
  /\ (is_cancelled e = false -> exn_cls e = DownloadError).
Proof.
  intros Hurl Hd.
  assert (Hcls : is_cancelled e = true \/ exn_cls e = DownloadError).
  { unfold download_video in Hd.
    exact (proj2 (proj2 (orchestrate_cancelled _ _ _ _ _ _ _ _ _ _ _)) e w2 Hd). }
  split.
  - unfold Backend.download_endpoint. rewrite Hurl. cbn [negb]. cbv zeta.
    unfold mkdtemp at 1. unfold bind at 1.
    fold (Backend.request_dir E w).
    unfold mkdtemp in Hd. cbn [snd] in Hd. fold (Backend.request_dir E w) in Hd.
    unfold bind at 1. unfold try_except at 1. unfold bind at 1.
    rewrite Hd. unfold Backend.cleanup, modify, bind, ret. cbn [snd].
    destruct Hcls as [Hc | Hc].
    + rewrite Hc. unfold is_cancelled in Hc.
      destruct (exn_cls e); try discriminate Hc. reflexivity.
    + unfold is_cancelled. rewrite Hc. reflexivity.
  - intros Hn. destruct Hcls as [Hc | Hc]; [congruence|exact Hc].
Qed.

(** X18: after a download that returns [destination], the answer is the
    content of that file as an attachment named by the last part of the
    path, and the file is deleted afterwards; when nothing is at the path
    the answer is [500] with "Download destination not found", and when a
    directory is there, [500]. *)
Theorem endpoint_success_response (p : Backend.payload) (w w2 : world)
  (destination : Path) :
  truthy (Backend.p_url p) = true ->
  download_video E (default "" (Backend.p_url p))
                 (PurePath.of_string (Backend.request_dir E w))
                 (Backend.p_filename p)
                 (Backend.json_truthy (Backend.p_audio_only p))
                 (Backend.p_resolution p) None None (Backend.p_cookies p)
                 (snd (mkdtemp E "yt-download-" w)) = (Ret destination, w2) ->
  exists r w',
    Backend.download_endpoint E (Backend.JsonObject p) w = (Ret r, w')
    /\ match w_fs w2 !! key E destination with
       | Some (File content) =>
           r = Backend.SendFile (PurePath.name destination) content
           /\ w_fs w' !! key E destination = None
       | Some Dir => r = Backend.InternalServerError
       | None => r = Backend.Abort 500 "Download destination not found"
       end.
Proof.
  intros Hurl Hd.
  unfold Backend.download_endpoint. rewrite Hurl. cbn [negb]. cbv zeta.
  unfold mkdtemp at 1. unfold bind at 1.
  fold (Backend.request_dir E w).
  unfold mkdtemp in Hd. cbn [snd] in Hd. fold (Backend.request_dir E w) in Hd.
  unfold bind at 1. unfold try_except at 1. unfold bind at 1.
  rewrite Hd. cbn [ret].
  unfold fs_exists, fs_unlink, Backend.cleanup, Fs.exists_.
  unfold_m.
  destruct (w_fs w2 !! key E destination) as [[c|]|] eqn:Hl; cbn [negb];
    repeat rewrite Hl; cbn [w_fs set_fs];
    eexists _, _; (split; [reflexivity|]); try reflexivity.
  split; [reflexivity|].
  cbn [w_fs set_fs]. apply map_lookup_filter_None. left.
  apply lookup_delete_eq.
Qed.

End Endpoint.

Lemma endpoint_failure_response_witness :
  fst (Backend.download_endpoint Demo.failing (Backend.JsonObject video_request)
         Demo.world0)
  = Ret (Backend.Abort 400 "Video unavailable").
Proof.
  refine (eq_trans
            (f_equal fst
               (proj1 (endpoint_failure_response Demo.failing video_request
                         Demo.world0 _ (mk_exn DownloadError "Video unavailable")
                         eq_refl _)))
            eq_refl).
  vm_compute. reflexivity.
Defined.

Lemma endpoint_success_response_witness :
  exists r w',
    Backend.download_endpoint Demo2.ok (Backend.JsonObject audio_request)
      Demo.world0 = (Ret r, w')
    /\ r = Backend.SendFile "a.f140.mp3" "media"
    /\ w_fs w' !! ["out"; "a.f140.mp3"] = None.
Proof.
  destruct (endpoint_success_response Demo2.ok audio_request Demo.world0
              (snd (download_video Demo2.ok "u"
                      (PurePath.of_string (Backend.request_dir Demo2.ok Demo.world0))
                      None true None None None None
                      (snd (mkdtemp Demo2.ok "yt-download-" Demo.world0))))
              (mkPath true ["out"; "a.f140.mp3"]) eq_refl
              ltac:(vm_compute; reflexivity))
    as (r & w' & Hrun & Hr).
  exists r, w'. split; [exact Hrun|].
  vm_compute in Hr. exact Hr.
Defined.

Lemma endpoint_rejects_or_cleans_up_witness :
  (exists r,
      fst (Backend.download_endpoint Demo.failing
             (Backend.JsonObject video_request) Demo.world0) = Ret r)
  /\ w_fs (snd (Backend.download_endpoint Demo.failing
                  (Backend.JsonObject video_request) Demo.world0))
     !! ["tmp"; "yt-download-0"] = None.
Proof.
  pose proof (endpoint_rejects_or_cleans_up Demo.failing
                (Backend.JsonObject video_request) Demo.world0) as H.
  hnf in H.
  destruct (H _ _ (surjective_pairing _)) as [[r Hr] Hgone].
  - vm_compute. discriminate.
  - split; [exists r; exact Hr|].
    apply Hgone. exists []. vm_compute. reflexivity.
Defined.

(** ** Sizes on the console *)

Lemma Qle_bool_false (x y : Q) : Qle_bool x y = false -> (y < x)%Q.
Proof.
  intros H. apply Qnot_le_lt. intros Hle.
  apply Qle_bool_iff in Hle. congruence.
Qed.

Local Ltac flat :=
  unfold Qdiv in *; change (/ 1024)%Q with (1 # 1024)%Q in *.

Local Ltac scale :=
  cbn [fst];
  match goal with
  | |- (_ == _ / ?c)%Q => let v := eval vm_compute in c in change c with v
  end;
  field.

(** X20: [_human_readable_size] picks the [k]-th of the units [B], [KB],
    [MB], [GB], [TB] and the number [num_bytes / 1024 ^ k]; the number is
    below [1024] for every unit but [TB], and at least [1] for every unit
    but [B]. *)
Theorem human_readable_size_unit (num_bytes : Z) :
  exists k : nat,
    nth_error ["B"; "KB"; "MB"; "GB"; "TB"] k
    = Some (snd (_human_readable_size num_bytes))
    /\ (fst (_human_readable_size num_bytes)
        == inject_Z num_bytes / inject_Z (1024 ^ Z.of_nat k))%Q
    /\ (k < 4 -> (fst (_human_readable_size num_bytes) < 1024)%Q)
    /\ (0 < k -> (1 <= fst (_human_readable_size num_bytes))%Q).
Proof.
  unfold _human_readable_size. generalize (inject_Z num_bytes). intros x.
  cbn [human_readable_loop String.eqb Ascii.eqb Bool.eqb orb].
  change (String.eqb "B" "TB") with false.
  change (String.eqb "KB" "TB") with false.
  change (String.eqb "MB" "TB") with false.
  change (String.eqb "GB" "TB") with false.
  change (String.eqb "TB" "TB") with true.
  rewrite !orb_false_r, orb_true_r.
  destruct (Qle_bool 1024 x) eqn:H0; cbn [negb].
  2: { exists 0. apply Qle_bool_false in H0.
       split; [reflexivity|]. split; [scale|].
       split; [intros _; cbn [fst]; exact H0|lia]. }
  apply Qle_bool_iff in H0.
  destruct (Qle_bool 1024 (x / 1024)) eqn:H1; cbn [negb].
  2: { exists 1. apply Qle_bool_false in H1.
       split; [reflexivity|]. split; [scale|].
       split; [intros _; cbn [fst]; exact H1|]. intros _. cbn [fst]. flat. lra. }
  apply Qle_bool_iff in H1.
  destruct (Qle_bool 1024 (x / 1024 / 1024)) eqn:H2; cbn [negb].
  2: { exists 2. apply Qle_bool_false in H2.
       split; [reflexivity|]. split; [scale|].
       split; [intros _; cbn [fst]; exact H2|]. intros _. cbn [fst].
       flat. lra. }
  apply Qle_bool_iff in H2.
  destruct (Qle_bool 1024 (x / 1024 / 1024 / 1024)) eqn:H3; cbn [negb].
  2: { exists 3. apply Qle_bool_false in H3.
       split; [reflexivity|]. split; [scale|].
       split; [intros _; cbn [fst]; exact H3|]. intros _. cbn [fst].
       flat. lra. }
  apply Qle_bool_iff in H3.
  exists 4. split; [reflexivity|]. split; [scale|].
  split; [lia|]. intros _. cbn [fst]. flat. lra.
Qed.

(** ** The progress bar *)

Lemma py_round_floor (x : Q) :
  (py_round x = Qfloor x \/ py_round x = Qfloor x + 1)%Z.
Proof.
  unfold py_round. cbv zeta.
  destruct (_ ?= _)%Q; auto. destruct (Z.even _); auto.
Qed.

Lemma py_round_mono (x y : Q) : (x <= y)%Q -> (py_round x <= py_round y)%Z.
Proof.
  intros Hxy. pose proof (Qfloor_resp_le x y Hxy) as Hf.
  destruct (Z.eq_dec (Qfloor x) (Qfloor y)) as [Heq | Hne].
  - unfold py_round. cbv zeta. rewrite <- Heq.
    destruct (Qcompare_spec (x - inject_Z (Qfloor x)) (1 # 2)) as [Hx | Hx | Hx];
      destruct (Qcompare_spec (y - inject_Z (Qfloor x)) (1 # 2)) as [Hy | Hy | Hy];
      try destruct (Z.even (Qfloor x)); try lia; exfalso; lra.
  - destruct (py_round_floor x) as [-> | ->];
      destruct (py_round_floor y) as [-> | ->]; lia.
Qed.

Lemma clamped_mono (x y : Q) : (x <= y)%Q -> (clamped x <= clamped y)%Z.
Proof. intros H. apply py_round_mono in H. unfold clamped. lia. Qed.

Lemma clamped_range (x : Q) : (0 <= clamped x <= 100)%Z.
Proof. unfold clamped. lia. Qed.

(** One signal with a number: the bar shows what the tracking holds, and
    when the number is not below the last one shown, that is the value of
    this signal. *)
Lemma on_progress_step (q now : Q) (t : progress_tracking) (shown : option Z) :
  shown = _last_progress_value t ->
  match _last_progress_value t with
  | None => True
  | Some last_value => (last_value <= clamped q)%Z
  end ->
  let r := _on_progress (Some q) now t in
  last_set_value r.2 shown = Some (clamped q)
  /\ _last_progress_value r.1 = Some (clamped q).
Proof.
  intros Hs Hle. cbv zeta. unfold _on_progress. fold (clamped q).
  unfold _should_update_progress.
  destruct (_last_progress_value t) as [l|] eqn:Hl.
  - destruct ((100 <=? clamped q)%Z || (1 <=? clamped q - l)%Z
              || Qle_bool (2 # 10) (now - _last_progress_time t)) eqn:Hc.
    + split; reflexivity.
    + cbn [fst snd last_set_value]. rewrite Hs, Hl.
      apply orb_false_iff in Hc as [Hc _].
      apply orb_false_iff in Hc as [_ Hc].
      apply Z.leb_gt in Hc.
      assert (l = clamped q) by lia. subst l. auto.
  - split; reflexivity.
Qed.

Lemma last_set_value_app (a b : list ui_call) (shown : option Z) :
  last_set_value (a ++ b) shown = last_set_value b (last_set_value a shown).
Proof.
  revert shown. induction a as [|c a IH]; intros shown; [reflexivity|].
  destruct c; cbn [app last_set_value]; apply IH.
Qed.

Lemma last_cons {A} (x d : A) (l : list A) :
  List.last (x :: l) d = List.last l x.
Proof.
  revert x d. induction l as [|y l IH]; intros x d; [reflexivity|].
  change (List.last (x :: y :: l) d) with (List.last (y :: l) d).
  rewrite !IH. reflexivity.
Qed.

Lemma on_progress_sorted (events : list (Q * Q)) :
  forall (e : Q * Q) (t : progress_tracking) (shown : option Z),
    shown = _last_progress_value t ->
    match _last_progress_value t with
    | None => True
    | Some last_value => (last_value <= clamped e.1)%Z
    end ->
    Sorted (fun a b => (a.1 <= b.1)%Q) (e :: events) ->
    let r := on_progress_all
               (map (fun e => (Some e.1, e.2)) (e :: events)) t in
    last_set_value r.2 shown = Some (clamped (List.last events e).1)
    /\ _last_progress_value r.1 = Some (clamped (List.last events e).1).
Proof.
  induction events as [|e' events IH]; intros e t shown Hs Hle Hsorted.
  - cbv zeta. cbn [map on_progress_all List.last].
    destruct (on_progress_step e.1 e.2 t shown Hs Hle) as [H1 H2].
    destruct (_on_progress (Some e.1) e.2 t) as [t1 calls1].
    cbn [fst snd] in *. rewrite app_nil_r. auto.
  - cbv zeta. cbn [map on_progress_all].
    destruct (on_progress_step e.1 e.2 t shown Hs Hle) as [H1 H2].
    destruct (_on_progress (Some e.1) e.2 t) as [t1 calls1].
    cbn [fst snd] in H1, H2.
    apply Sorted_inv in Hsorted as [Hsorted Hhd].
    apply HdRel_inv in Hhd.
    specialize (IH e' t1 (Some (clamped e.1))).
    cbv zeta in IH. cbn [map on_progress_all] in IH.
    destruct (_on_progress (Some e'.1) e'.2 t1) as [t2 calls2].
    destruct (on_progress_all _ t2) as [t3 calls3].
    cbn [fst snd] in *. rewrite last_set_value_app, H1.
    rewrite (last_cons e' e events).
    apply IH; [congruence| |exact Hsorted].
    rewrite H2. apply clamped_mono, Hhd.
Qed.

(** X21: the throttling of the progress bar never leaves an old value on
    display. Starting with nothing tracked (at the start, and after a signal
    without a number), and for signals whose percentages do not decrease,
    the value that the bar was last set to is the rounded and clamped
    percentage of the latest signal, whatever the times of the signals are;
    it lies between [0] and [100]. *)
Theorem progress_bar_never_stale (e : Q * Q) (events : list (Q * Q))
  (t : progress_tracking) (shown : option Z) :
  _last_progress_value t = None ->
  Sorted (fun a b => (a.1 <= b.1)%Q) (e :: events) ->
  let r := on_progress_all (map (fun e => (Some e.1, e.2)) (e :: events)) t in
  let latest := clamped (List.last events e).1 in
  last_set_value r.2 shown = Some latest
  /\ _last_progress_value r.1 = Some latest
  /\ (0 <= latest <= 100)%Z.
Proof.
  intros Ht Hsorted. cbv zeta.
  split; [|split; [|apply clamped_range]].
  - destruct (_on_progress (Some e.1) e.2 t) as [t1 calls1] eqn:H1.
    pose proof (on_progress_sorted events e t None) as H.
    rewrite Ht in H. specialize (H eq_refl I Hsorted). cbv zeta in H.
    destruct H as [H _].
    cbn [map on_progress_all] in H |- *. rewrite H1 in H |- *.
    destruct (on_progress_all _ t1) as [t2 calls2]. cbn [fst snd] in H |- *.
    unfold _on_progress, _should_update_progress in H1. rewrite Ht in H1.
    injection H1 as <- <-. exact H.
  - pose proof (on_progress_sorted events e t None) as H.
    rewrite Ht in H. exact (proj2 (H eq_refl I Hsorted)).
Qed.

Lemma progress_bar_never_stale_witness :
  last_set_value
    (on_progress_all
       [(Some 10%Q, 1%Q); (Some (104 # 10)%Q, (105 # 100)%Q);
        (Some 55%Q, (11 # 10)%Q)]
       _reset_progress_tracking).2 None
  = Some 55%Z.
Proof.
  refine (proj1 (progress_bar_never_stale (10%Q, 1%Q)
                   [((104 # 10)%Q, (105 # 100)%Q); (55%Q, (11 # 10)%Q)]
                   _reset_progress_tracking None eq_refl _)).
  repeat constructor; unfold Qle; simpl; lia.
Defined.
